(** * zerovector5-cerebellum: memory consolidation and persona engine

    A shallow embedding of the TypeScript core (episodic, semantic and
    procedural memory, the consolidation engine, the consciousness engine,
    the sleep cycle manager and the persona core) together with the
    properties its specification states about it.

    Conventions of the embedding.
    - A JavaScript [number] that carries a score, a duration or a timestamp
      is a real number: [Math.exp] is [exp], [Math.sqrt] is [sqrt],
      [Math.min]/[Math.max] are [Rmin]/[Rmax].  Rounding of binary64 is not
      modelled.  Where an IEEE special value decides a property (the
      quotient in [calculateSimilarity], arithmetic on a field that is
      [undefined]) the explicit type [JS.number] with [NaN] and the two
      infinities is used.
    - The relational store is modelled by its tables, each a list of rows in
      rowid order.  [DatabaseManager.prepare] hands out [run], [get] and
      [all] that return promises.  A caller that awaits the promise, or
      returns it from an [async] function whose caller awaits, sees the
      outcome of the statement.  A caller that does not await holds the
      promise object itself: it is truthy, has none of the fields of a row
      or of a run result, and no array method.  A
      [run] that is not awaited is still carried out, in the order of the
      calls; when a constraint of the schema refuses it the table stays as
      it was and the caller is not told.
    - [Date.now()] is an explicit argument [now], in milliseconds; an
      invalid [Date] has no time.
    - Opaque JSON payloads are carried in serialized form, as strings. *)

From Stdlib Require Import Reals Lra Lia ZArith List String Ascii Bool.
From Stdlib Require Import DecimalString Permutation Sorted.
Import ListNotations.

Open Scope R_scope.

(** ** JavaScript values *)

Module JS.

(** Result of an operation that may throw. *)
Inductive result (A : Type) : Type :=
| Ok (a : A)
| Throw (msg : string).
Arguments Ok {A} a.
Arguments Throw {A} msg.

Definition bind {A B : Type} (r : result A) (k : A -> result B) : result B :=
  match r with
  | Ok a => k a
  | Throw m => Throw m
  end.

(** Comparisons of numbers, as booleans. *)
Definition ltb (x y : R) : bool := if Rlt_dec x y then true else false.
Definition leb (x y : R) : bool := if Rle_dec x y then true else false.
Definition gtb (x y : R) : bool := ltb y x.
Definition geb (x y : R) : bool := leb y x.

(** [Math.max(lo, Math.min(hi, v))]. *)
Definition clamp (lo hi v : R) : R := Rmax lo (Rmin hi v).

(** A binary64 value as far as division can produce it here. *)
Inductive number : Type :=
| NaN
| PInf
| NInf
| Num (r : R).

(** [x / y] on finite operands; the divisor, when zero, is [+0]. *)
Definition div (x y : R) : number :=
  if Req_dec_T y 0 then
    if Req_dec_T x 0 then NaN
    else if Rlt_dec 0 x then PInf else NInf
  else Num (x / y).

(** [Math.min(hi, v)] and [Math.max(lo, v)] for a finite bound:
    [NaN] is contagious. *)
Definition min_num (hi : R) (v : number) : number :=
  match v with
  | NaN => NaN
  | PInf => Num hi
  | NInf => NInf
  | Num r => Num (Rmin hi r)
  end.

Definition max_num (lo : R) (v : number) : number :=
  match v with
  | NaN => NaN
  | PInf => PInf
  | NInf => Num lo
  | Num r => Num (Rmax lo r)
  end.

(** *** Strings (code units restricted to ASCII) *)

Definition toLowerCase_char (c : ascii) : ascii :=
  let n := nat_of_ascii c in
  if (Nat.leb 65 n && Nat.leb n 90)%bool then ascii_of_nat (n + 32) else c.

Fixpoint toLowerCase (s : string) : string :=
  match s with
  | EmptyString => EmptyString
  | String c s' => String (toLowerCase_char c) (toLowerCase s')
  end.

(** [s.includes(sub)]. *)
Fixpoint includes (s sub : string) : bool :=
  if String.prefix sub s then true
  else match s with
       | EmptyString => false
       | String _ s' => includes s' sub
       end.

(** A string is truthy when it is not empty. *)
Definition truthy (s : string) : bool :=
  match s with EmptyString => false | _ => true end.

(** *** Arrays *)

(** [ORDER BY] / [Array.prototype.sort] with a total preorder: stable
    insertion sort, [le x y] meaning that [x] may stand before [y]. *)
Fixpoint insert_by {A : Type} (le : A -> A -> bool) (x : A) (l : list A)
  : list A :=
  match l with
  | [] => [x]
  | y :: l' => if le x y then x :: l else y :: insert_by le x l'
  end.

Definition order_by {A : Type} (le : A -> A -> bool) (l : list A) : list A :=
  fold_right (insert_by le) [] l.

(** [Array.from(new Set(xs))]: first occurrences, in order. *)
Fixpoint dedupe (seen xs : list string) : list string :=
  match xs with
  | [] => []
  | x :: xs' =>
      if existsb (String.eqb x) seen then dedupe seen xs'
      else x :: dedupe (x :: seen) xs'
  end.

Definition set_of (xs : list string) : list string := dedupe [] xs.

(** The schema's [CHECK(v >= 0 AND v <= 1)]. *)
Definition check01 (v : R) : bool := (leb 0 v && leb v 1)%bool.

(** [`${n}`] for an integer. *)
Definition string_of_Z (z : Z) : string :=
  NilZero.string_of_int (Z.to_int z).

(** [a ?? b]. *)
Definition nullish {A : Type} (a : option A) (b : A) : A :=
  match a with Some v => v | None => b end.

(** The code unit 34, the double quote of JSON. *)
Definition quote : string := String (ascii_of_nat 34) EmptyString.

(** [[A-Za-z0-9_]], the class [\w]. *)
Definition is_word_char (c : ascii) : bool :=
  let n := nat_of_ascii c in
  ((Nat.leb 48 n && Nat.leb n 57) || (Nat.leb 65 n && Nat.leb n 90)
   || (Nat.leb 97 n && Nat.leb n 122) || Nat.eqb n 95)%bool.

(** [s.split(/\W+/)]: [cur] is the piece being read, [inSep] tells that
    the previous code unit was part of a separator. *)
Fixpoint split_nonword_from (s cur : string) (inSep : bool) : list string :=
  match s with
  | EmptyString => [cur]
  | String c s' =>
      if is_word_char c
      then split_nonword_from s' (cur ++ String c EmptyString) false
      else if inSep then split_nonword_from s' cur true
           else cur :: split_nonword_from s' EmptyString true
  end.

Definition split_nonword (s : string) : list string :=
  split_nonword_from s EmptyString false.

(** [s.split(sep)] for a separator of one code unit. *)
Fixpoint split_char_from (sep : ascii) (s cur : string) : list string :=
  match s with
  | EmptyString => [cur]
  | String c s' =>
      if Ascii.eqb c sep then cur :: split_char_from sep s' EmptyString
      else split_char_from sep s' (cur ++ String c EmptyString)
  end.

Definition split_char (sep : ascii) (s : string) : list string :=
  split_char_from sep s EmptyString.

(** [xs.join(sep)]. *)
Fixpoint join (sep : string) (xs : list string) : string :=
  match xs with
  | [] => EmptyString
  | [x] => x
  | x :: xs' => x ++ sep ++ join sep xs'
  end.

(** *** Arithmetic and ordering on [number] *)

(** [x - y]. *)
Definition sub (x y : number) : number :=
  match x, y with
  | NaN, _ => NaN
  | _, NaN => NaN
  | Num a, Num b => Num (a - b)
  | PInf, PInf => NaN
  | NInf, NInf => NaN
  | PInf, _ => PInf
  | NInf, _ => NInf
  | Num _, PInf => NInf
  | Num _, NInf => PInf
  end.

(** [x >= y] for a finite [y]; it fails on [NaN]. *)
Definition geb_num (x : number) (y : R) : bool :=
  match x with
  | NaN => false
  | PInf => true
  | NInf => false
  | Num a => geb a y
  end.

(** [v > 0], the verdict of a comparator that asks for a swap. *)
Definition positive (v : number) : bool :=
  match v with
  | PInf => true
  | Num r => ltb 0 r
  | _ => false
  end.

(** [xs.sort(compare)]: the sort is stable, so an element stays before a
    later one unless the comparator asks for the swap. *)
Definition sort {A : Type} (compare : A -> A -> number) (xs : list A)
  : list A :=
  order_by (fun a b => negb (positive (compare a b))) xs.

(** [v > y] for a finite [y]; it fails on [NaN]. *)
Definition gtb_num (x : number) (y : R) : bool :=
  match x with
  | NaN => false
  | PInf => true
  | NInf => false
  | Num a => gtb a y
  end.

(** [x + y] and [x * y]. *)
Definition add (x y : number) : number :=
  match x, y with
  | NaN, _ => NaN
  | _, NaN => NaN
  | Num a, Num b => Num (a + b)
  | PInf, NInf => NaN
  | NInf, PInf => NaN
  | PInf, _ => PInf
  | NInf, _ => NInf
  | Num _, PInf => PInf
  | Num _, NInf => NInf
  end.

(** The sign of a product with an infinity: [0 * Infinity] is [NaN]. *)
Definition scaled_infinity (positive_infinity : bool) (a : R) : number :=
  if Req_dec_T a 0 then NaN
  else if Bool.eqb positive_infinity (ltb 0 a) then PInf else NInf.

Definition mul (x y : number) : number :=
  match x, y with
  | NaN, _ => NaN
  | _, NaN => NaN
  | Num a, Num b => Num (a * b)
  | PInf, Num b => scaled_infinity true b
  | NInf, Num b => scaled_infinity false b
  | Num a, PInf => scaled_infinity true a
  | Num a, NInf => scaled_infinity false a
  | PInf, PInf => PInf
  | NInf, NInf => PInf
  | PInf, NInf => NInf
  | NInf, PInf => NInf
  end.

(** [Math.abs(x)]. *)
Definition abs (x : number) : number :=
  match x with
  | NaN => NaN
  | PInf => PInf
  | NInf => PInf
  | Num a => Num (Rabs a)
  end.

(** A number read off a field that may be [undefined]: in arithmetic
    [undefined] counts as [NaN]. *)
Definition numeric (v : option number) : number :=
  match v with
  | Some x => x
  | None => NaN
  end.

(** [a ?? b] where [b] may be [undefined] as well. *)
Definition or_else {A : Type} (a b : option A) : option A :=
  match a with
  | Some _ => a
  | None => b
  end.

(** *** Whole numbers of milliseconds and dates

    A difference of times is an integer or, when a date was invalid,
    [NaN]; a [Date] has a time or is invalid. *)
Definition integer : Type := option Z.
Definition date : Type := option Z.

(** [new Date(v)] for a stored time that may be [undefined]. *)
Definition new_date (v : option Z) : date := v.

(** [d.getTime()]. *)
Definition getTime (d : date) : integer := d.

(** [d.toISOString()], the text standing for the time it denotes. *)
Definition toISOString (d : date) : result Z :=
  match d with
  | Some t => Ok t
  | None => Throw "RangeError: Invalid time value"
  end.

(** [a - b] and [a + b] on such numbers. *)
Definition int_sub (a b : integer) : integer :=
  match a, b with
  | Some x, Some y => Some (x - y)%Z
  | _, _ => None
  end.

Definition int_add (a b : integer) : integer :=
  match a, b with
  | Some x, Some y => Some (x + y)%Z
  | _, _ => None
  end.

(** [a > b] for a finite [b]; it fails on [NaN]. *)
Definition int_gtb (a : integer) (b : Z) : bool :=
  match a with
  | Some x => (b <? x)%Z
  | None => false
  end.

(** *** Promises

    What [run], [get] and [all] of a prepared statement return
    (DatabaseManager.ts:131-138): a promise of the outcome of the
    statement. *)
Inductive promise (A : Type) : Type :=
| Promise (outcome : result A).
Arguments Promise {A} outcome.

(** [!p]: an object is truthy. *)
Definition falsy {A : Type} (p : promise A) : bool := false.

(** [p.f] for a field [f] of the value that [p] stands for: the promise
    itself has no such field, the read gives [undefined]. *)
Definition field {A B : Type} (p : promise A) (f : A -> option B)
  : option B := None.

(** [p.map(...)] and [p.filter(...)]: a promise has no such method. *)
Definition array_method {A B : Type} (p : promise (list A)) (callee : string)
           (run : list A -> list B) : result (list B) :=
  Throw ("TypeError: " ++ callee ++ " is not a function").

(** A [run] that is not awaited: the statement is carried out; when a
    constraint refuses it, the store stays as it was and the rejection
    reaches no handler of the caller. *)
Definition fire {S : Type} (statement : S -> result S) (s : S) : S :=
  match statement s with
  | Ok s' => s'
  | Throw _ => s
  end.

End JS.

(** ** Tables of the persona side of the schema *)

Module Schema.

(** The [sleep_type] column of [sleep_cycles]. *)
Inductive SleepType : Type :=
| light_processing
| deep_consolidation
| rem_integration
| extended_reorganization
| maintenance.

(** The [current_state] column of [consciousness_states]. *)
Inductive Mode : Type := awake | sleeping | dreaming.

(** Values held by the [state_context] object; [JNull] is what a [NaN]
    becomes in the stored text. *)
Inductive json : Type :=
| JString (s : string)
| JNumber (z : Z)
| JBoolean (b : bool)
| JDate (ms : Z)
| JNull.

Definition Context : Type := list (string * json).

(** A [REAL] column without [NOT NULL], and a [TEXT] column of modes
    without it: a value, or [NULL].  A parameter that is [undefined] or
    [NaN] is stored as [NULL]. *)
Definition real_or_null : Type := option JS.number.
Definition stored (r : R) : real_or_null := Some (JS.Num r).
Coercion stored : R >-> real_or_null.

(** The value a [REAL] column takes from a parameter. *)
Definition to_real (v : option JS.number) : real_or_null :=
  match v with
  | Some JS.NaN => None
  | _ => v
  end.

Definition mode_or_null : Type := option Mode.
Definition stored_mode (m : Mode) : mode_or_null := Some m.
Coercion stored_mode : Mode >-> mode_or_null.

Record PersonaRow : Type := mkPersona {
  persona_key : string;
  persona_name : string;
  persona_description : string;
  consciousness_level : R;
  created_at : Z;
  last_active : Z;
  last_sleep : Z
}.

Record TraitRow : Type := mkTrait {
  trait_persona_id : string;
  trait_name : string;
  value : R;
  trait_description : string;
  trait_last_updated : Z
}.

(** A row of [consciousness_states]. *)
Record ConsciousnessState : Type := mkState {
  personaId : string;
  selfAwareness : real_or_null;
  temporalContinuity : real_or_null;
  socialCognition : real_or_null;
  metacognition : real_or_null;
  currentState : mode_or_null;
  stateContext : Context;
  lastAwakening : Z;
  lastUpdated : Z
}.

Record Change : Type := mkChange {
  metric : string;
  previousValue : option R;
  newValue : JS.number;
  change : JS.number
}.

(** A row of [consciousness_evolution_log], its three JSON texts in
    parsed form. *)
Record EvolutionRow : Type := mkEvolution {
  log_persona_id : string;
  log_timestamp : Z;
  changes : list Change;
  previous_state : option R * option R * option R * option R;
  new_state : JS.number * JS.number * JS.number * JS.number
}.

Record SleepCycleRow : Type := mkSleepCycle {
  cycle_persona_id : string;
  sleep_type : SleepType;
  duration : Z;
  cycle_timestamp : Z;
  consolidation_processed : bool
}.

Record Database : Type := mkDatabase {
  personas : list PersonaRow;
  personality_traits : list TraitRow;
  consciousness_states : list ConsciousnessState;
  consciousness_evolution_log : list EvolutionRow;
  sleep_cycles : list SleepCycleRow
}.

Definition with_personas (db : Database) (t : list PersonaRow) : Database :=
  mkDatabase t (personality_traits db) (consciousness_states db)
             (consciousness_evolution_log db) (sleep_cycles db).

Definition with_traits (db : Database) (t : list TraitRow) : Database :=
  mkDatabase (personas db) t (consciousness_states db)
             (consciousness_evolution_log db) (sleep_cycles db).

Definition with_states (db : Database) (t : list ConsciousnessState)
  : Database :=
  mkDatabase (personas db) (personality_traits db) t
             (consciousness_evolution_log db) (sleep_cycles db).

Definition with_evolution_log (db : Database) (t : list EvolutionRow)
  : Database :=
  mkDatabase (personas db) (personality_traits db) (consciousness_states db)
             t (sleep_cycles db).

Definition with_sleep_cycles (db : Database) (t : list SleepCycleRow)
  : Database :=
  mkDatabase (personas db) (personality_traits db) (consciousness_states db)
             (consciousness_evolution_log db) t.

End Schema.

(** ** Consciousness engine *)

Module ConsciousnessEngine.
Import Schema.

(** [{...ctx, [k]: v}]: an existing key keeps its place. *)
Fixpoint assign (ctx : Context) (k : string) (v : json) : Context :=
  match ctx with
  | [] => [(k, v)]
  | (k', v') :: ctx' =>
      if String.eqb k' k then (k, v) :: ctx'
      else (k', v') :: assign ctx' k v
  end.

(** The object [getCurrentState] returns; a field is [None] when the read
    it comes from gave [undefined]. *)
Record StateView : Type := mkView {
  view_personaId : option string;
  view_selfAwareness : option JS.number;
  view_temporalContinuity : option JS.number;
  view_socialCognition : option JS.number;
  view_metacognition : option JS.number;
  view_currentState : option Mode;
  view_stateContext : Context;
  view_lastAwakening : JS.date;
  view_lastUpdated : JS.date
}.

Record Updates : Type := mkUpdates {
  u_selfAwareness : option JS.number;
  u_temporalContinuity : option JS.number;
  u_socialCognition : option JS.number;
  u_metacognition : option JS.number;
  u_currentState : option Mode;
  u_stateContext : option Context;
  u_lastAwakening : option Z
}.

(** [INSERT INTO consciousness_states]; [persona_id] is the primary key. *)
Definition insert_state (now : Z) (personaId_ : string) (db : Database)
  : JS.result Database :=
  if existsb (fun r => String.eqb (personaId r) personaId_)
             (consciousness_states db)
  then JS.Throw "SQLITE_CONSTRAINT: UNIQUE constraint failed: consciousness_states.persona_id"
  else JS.Ok (with_states db
                (consciousness_states db ++
                 [mkState personaId_ 0.5 0.8 0.6 0.7 awake
                          [("initialized"%string, JBoolean true)] now now])).

(** [initialize]: the insert is not awaited. *)
Definition initialize (db : Database) (now : Z) (personaId_ : string)
  : Database :=
  JS.fire (insert_state now personaId_) db.

(** A column of the row that a [get] found, if it found one. *)
Definition column {B : Type} (read : ConsciousnessState -> option B)
           (row : option ConsciousnessState) : option B :=
  match row with
  | Some r => read r
  | None => None
  end.

(** [getCurrentState]: the result of [stmt.get] is not awaited, [state]
    is the promise. *)
Definition getCurrentState (db : Database) (personaId_ : option string)
  : JS.result StateView :=
  let state :=
    JS.Promise
      (JS.Ok (find (fun r => match personaId_ with
                             | Some p => String.eqb (personaId r) p
                             | None => false
                             end)
                   (consciousness_states db))) in
  if JS.falsy state
  then JS.Throw ("No consciousness state found for persona "
                 ++ JS.nullish personaId_ "null"%string)
  else
    JS.Ok (mkView
             (JS.field state (column (fun r => Some (personaId r))))
             (JS.field state (column selfAwareness))
             (JS.field state (column temporalContinuity))
             (JS.field state (column socialCognition))
             (JS.field state (column metacognition))
             (JS.field state (column currentState))
             (JS.nullish
                (JS.field state (column (fun r => Some (stateContext r))))
                [])
             (JS.new_date
                (JS.field state (column (fun r => Some (lastAwakening r)))))
             (JS.new_date
                (JS.field state (column (fun r => Some (lastUpdated r)))))).

(** [updateState]: the arguments of [stmt.run] are evaluated first, and
    [toISOString] of an invalid date throws; the [run] itself is not
    awaited and no constraint can refuse it. *)
Definition updateState (db : Database) (now : Z) (personaId_ : string)
           (updates : Updates) : Database * JS.result unit :=
  match getCurrentState db (Some personaId_) with
  | JS.Throw e => (db, JS.Throw e)
  | JS.Ok current =>
      match match u_lastAwakening updates with
            | Some t => JS.Ok t
            | None => JS.toISOString (view_lastAwakening current)
            end with
      | JS.Throw e => (db, JS.Throw e)
      | JS.Ok lastAwakening_ =>
          (with_states db
             (map (fun r =>
                     if String.eqb (personaId r) personaId_
                     then mkState (personaId r)
                            (to_real (JS.or_else (u_selfAwareness updates)
                                        (view_selfAwareness current)))
                            (to_real (JS.or_else (u_temporalContinuity updates)
                                        (view_temporalContinuity current)))
                            (to_real (JS.or_else (u_socialCognition updates)
                                        (view_socialCognition current)))
                            (to_real (JS.or_else (u_metacognition updates)
                                        (view_metacognition current)))
                            (JS.or_else (u_currentState updates)
                                        (view_currentState current))
                            (JS.nullish (u_stateContext updates)
                                        (view_stateContext current))
                            lastAwakening_
                            now
                     else r)
                  (consciousness_states db)),
           JS.Ok tt)
      end
  end.

(** [Math.max(0, Math.min(1, value))]. *)
Definition clampValue (value : option JS.number) : JS.number :=
  JS.max_num 0 (JS.min_num 1 (JS.numeric value)).

(** Every comparison fails on [NaN], which leaves the last branch. *)
Definition calculateTemporalContinuity (sleepDuration : JS.integer) : R :=
  match sleepDuration with
  | Some d =>
      let hours := IZR d / (1000 * 60 * 60) in
      if JS.ltb hours 1 then Rmin 0.95 (0.8 + 0.15)
      else if JS.ltb hours 8 then Rmin 0.9 (0.8 + 0.1)
      else if JS.ltb hours 24 then Rmin 0.85 (0.8 + 0.05)
      else Rmax 0.6 (0.8 - 0.2)
  | None => Rmax 0.6 (0.8 - 0.2)
  end.

Definition formatTimeAwareness (sleepDuration : JS.integer) : string :=
  match sleepDuration with
  | Some d =>
      let hours := (d / (1000 * 60 * 60))%Z in
      let minutes := (Z.rem d (1000 * 60 * 60) / (1000 * 60))%Z in
      if (0 <? hours)%Z
      then "I was asleep for " ++ JS.string_of_Z hours ++ " hours and "
           ++ JS.string_of_Z minutes ++ " minutes"
      else "I was asleep for " ++ JS.string_of_Z minutes ++ " minutes"
  | None => "I was asleep for NaN minutes"
  end.

Definition handleAwakening (db : Database) (now : Z) (personaId_ : string)
           (sleepDuration : JS.integer) : Database * JS.result unit :=
  let temporalContinuity_ := calculateTemporalContinuity sleepDuration in
  match getCurrentState db (Some personaId_) with
  | JS.Throw e => (db, JS.Throw e)
  | JS.Ok current =>
      let newStateContext :=
        assign (assign (assign (assign (view_stateContext current)
          "lastAwakening" (JDate now))
          "sleepDuration" (match sleepDuration with
                           | Some d => JNumber d
                           | None => JNull
                           end))
          "timeAwareness" (JString (formatTimeAwareness sleepDuration)))
          "awakenedFromSleep" (JBoolean true) in
      updateState db now personaId_
        (mkUpdates None (Some (JS.Num temporalContinuity_)) None None
                   (Some awake) (Some newStateContext) (Some now))
  end.

(** A property that is [undefined] is left out of the stored text. *)
Definition assign_defined (ctx : Context) (k : string) (v : option json)
  : Context :=
  match v with
  | Some x => assign ctx k x
  | None => ctx
  end.

Definition mode_name (m : Mode) : string :=
  match m with
  | awake => "awake"
  | sleeping => "sleeping"
  | dreaming => "dreaming"
  end.

Definition transitionToSleep (db : Database) (now : Z) (personaId_ : string)
  : Database * JS.result unit :=
  match getCurrentState db (Some personaId_) with
  | JS.Throw e => (db, JS.Throw e)
  | JS.Ok current =>
      let newStateContext :=
        assign_defined
          (assign (assign (view_stateContext current)
             "sleepStart" (JDate now))
             "dreamState" (JString "memory_consolidation"))
          "lastActiveState"
          (option_map (fun m => JString (mode_name m))
                      (view_currentState current)) in
      updateState db now personaId_
        (mkUpdates None None None None (Some sleeping) (Some newStateContext)
                   None)
  end.

Definition enterDreamState (db : Database) (now : Z) (personaId_ : string)
           (dreamType : string) : Database * JS.result unit :=
  match getCurrentState db (Some personaId_) with
  | JS.Throw e => (db, JS.Throw e)
  | JS.Ok current =>
      let dreamStateContext :=
        assign (assign (assign (view_stateContext current)
          "dreamType" (JString dreamType))
          "dreamStart" (JDate now))
          "dreamPhase" (JString "initial") in
      updateState db now personaId_
        (mkUpdates None None None None (Some dreaming)
                   (Some dreamStateContext) None)
  end.

Definition scalars (st : StateView)
  : option R * option R * option R * option R :=
  let json_number := fun v : option JS.number =>
    match v with
    | Some (JS.Num r) => Some r
    | _ => None
    end in
  (json_number (view_selfAwareness st),
   json_number (view_temporalContinuity st),
   json_number (view_socialCognition st),
   json_number (view_metacognition st)).

Definition calculateConsciousnessChanges (previous : StateView)
           (current : JS.number * JS.number * JS.number * JS.number)
  : list Change :=
  let '(sa, tc, sc, mc) := current in
  let threshold := 0.01 in
  let entry (name : string) (prev : option JS.number) (curr : JS.number)
    : list Change :=
    if JS.geb_num (JS.abs (JS.sub curr (JS.numeric prev))) threshold
    then [mkChange name
            (match prev with Some (JS.Num r) => Some r | _ => None end)
            curr (JS.sub curr (JS.numeric prev))]
    else [] in
  entry "selfAwareness"%string (view_selfAwareness previous) sa ++
  entry "temporalContinuity"%string (view_temporalContinuity previous) tc ++
  entry "socialCognition"%string (view_socialCognition previous) sc ++
  entry "metacognition"%string (view_metacognition previous) mc.

(** [logConsciousnessEvolution] catches what it throws; its insert is not
    awaited and no constraint can refuse it. *)
Definition logConsciousnessEvolution (db : Database) (now : Z)
           (personaId_ : string) (previousState : StateView)
           (newState : JS.number * JS.number * JS.number * JS.number)
  : Database :=
  let changes_ := calculateConsciousnessChanges previousState newState in
  if Nat.ltb 0 (List.length changes_)
  then with_evolution_log db
         (consciousness_evolution_log db ++
          [mkEvolution personaId_ now changes_ (scalars previousState)
                       newState])
  else db.

(** The [adjustments] argument: the scalars the caller supplies. *)
Record Adjustments : Type := mkAdjustments {
  adj_selfAwareness : option R;
  adj_temporalContinuity : option R;
  adj_socialCognition : option R;
  adj_metacognition : option R
}.

(** [Math.abs(value - currentValue) > 0.001]. *)
Definition moved (value : JS.number) (currentValue : option JS.number)
  : bool :=
  JS.gtb_num (JS.abs (JS.sub value (JS.numeric currentValue))) 0.001.

Definition updateConsciousnessLevel (db : Database) (now : Z)
           (personaId_ : string) (adjustments : Adjustments)
  : Database * JS.result unit :=
  match getCurrentState db (Some personaId_) with
  | JS.Throw e => (db, JS.Throw e)
  | JS.Ok current =>
      let sa := clampValue
                  (JS.or_else (option_map JS.Num (adj_selfAwareness adjustments))
                              (view_selfAwareness current)) in
      let tc := clampValue
                  (JS.or_else
                     (option_map JS.Num (adj_temporalContinuity adjustments))
                     (view_temporalContinuity current)) in
      let sc := clampValue
                  (JS.or_else
                     (option_map JS.Num (adj_socialCognition adjustments))
                     (view_socialCognition current)) in
      let mc := clampValue
                  (JS.or_else (option_map JS.Num (adj_metacognition adjustments))
                              (view_metacognition current)) in
      let hasChanges :=
        (moved sa (view_selfAwareness current) ||
         moved tc (view_temporalContinuity current) ||
         moved sc (view_socialCognition current) ||
         moved mc (view_metacognition current))%bool in
      if hasChanges then
        match updateState db now personaId_
                (mkUpdates (Some sa) (Some tc) (Some sc) (Some mc)
                           None None None) with
        | (db', JS.Throw e) => (db', JS.Throw e)
        | (db', JS.Ok _) =>
            (logConsciousnessEvolution db' now personaId_ current
                                       (sa, tc, sc, mc),
             JS.Ok tt)
        end
      else (db, JS.Ok tt)
  end.

End ConsciousnessEngine.

(** ** Sleep cycle manager: classification *)

Module SleepCycleManager.
Export Schema.

Definition determineSleepType (sleepDuration : R) : SleepType :=
  let hours := sleepDuration / (1000 * 60 * 60) in
  if JS.ltb hours 2 then light_processing
  else if JS.ltb hours 6 then deep_consolidation
  else if JS.ltb hours 12 then rem_integration
  else extended_reorganization.

(** Position of a type in the escalation order of the passes. *)
Definition bracket (t : SleepType) : nat :=
  match t with
  | light_processing => 0
  | deep_consolidation => 1
  | rem_integration => 2
  | extended_reorganization => 3
  | maintenance => 4
  end.

(** The consolidation engine as the manager sees it: each pass acts on the
    memory stores [Mem] and leaves them in some state, together with the
    error it threw, if any. *)
Record MemoryConsolidation (Mem : Type) : Type := mkEngine {
  consolidateRecent : string -> nat -> Mem -> Mem * option string;
  consolidateWithPatterns : string -> Mem -> Mem * option string;
  integrateCreativeInsights : string -> Mem -> Mem * option string;
  fullMemoryReorganization : string -> Mem -> Mem * option string
}.
Arguments consolidateRecent {Mem} _ _ _ _.
Arguments consolidateWithPatterns {Mem} _ _ _.
Arguments integrateCreativeInsights {Mem} _ _ _.
Arguments fullMemoryReorganization {Mem} _ _ _.

Section Passes.
Context {Mem : Type} (memoryConsolidation : MemoryConsolidation Mem).

(** Each of the four wrappers catches what its passes throw. *)
Definition lightMemoryProcessing (personaId_ : string) (mem : Mem) : Mem :=
  fst (consolidateRecent memoryConsolidation personaId_ 10 mem).

Definition deepMemoryConsolidation (personaId_ : string) (mem : Mem) : Mem :=
  fst (consolidateWithPatterns memoryConsolidation personaId_ mem).

Definition remMemoryIntegration (personaId_ : string) (mem : Mem) : Mem :=
  match integrateCreativeInsights memoryConsolidation personaId_ mem with
  | (mem', Some _) => mem'
  | (mem', None) => deepMemoryConsolidation personaId_ mem'
  end.

Definition extendedMemoryReorganization (personaId_ : string) (mem : Mem)
  : Mem :=
  match fullMemoryReorganization memoryConsolidation personaId_ mem with
  | (mem', Some _) => mem'
  | (mem', None) => remMemoryIntegration personaId_ mem'
  end.

Definition logSleepCycle (db : Database) (now : Z) (personaId_ : string)
           (consolidationType : SleepType) (sleepDuration : Z) : Database :=
  with_sleep_cycles db
    (sleep_cycles db ++
     [mkSleepCycle personaId_ consolidationType sleepDuration now true]).

Definition processConsolidation (db : Database) (mem : Mem) (now : Z)
           (personaId_ : string) (sleepDuration : Z) : Database * Mem :=
  let consolidationType := determineSleepType (IZR sleepDuration) in
  let mem' :=
    match consolidationType with
    | light_processing => lightMemoryProcessing personaId_ mem
    | deep_consolidation => deepMemoryConsolidation personaId_ mem
    | rem_integration => remMemoryIntegration personaId_ mem
    | extended_reorganization => extendedMemoryReorganization personaId_ mem
    | maintenance => mem
    end in
  (logSleepCycle db now personaId_ consolidationType sleepDuration, mem').

End Passes.

(** [SELECT MAX(timestamp) ... WHERE persona_id = ? AND sleep_type =
    'maintenance'], the latest maintenance on record. *)
Definition latest_maintenance (db : Database) (personaId_ : string)
  : option Z :=
  fold_left (fun latest r =>
               if (String.eqb (cycle_persona_id r) personaId_
                   && match sleep_type r with
                      | maintenance => true
                      | _ => false
                      end)%bool
               then Some (match latest with
                          | Some t => Z.max t (cycle_timestamp r)
                          | None => cycle_timestamp r
                          end)
               else latest)
            (sleep_cycles db) None.

(** [getLastMaintenanceDate]: [result] is the promise of the row, and
    [result.last_maintenance] is read off it; [None] stands for [null]. *)
Definition getLastMaintenanceDate (db : Database) (personaId_ : string)
  : option JS.date :=
  let result := JS.Promise (JS.Ok (latest_maintenance db personaId_)) in
  match JS.field result (fun last_maintenance => last_maintenance) with
  | Some t => Some (JS.new_date (Some t))
  | None => None
  end.

(** [performMaintenance]: the maintenance of the consolidation engine
    only writes to the log; the cycle is recorded and the persona marked
    active, by statements that are not awaited and that no constraint
    refuses. *)
Definition performMaintenance (db : Database) (now : Z) (personaId_ : string)
  : Database :=
  let logged := logSleepCycle db now personaId_ maintenance 0 in
  with_personas logged
    (map (fun r =>
            if String.eqb (persona_key r) personaId_
            then mkPersona (persona_key r) (persona_name r)
                   (persona_description r) (consciousness_level r)
                   (created_at r) now (last_sleep r)
            else r) (personas logged)).

Definition scheduleMaintenance (db : Database) (now : Z) (personaId_ : string)
  : Database :=
  let lastMaintenance := getLastMaintenanceDate db personaId_ in
  let hoursSinceLastMaintenance :=
    match lastMaintenance with
    | Some d =>
        match JS.int_sub (Some now) (JS.getTime d) with
        | Some elapsed => JS.Num (IZR elapsed / (1000 * 60 * 60))
        | None => JS.NaN
        end
    | None => JS.Num 24
    end in
  if JS.geb_num hoursSinceLastMaintenance 12
  then performMaintenance db now personaId_
  else db.

(** The gaps between consecutive cycles, [previous - current]. *)
Fixpoint intervals (cycles : list SleepCycleRow) : list Z :=
  match cycles with
  | previous :: rest =>
      match rest with
      | current :: _ =>
          (cycle_timestamp previous - cycle_timestamp current)%Z
          :: intervals rest
      | [] => []
      end
  | [] => []
  end.

Definition calculateAverageInterval (cycles : list SleepCycleRow) : R :=
  if Nat.ltb (List.length cycles) 2 then 0
  else IZR (fold_left Z.add (intervals cycles) 0%Z)
       / INR (List.length (intervals cycles)).

Definition calculateSleepEfficiency (cycles : list SleepCycleRow) : R :=
  if Nat.eqb (List.length cycles) 0 then 0
  else INR (List.length (filter consolidation_processed cycles))
       / INR (List.length cycles).

End SleepCycleManager.

(** ** Persona core *)

Module PersonaCore.
Import Schema.

(** The instance fields [personaId] and [isInitialized]. *)
Record Instance : Type := mkInstance {
  this_personaId : option string;
  isInitialized : bool
}.

Definition has_personaId (self : Instance) : bool :=
  match this_personaId self with
  | Some p => JS.truthy p
  | None => false
  end.

(** A trait as [getPersonalityTraits] maps it. *)
Record PersonalityTrait : Type := mkPersonalityTrait {
  name : string;
  trait_value : R;
  description : string
}.

(** The profile [getPersonaProfile] builds; a field is [None], or a date
    invalid, when the read it comes from gave [undefined]. *)
Record PersonaProfile : Type := mkProfile {
  profile_id : option string;
  profile_name : option string;
  profile_description : option string;
  personalityTraits : list PersonalityTrait;
  consciousnessState : ConsciousnessEngine.StateView;
  timeAwake : JS.integer;
  lastSleep : JS.date;
  lastActive : JS.date;
  createdAt : JS.date
}.

Inductive Outcome : Type := positive | negative | neutral.

Record ExperienceData : Type := mkExperienceData {
  eventType : string;
  outcome : Outcome;
  emotionalImpact : R;
  contextTags : list string
}.

Definition is_positive (o : Outcome) : bool :=
  match o with positive => true | _ => false end.
Definition is_negative (o : Outcome) : bool :=
  match o with negative => true | _ => false end.

(** [Map.prototype.set]: an existing key keeps its place. *)
Fixpoint map_set (m : list (string * R)) (k : string) (v : R)
  : list (string * R) :=
  match m with
  | [] => [(k, v)]
  | (k', v') :: m' =>
      if String.eqb k' k then (k, v) :: m' else (k', v') :: map_set m' k v
  end.

Fixpoint map_get (m : list (string * R)) (k : string) : option R :=
  match m with
  | [] => None
  | (k', v') :: m' => if String.eqb k' k then Some v' else map_get m' k
  end.

Definition adjustmentRules (experience : ExperienceData) (baseAdjustment : R)
  : list (string * R) :=
  let pos := is_positive (outcome experience) in
  let neg := is_negative (outcome experience) in
  let ty := eventType experience in
  if String.eqb ty "social_interaction" then
    [("extraversion"%string,
      if pos then baseAdjustment else - baseAdjustment * 0.5);
     ("agreeableness"%string,
      if pos then baseAdjustment * 0.5 else - baseAdjustment * 0.3)]
  else if String.eqb ty "problem_solving" then
    [("openness"%string, if pos then baseAdjustment else 0);
     ("conscientiousness"%string,
      if pos then baseAdjustment else - baseAdjustment * 0.5)]
  else if String.eqb ty "creative_task" then
    [("openness"%string, baseAdjustment * 0.8);
     ("curiosity"%string, baseAdjustment * 0.6)]
  else if String.eqb ty "learning_experience" then
    [("curiosity"%string, baseAdjustment * 1.2);
     ("openness"%string, baseAdjustment * 0.7)]
  else if String.eqb ty "stressful_situation" then
    [("neuroticism"%string,
      if neg then baseAdjustment * 0.8 else - baseAdjustment * 0.4);
     ("conscientiousness"%string,
      if pos then baseAdjustment * 0.3 else 0)]
  else if String.eqb ty "empathetic_interaction" then
    [("empathy"%string, baseAdjustment * 0.9);
     ("agreeableness"%string, baseAdjustment * 0.5)]
  else [].

Definition bump (m : list (string * R)) (k : string) (d : R)
  : list (string * R) :=
  map_set m k (JS.nullish (map_get m k) 0 + d).

Definition calculateTraitAdjustments (experience : ExperienceData)
           (currentTraits : list PersonalityTrait) : list (string * R) :=
  let baseAdjustment := 0.01 * emotionalImpact experience in
  let adjustments :=
    fold_left (fun m kv => map_set m (fst kv) (snd kv))
              (adjustmentRules experience baseAdjustment) [] in
  fold_left (fun m tag =>
    let m1 := if JS.includes tag "social"
              then bump m "extraversion" (baseAdjustment * 0.3) else m in
    let m2 := if JS.includes tag "creative"
              then bump m1 "openness" (baseAdjustment * 0.4) else m1 in
    if JS.includes tag "analytical"
    then bump m2 "conscientiousness" (baseAdjustment * 0.3) else m2)
    (contextTags experience) adjustments.

Definition defaultTraits : list (string * R * string) :=
  [("openness"%string, 0.6, "Openness to new experiences and ideas"%string);
   ("conscientiousness"%string, 0.7, "Organization and goal-directed behavior"%string);
   ("extraversion"%string, 0.5, "Social engagement and assertiveness"%string);
   ("agreeableness"%string, 0.6, "Cooperation and social harmony"%string);
   ("neuroticism"%string, 0.3, "Emotional stability and stress resilience"%string);
   ("curiosity"%string, 0.8, "Drive to learn and explore"%string);
   ("empathy"%string, 0.7, "Understanding and sharing feelings of others"%string)].

(** [INSERT INTO personality_traits] under [UNIQUE(persona_id, trait_name)]
    and [CHECK(value >= 0 AND value <= 1)]. *)
Definition insert_trait (db : Database) (row : TraitRow) : JS.result Database :=
  if negb (JS.check01 (value row)) then
    JS.Throw "SQLITE_CONSTRAINT: CHECK constraint failed: personality_traits"
  else if existsb (fun r => (String.eqb (trait_persona_id r) (trait_persona_id row)
                             && String.eqb (trait_name r) (trait_name row))%bool)
                  (personality_traits db) then
    JS.Throw "SQLITE_CONSTRAINT: UNIQUE constraint failed: personality_traits"
  else JS.Ok (with_traits db (personality_traits db ++ [row])).

Definition trait_matches (personaId_ traitName : string) (r : TraitRow) : bool :=
  (String.eqb (trait_persona_id r) personaId_
   && String.eqb (trait_name r) traitName)%bool.

(** [UPDATE personality_traits SET value = ?, last_updated = ? WHERE
    persona_id = ? AND trait_name = ?]: the new table and [changes]. *)
Definition update_trait (db : Database) (now : Z) (personaId_ traitName : string)
           (newValue : R) : JS.result (Database * nat) :=
  let hits := filter (trait_matches personaId_ traitName) (personality_traits db) in
  if (Nat.ltb 0 (List.length hits) && negb (JS.check01 newValue))%bool then
    JS.Throw "SQLITE_CONSTRAINT: CHECK constraint failed: personality_traits"
  else
    JS.Ok (with_traits db
             (map (fun r =>
                     if trait_matches personaId_ traitName r
                     then mkTrait (trait_persona_id r) (trait_name r) newValue
                                  (trait_description r) now
                     else r) (personality_traits db)),
           List.length hits).

Section Engine.
Context {Mem : Type}
        (memoryConsolidation : SleepCycleManager.MemoryConsolidation Mem).

Record State : Type := mkSt {
  self : Instance;
  db : Database;
  mem : Mem
}.

(** What a call does to the state: it returns, it throws, or it never
    comes back (the bound [fuel] on nested calls was reached). *)
Inductive completion (A : Type) : Type :=
| Diverges
| Returns (a : A) (st : State)
| Throws (msg : string) (st : State).
Arguments Diverges {A}.
Arguments Returns {A} a st.
Arguments Throws {A} msg st.

Definition M (A : Type) : Type := State -> completion A.

Definition ret {A : Type} (a : A) : M A := fun st => Returns a st.
Definition throw {A : Type} (msg : string) : M A := fun st => Throws msg st.
Definition bind {A B : Type} (m : M A) (k : A -> M B) : M B :=
  fun st =>
    match m st with
    | Diverges => Diverges
    | Returns a st' => k a st'
    | Throws msg st' => Throws msg st'
    end.
Definition get : M State := fun st => Returns st st.
Definition put_self (i : Instance) : M unit :=
  fun st => Returns tt (mkSt i (db st) (mem st)).
Definition put_db (d : Database) : M unit :=
  fun st => Returns tt (mkSt (self st) d (mem st)).
Definition put_mem (m : Mem) : M unit :=
  fun st => Returns tt (mkSt (self st) (db st) m).
(** A [run] that is not awaited. *)
Definition run_db (f : Database -> JS.result Database) : M unit :=
  fun st => Returns tt (mkSt (self st) (JS.fire f (db st)) (mem st)).
(** A method of another component that writes and cannot throw. *)
Definition modify_db (f : Database -> Database) : M unit :=
  fun st => Returns tt (mkSt (self st) (f (db st)) (mem st)).
(** An awaited call of a method of another component on the store: what
    it wrote stays when it throws. *)
Definition call_db {A : Type} (f : Database -> Database * JS.result A)
  : M A :=
  fun st =>
    match f (db st) with
    | (d, JS.Ok a) => Returns a (mkSt (self st) d (mem st))
    | (d, JS.Throw msg) => Throws msg (mkSt (self st) d (mem st))
    end.
Definition lift {A : Type} (r : JS.result A) : M A :=
  fun st =>
    match r with
    | JS.Ok a => Returns a st
    | JS.Throw msg => Throws msg st
    end.

Notation "x <- m ;; k" := (bind m (fun x => k))
  (at level 61, m at next level, right associativity).
Notation "m ;;; k" := (bind m (fun _ => k))
  (at level 61, right associativity).

Definition when (b : bool) (m : M unit) : M unit :=
  if b then m else ret tt.

Fixpoint for_each {A : Type} (l : list A) (body : A -> M unit) : M unit :=
  match l with
  | [] => ret tt
  | x :: l' => body x ;;; for_each l' body
  end.

(** [SELECT * FROM personas LIMIT 1]. *)
Definition getExistingPersona : M (option PersonaRow) :=
  st <- get ;; ret (hd_error (personas (db st))).

(** [getPersonalityTraits]: [rows] is the promise of the rows; the
    [TypeError] of [rows.map] is caught and the method returns [[]]. *)
Definition getPersonalityTraits : M (list PersonalityTrait) :=
  st <- get ;;
  match this_personaId (self st) with
  | Some p =>
      if JS.truthy p then
        let rows :=
          JS.Promise
            (JS.Ok (JS.order_by
                      (fun a b => String.leb (trait_name a) (trait_name b))
                      (filter (fun r => String.eqb (trait_persona_id r) p)
                              (personality_traits (db st))))) in
        match JS.array_method rows "rows.map"
                (map (fun row => mkPersonalityTrait (trait_name row)
                                   (value row) (trait_description row))) with
        | JS.Ok traits => ret traits
        | JS.Throw _ => ret []
        end
      else ret []
  | None => ret []
  end.

Definition createDefaultPersonalityTraits (now : Z) (personaId_ : string)
  : M unit :=
  for_each defaultTraits (fun t =>
    let '(name_, value_, description_) := t in
    run_db (fun d => insert_trait d
              (mkTrait personaId_ name_ value_ description_ now))).

Definition createDefaultPersona (now : Z) : M string :=
  let personaId_ := ("persona_" ++ JS.string_of_Z now)%string in
  run_db (fun d =>
    if existsb (fun r => String.eqb (persona_key r) personaId_) (personas d)
    then JS.Throw "SQLITE_CONSTRAINT: UNIQUE constraint failed: personas.id"
    else JS.Ok (with_personas d
           (personas d ++
            [mkPersona personaId_ "ZV5 Persona"
               "Zero Vector 5 Dedicated Persona - A conscious AI entity with evolving personality and persistent memory"
               0.5 now now now]))) ;;;
  modify_db (fun d => ConsciousnessEngine.initialize d now personaId_) ;;;
  createDefaultPersonalityTraits now personaId_ ;;;
  ret personaId_.

(** The argument bound to [?] for [this.personaId]: [null] matches no row. *)
Definition update_last_active (now : Z) (p : option string) (d : Database)
  : Database :=
  with_personas d
    (map (fun r =>
            match p with
            | Some k =>
                if String.eqb (persona_key r) k
                then mkPersona (persona_key r) (persona_name r)
                       (persona_description r) (consciousness_level r)
                       (created_at r) now (last_sleep r)
                else r
            | None => r
            end) (personas d)).

(** The methods below call [initialize] back; [init] stands for that
    call. *)
Section Methods.
Variable init : M (option string).
Variable now : Z.

Definition updateActivity : M unit :=
  st <- get ;;
  when (negb (has_personaId (self st))) (init ;;; ret tt) ;;;
  st <- get ;;
  put_db (update_last_active now (this_personaId (self st)) (db st)).

(** [getPersonaProfile]: [persona] is the promise of the row, so that
    the test for a missing persona never fires and every field read off
    it is [undefined]. *)
Definition getPersonaProfile : M PersonaProfile :=
  st <- get ;;
  when (negb (isInitialized (self st)) || negb (has_personaId (self st)))%bool
       (init ;;; ret tt) ;;;
  st <- get ;;
  let persona :=
    JS.Promise
      (JS.Ok (find (fun r => match this_personaId (self st) with
                             | Some p => String.eqb (persona_key r) p
                             | None => false
                             end)
                   (personas (db st)))) in
  if JS.falsy persona then throw "Persona not found"
  else
    consciousnessState_ <-
      lift (ConsciousnessEngine.getCurrentState (db st)
              (this_personaId (self st))) ;;
    traits <- getPersonalityTraits ;;
    let read := fun {B : Type} (f : PersonaRow -> B) =>
      JS.field persona (option_map f) in
    let timeAwake_ :=
      JS.int_sub (Some now)
                 (JS.getTime (JS.new_date (read last_sleep))) in
    ret (mkProfile (read persona_key) (read persona_name)
           (read persona_description) traits consciousnessState_ timeAwake_
           (JS.new_date (read last_sleep))
           (JS.new_date (read last_active))
           (JS.new_date (read created_at))).

Definition awakePersona : M unit :=
  st <- get ;;
  match this_personaId (self st) with
  | None => ret tt
  | Some p =>
      if negb (JS.truthy p) then ret tt
      else
        persona <- getPersonaProfile ;;
        let sleepDuration :=
          JS.int_sub (Some now) (JS.getTime (lastSleep persona)) in
        call_db (fun d =>
          ConsciousnessEngine.handleAwakening d now p sleepDuration) ;;;
        when (JS.int_gtb sleepDuration (30 * 60 * 1000))
             (match sleepDuration with
              | Some elapsed =>
                  st <- get ;;
                  let '(d', m') :=
                    SleepCycleManager.processConsolidation
                      memoryConsolidation (db st) (mem st) now p elapsed in
                  put_db d' ;;; put_mem m'
              | None => ret tt
              end) ;;;
        updateActivity
  end.

Definition createPersonalityTrait (traitName : string) (value_ : R)
           (description_ : string) : M unit :=
  st <- get ;;
  match this_personaId (self st) with
  | None => ret tt
  | Some p =>
      if negb (JS.truthy p) then ret tt
      else run_db (fun d =>
             insert_trait d (mkTrait p traitName value_ description_ now))
  end.

(** [updatePersonalityTrait]: the update is not awaited; [result] is the
    promise of its outcome, so that [result.changes === 0] compares
    [undefined] with [0]. *)
Definition updatePersonalityTrait (traitName : string) (newValue : R)
           (reason : option string) : M unit :=
  st <- get ;;
  when (negb (has_personaId (self st))) (init ;;; ret tt) ;;;
  if (JS.ltb newValue 0 || JS.gtb newValue 1)%bool then
    throw "Personality trait value must be between 0 and 1"
  else
    st <- get ;;
    let statement :=
      match this_personaId (self st) with
      | Some p => update_trait (db st) now p traitName newValue
      | None => JS.Ok (db st, 0%nat)
      end in
    let result := JS.Promise statement in
    put_db (match statement with
            | JS.Ok (d, _) => d
            | JS.Throw _ => db st
            end) ;;;
    when (match JS.field result (fun r => Some (snd r)) with
          | Some changes_ => Nat.eqb changes_ 0
          | None => false
          end)
         (createPersonalityTrait traitName newValue "") ;;;
    (* logPersonalityEvolution only writes to the debug log *)
    updateActivity.

Definition evolvePersonalityFromExperience
           (experienceData : ExperienceData) : M unit :=
  st <- get ;;
  when (negb (has_personaId (self st))) (init ;;; ret tt) ;;;
  traits <- getPersonalityTraits ;;
  let adjustments := calculateTraitAdjustments experienceData traits in
  for_each adjustments (fun entry =>
    let '(traitName, adjustment) := entry in
    match find (fun t => String.eqb (name t) traitName) traits with
    | Some currentTrait =>
        let newValue :=
          Rmax 0 (Rmin 1 (trait_value currentTrait + adjustment)) in
        when (JS.gtb (Rabs adjustment) 0.001)
             (updatePersonalityTrait traitName newValue
                (Some ("Experience: " ++ eventType experienceData)%string))
    | None => ret tt
    end).

End Methods.

(** [initialize()]; [fuel] bounds the depth of the calls back into it. *)
Fixpoint initialize (fuel : nat) (now : Z) : M (option string) :=
  match fuel with
  | O => fun _ => Diverges
  | S fuel' =>
      st <- get ;;
      if (isInitialized (self st) && has_personaId (self st))%bool
      then ret (this_personaId (self st))
      else
        existingPersona <- getExistingPersona ;;
        match existingPersona with
        | Some existing =>
            put_self (mkInstance (Some (persona_key existing))
                                 (isInitialized (self st))) ;;;
            awakePersona (initialize fuel' now) now ;;;
            st <- get ;;
            put_self (mkInstance (this_personaId (self st)) true) ;;;
            ret (this_personaId (self st))
        | None =>
            p <- createDefaultPersona now ;;
            put_self (mkInstance (Some p) true) ;;;
            ret (Some p)
        end
  end.

End Engine.

Arguments Diverges {Mem A}.
Arguments Returns {Mem A} a st.
Arguments Throws {Mem A} msg st.

End PersonaCore.
(** ** Embedding generator *)

Module EmbeddingGenerator.

(** The accumulation loop of [calculateSimilarity]:
    [(dotProduct, norm1, norm2)] after the remaining components. *)
Fixpoint accumulate (e1 e2 : list R) (dotProduct norm1 norm2 : R)
  : R * R * R :=
  match e1, e2 with
  | a :: e1', b :: e2' =>
      accumulate e1' e2' (dotProduct + a * b) (norm1 + a * a) (norm2 + b * b)
  | _, _ => (dotProduct, norm1, norm2)
  end.

Definition calculateSimilarity (embedding1 embedding2 : list R)
  : JS.result JS.number :=
  if negb (Nat.eqb (List.length embedding1) (List.length embedding2)) then
    JS.Throw "Embeddings must have the same dimension"
  else
    let '(dotProduct, norm1, norm2) := accumulate embedding1 embedding2 0 0 0 in
    let similarity := JS.div dotProduct (sqrt norm1 * sqrt norm2) in
    JS.Ok (JS.max_num (-1) (JS.min_num 1 similarity)).

(** Mathematical reading: inner product, squared norm, cosine. *)
Fixpoint dot (u v : list R) : R :=
  match u, v with
  | a :: u', b :: v' => a * b + dot u' v'
  | _, _ => 0
  end.

Definition norm (u : list R) : R := sqrt (dot u u).

Definition cosine (u v : list R) : R := dot u v / (norm u * norm v).

(** An element of [candidateEmbeddings] and a scored result; [Meta] is the
    type of the metadata carried along. *)
Record Candidate (Meta : Type) : Type := mkCandidate {
  cand_id : string;
  cand_embedding : list R;
  cand_metadata : Meta
}.
Arguments mkCandidate {Meta} _ _ _.
Arguments cand_id {Meta} _.
Arguments cand_embedding {Meta} _.
Arguments cand_metadata {Meta} _.

Record Scored (Meta : Type) : Type := mkScored {
  scored_id : string;
  score : JS.number;
  scored_metadata : Meta
}.
Arguments mkScored {Meta} _ _ _.
Arguments scored_id {Meta} _.
Arguments score {Meta} _.
Arguments scored_metadata {Meta} _.

Section TopSimilar.
Context {Meta : Type}.

(** [candidateEmbeddings.map(candidate => ...)]: the first candidate of
    another dimension makes the whole call throw. *)
Fixpoint similarities (queryEmbedding : list R)
         (candidateEmbeddings : list (Candidate Meta))
  : JS.result (list (Scored Meta)) :=
  match candidateEmbeddings with
  | [] => JS.Ok []
  | candidate :: rest =>
      JS.bind (calculateSimilarity queryEmbedding (cand_embedding candidate))
        (fun s =>
           JS.bind (similarities queryEmbedding rest) (fun more =>
             JS.Ok (mkScored (cand_id candidate) s (cand_metadata candidate)
                    :: more)))
  end.

(** [(a, b) => b.score - a.score]. *)
Definition by_score (a b : Scored Meta) : JS.number :=
  JS.sub (score b) (score a).

Definition findTopSimilar (queryEmbedding : list R)
           (candidateEmbeddings : list (Candidate Meta))
           (limit : nat) (threshold : R) : JS.result (list (Scored Meta)) :=
  JS.bind (similarities queryEmbedding candidateEmbeddings) (fun all =>
    JS.Ok (firstn limit
             (JS.sort by_score
                (filter (fun item => JS.geb_num (score item) threshold)
                        all)))).

End TopSimilar.

End EmbeddingGenerator.

(** ** Episodic memory *)

Module EpisodicMemory.

(** A row of [episodic_memories]; [timestamp] in milliseconds. *)
Record EpisodeRow : Type := mkRow {
  row_id : string;
  persona_id : string;
  row_timestamp : Z;
  event_type : string;
  row_content : string;
  row_context : string;
  emotional_valence : R;
  importance_score : R;
  row_participants : list string;
  row_location : option string;
  is_consolidated : bool
}.

Record EpisodicMemoryEntry : Type := mkEntry {
  id : string;
  timestamp : Z;
  eventType : string;
  content : string;
  context : string;
  emotionalValence : R;
  importanceScore : R;
  participants : list string;
  location : option string
}.

Definition mapRowToEpisode (row : EpisodeRow) : EpisodicMemoryEntry :=
  mkEntry (row_id row) (row_timestamp row) (event_type row) (row_content row)
          (row_context row) (emotional_valence row) (importance_score row)
          (row_participants row) (row_location row).

(** [Date.prototype.getHours], the process running in UTC. *)
Definition getHours (t : Z) : Z := ((t / (1000 * 60 * 60)) mod 24)%Z.

(** [ORDER BY timestamp DESC]. *)
Definition newer_first (a b : EpisodeRow) : bool :=
  (row_timestamp b <=? row_timestamp a)%Z.

(** [SELECT * FROM episodic_memories WHERE persona_id = ? ORDER BY
    timestamp DESC LIMIT ?]. *)
Definition recent_rows (db : list EpisodeRow) (personaId : string)
           (limit : nat) : list EpisodeRow :=
  firstn limit
    (JS.order_by newer_first
       (filter (fun r => String.eqb (persona_id r) personaId) db)).

(** [getRecentEpisodes]: [rows] is the promise that [stmt.all] returned,
    and [rows.map] is called on it. *)
Definition getRecentEpisodes (db : list EpisodeRow) (personaId : string)
           (limit : nat) : JS.result (list EpisodicMemoryEntry) :=
  let rows := JS.Promise (JS.Ok (recent_rows db personaId limit)) in
  JS.array_method rows "rows.map" (map mapRowToEpisode).

(** [... WHERE persona_id = ? AND is_consolidated = 0 ORDER BY timestamp
    DESC LIMIT 50]. *)
Definition unconsolidated_rows (db : list EpisodeRow) (personaId : string)
  : list EpisodeRow :=
  firstn 50
    (JS.order_by newer_first
       (filter (fun r => (String.eqb (persona_id r) personaId
                          && negb (is_consolidated r))%bool) db)).

(** [getUnconsolidatedEpisodes], likewise. *)
Definition getUnconsolidatedEpisodes (db : list EpisodeRow)
           (personaId : string) : JS.result (list EpisodicMemoryEntry) :=
  let rows := JS.Promise (JS.Ok (unconsolidated_rows db personaId)) in
  JS.array_method rows "rows.map" (map mapRowToEpisode).

Definition identifyPatterns (episode : EpisodicMemoryEntry) : list string :=
  let hour := getHours (timestamp episode) in
  [ if (hour <? 6)%Z then "late_night"
    else if (hour <? 12)%Z then "morning"
    else if (hour <? 18)%Z then "afternoon"
    else "evening" ]%string
  ++ (if String.eqb (eventType episode) "conversation"
      then if Nat.ltb 2 (List.length (participants episode))
           then ["group_conversation"%string]
           else ["one_on_one_conversation"%string]
      else [])
  ++ (if JS.gtb (emotionalValence episode) 0.5
      then ["positive_experience"%string]
      else if JS.ltb (emotionalValence episode) (-0.5)
           then ["negative_experience"%string]
           else []).

(** [patterns.includes(p)]. *)
Definition has (patterns : list string) (p : string) : bool :=
  existsb (String.eqb p) patterns.

Definition recalculateImportance (now : Z) (episode : EpisodicMemoryEntry)
           (patterns : list string) : R :=
  let importance := importanceScore episode in
  let importance :=
    if has patterns "positive_experience" then importance + 0.1
    else importance in
  let importance :=
    if has patterns "negative_experience" then importance + 0.15
    else importance in
  let importance :=
    if has patterns "group_conversation" then importance + 0.05
    else importance in
  let ageInDays :=
    IZR (now - timestamp episode) / (1000 * 60 * 60 * 24) in
  let decay := exp (- ageInDays / 30) in
  let importance := importance * decay in
  Rmax 0 (Rmin 1 importance).

Definition set_importance (r : EpisodeRow) (v : R) : EpisodeRow :=
  mkRow (row_id r) (persona_id r) (row_timestamp r) (event_type r)
        (row_content r) (row_context r) (emotional_valence r) v
        (row_participants r) (row_location r) (is_consolidated r).

Definition set_consolidated (r : EpisodeRow) : EpisodeRow :=
  mkRow (row_id r) (persona_id r) (row_timestamp r) (event_type r)
        (row_content r) (row_context r) (emotional_valence r)
        (importance_score r) (row_participants r) (row_location r) true.

Definition updateEpisodeImportance (db : list EpisodeRow) (episodeId : string)
           (newImportance : R) : list EpisodeRow :=
  map (fun r => if String.eqb (row_id r) episodeId
                then set_importance r newImportance else r) db.

Definition markConsolidated (db : list EpisodeRow) (episodeId : string)
  : list EpisodeRow :=
  map (fun r => if String.eqb (row_id r) episodeId
                then set_consolidated r else r) db.

(** [consolidateMemories]: the table it leaves, and how the call ends;
    what [getUnconsolidatedEpisodes] throws is logged and thrown again. *)
Definition consolidateMemories (db : list EpisodeRow) (now : Z)
           (personaId : string) : list EpisodeRow * JS.result unit :=
  match getUnconsolidatedEpisodes db personaId with
  | JS.Throw error => (db, JS.Throw error)
  | JS.Ok recentEpisodes =>
      (fold_left (fun d episode =>
                    let patterns := identifyPatterns episode in
                    let updatedImportance :=
                      recalculateImportance now episode patterns in
                    markConsolidated
                      (updateEpisodeImportance d (id episode)
                                               updatedImportance)
                      (id episode))
                 recentEpisodes db,
       JS.Ok tt)
  end.

(** The formula as the specification words it: the three bucket bonuses of
    the code and [+0.02] for an importance that is already high (above
    [0.7], the bound of [high_importance_event]), then the decay, clamped. *)
Definition spec_bucketBonuses (episode : EpisodicMemoryEntry) : R :=
  (if JS.gtb (emotionalValence episode) 0.5 then 0.1 else 0)
  + (if JS.ltb (emotionalValence episode) (-0.5) then 0.15 else 0)
  + (if (String.eqb (eventType episode) "conversation"
         && Nat.ltb 2 (List.length (participants episode)))%bool
     then 0.05 else 0)
  + (if JS.gtb (importanceScore episode) 0.7 then 0.02 else 0).

Definition ageDays (now : Z) (episode : EpisodicMemoryEntry) : R :=
  IZR (now - timestamp episode) / (1000 * 60 * 60 * 24).

Definition spec_importance (now : Z) (episode : EpisodicMemoryEntry) : R :=
  JS.clamp 0 1 ((importanceScore episode + spec_bucketBonuses episode)
                * exp (- ageDays now episode / 30)).

End EpisodicMemory.

(** ** Memory consolidation engine: the recent pass *)

Module MemoryConsolidation.
Import EpisodicMemory.

Record Adjustment : Type := mkAdjustment {
  memoryId : string;
  oldScore : R;
  newScore : R;
  reason : string
}.

Record MemoryConsolidationResult : Type := mkResult {
  consolidatedCount : nat;
  patternsIdentified : list string;
  importanceAdjustments : list Adjustment;
  insights : list string
}.

Definition identifyBasicPatterns (episode : EpisodicMemoryEntry)
  : list string :=
  let hour := getHours (timestamp episode) in
  [ if (hour <? 6)%Z then "late_night_activity"
    else if (hour <? 12)%Z then "morning_activity"
    else if (hour <? 18)%Z then "afternoon_activity"
    else "evening_activity" ]%string
  ++ (if JS.truthy (eventType episode)
      then [("event_type_" ++ eventType episode)%string] else [])
  ++ (if JS.gtb (emotionalValence episode) 0.5
      then ["positive_emotional_experience"%string]
      else if JS.ltb (emotionalValence episode) (-0.5)
           then ["negative_emotional_experience"%string]
           else [])
  ++ (if JS.gtb (importanceScore episode) 0.7
      then ["high_importance_event"%string] else []).

Definition calculateConsolidatedImportance (now : Z)
           (episode : EpisodicMemoryEntry) (patterns : list string) : R :=
  let importance := importanceScore episode in
  let importance :=
    if has patterns "positive_emotional_experience" then importance + 0.05
    else importance in
  let importance :=
    if has patterns "high_importance_event" then importance + 0.02
    else importance in
  let importance :=
    if has patterns "negative_emotional_experience" then importance + 0.08
    else importance in
  let ageInDays :=
    IZR (now - timestamp episode) / (1000 * 60 * 60 * 24) in
  let decay := exp (- ageInDays / 60) in
  let importance := importance * decay in
  let patternBonus := Rmin (INR (List.length patterns) * 0.01) 0.05 in
  let importance := importance + patternBonus in
  Rmax 0 (Rmin 1 importance).

Definition updateEpisodeImportance (db : list EpisodeRow) (episodeId : string)
           (newImportance : R) : list EpisodeRow :=
  map (fun r => if String.eqb (row_id r) episodeId
                then set_importance r newImportance else r) db.

Definition step (now : Z) (acc : list EpisodeRow * MemoryConsolidationResult)
           (episode : EpisodicMemoryEntry)
  : list EpisodeRow * MemoryConsolidationResult :=
  let '(db, result) := acc in
  let patterns := identifyBasicPatterns episode in
  let newImportance := calculateConsolidatedImportance now episode patterns in
  let adjust :=
    JS.gtb (Rabs (newImportance - importanceScore episode)) 0.05 in
  (if adjust
   then updateEpisodeImportance db (id episode) newImportance
   else db,
   mkResult (S (consolidatedCount result))
            (patternsIdentified result ++ patterns)
            (if adjust
             then importanceAdjustments result ++
                  [mkAdjustment (id episode) (importanceScore episode)
                                newImportance "Recent consolidation adjustment"]
             else importanceAdjustments result)
            (insights result)).

Definition string_of_nat (n : nat) : string := JS.string_of_Z (Z.of_nat n).

(** [consolidateRecent]: the table it leaves, and its result; what
    [getRecentEpisodes] throws is logged and thrown again. *)
Definition consolidateRecent (db : list EpisodeRow) (now : Z)
           (personaId : string) (limit : nat)
  : list EpisodeRow * JS.result MemoryConsolidationResult :=
  match getRecentEpisodes db personaId limit with
  | JS.Throw error => (db, JS.Throw error)
  | JS.Ok recentEpisodes =>
      let '(db', result) :=
        fold_left (step now) recentEpisodes (db, mkResult 0 [] [] []) in
      let count := List.length (importanceAdjustments result) in
      (db',
       JS.Ok
         (mkResult (consolidatedCount result) (patternsIdentified result)
            (importanceAdjustments result)
            (insights result
             ++ [("Processed " ++ string_of_nat (consolidatedCount result)
                  ++ " recent memories")%string]
             ++ (if Nat.ltb 0 count
                 then [("Adjusted importance scores for "
                        ++ string_of_nat count ++ " memories")%string]
                 else []))))
  end.

End MemoryConsolidation.

(** ** Vector database *)

Module VectorDatabase.

(** A row of [vector_embeddings], keyed by the id of the record it indexes. *)
Record VectorEntry : Type := mkVector {
  vector_id : string;
  embedding : list R;
  metadata : list (string * string)
}.

(** [delete]: the row goes; [result] is the promise of the outcome of
    the [run], and [result.changes > 0] compares [undefined] with [0], so
    that the answer is [false] whether a row went or not. *)
Definition delete (index : list VectorEntry) (k : string)
  : list VectorEntry * bool :=
  let result :=
    JS.Promise
      (JS.Ok (List.length
                (filter (fun e => String.eqb (vector_id e) k) index))) in
  (filter (fun e => negb (String.eqb (vector_id e) k)) index,
   match JS.field result (fun changes => Some changes) with
   | Some changes => Nat.ltb 0 changes
   | None => false
   end).

End VectorDatabase.

(** ** Semantic memory *)

Module SemanticMemory.
Export VectorDatabase.

(** A row of [semantic_knowledge]. *)
Record KnowledgeRow : Type := mkRow {
  row_id : string;
  persona_id : string;
  row_domain : string;
  row_concept : string;
  row_content : string;
  confidence_level : R;
  row_source : string;
  row_relationships : list string
}.

Record SemanticKnowledge : Type := mkKnowledge {
  id : string;
  domain : string;
  concept : string;
  content : string;
  confidenceLevel : R;
  source : string;
  relationships : list string
}.

Record Store : Type := mkStore {
  semantic_knowledge : list KnowledgeRow;
  vector_embeddings : list VectorEntry
}.

Definition mapRowToKnowledge (row : KnowledgeRow) : SemanticKnowledge :=
  mkKnowledge (row_id row) (row_domain row) (row_concept row)
              (row_content row) (confidence_level row) (row_source row)
              (row_relationships row).

(** [UPDATE semantic_knowledge SET confidence_level = ?, updated_at = ?
    WHERE id = ?], under the column's CHECK constraint. *)
Definition update_confidence (knowledgeId : string) (newConfidence : R)
           (st : Store) : JS.result Store :=
  if (existsb (fun r => String.eqb (row_id r) knowledgeId)
              (semantic_knowledge st)
      && negb (JS.check01 newConfidence))%bool
  then JS.Throw "SQLITE_CONSTRAINT: CHECK constraint failed: semantic_knowledge"
  else JS.Ok (mkStore
         (map (fun r =>
                 if String.eqb (row_id r) knowledgeId
                 then mkRow (row_id r) (persona_id r) (row_domain r)
                            (row_concept r) (row_content r) newConfidence
                            (row_source r) (row_relationships r)
                 else r) (semantic_knowledge st))
         (vector_embeddings st)).

(** [updateKnowledgeConfidence]: the update is not awaited, and the
    reinforcing experience only goes to the debug log; the call ends
    normally whether the store took the value or not. *)
Definition updateKnowledgeConfidence (st : Store) (knowledgeId : string)
           (newConfidence : R) (reinforcingExperience : option string)
  : Store * JS.result unit :=
  (JS.fire (update_confidence knowledgeId newConfidence) st, JS.Ok tt).

(** [SELECT * FROM semantic_knowledge WHERE persona_id = ?]. *)
Definition knowledge_rows (st : Store) (personaId : string)
  : list KnowledgeRow :=
  filter (fun r => String.eqb (persona_id r) personaId)
         (semantic_knowledge st).

(** [getAllKnowledge]: [rows] is the promise that [stmt.all] returned,
    and [rows.map] is called on it. *)
Definition getAllKnowledge (st : Store) (personaId : string)
  : JS.result (list SemanticKnowledge) :=
  let rows := JS.Promise (JS.Ok (knowledge_rows st personaId)) in
  JS.array_method rows "rows.map" (map mapRowToKnowledge).

Definition findCommonWords (text1 text2 : string) : list string :=
  let long := fun w => Nat.ltb 3 (String.length w) in
  let words1 := JS.set_of (filter long (JS.split_nonword text1)) in
  let words2 := JS.set_of (filter long (JS.split_nonword text2)) in
  filter (fun word => existsb (String.eqb word) words2) words1.

Definition calculateConceptSimilarity (k1 k2 : SemanticKnowledge) : R :=
  let conceptSimilarity :=
    if String.eqb (JS.toLowerCase (concept k1)) (JS.toLowerCase (concept k2))
    then 1 else 0 in
  let content1 := JS.toLowerCase (content k1) in
  let content2 := JS.toLowerCase (content k2) in
  let commonWords := findCommonWords content1 content2 in
  let contentSimilarity :=
    INR (List.length commonWords)
    / Rmax (INR (List.length (JS.split_char " " content1)))
           (INR (List.length (JS.split_char " " content2))) in
  conceptSimilarity * 0.7 + contentSimilarity * 0.3.

Definition processed_has (processed : list string) (k : string) : bool :=
  existsb (String.eqb k) processed.

(** The inner loop: the entries that join [item]'s group. *)
Fixpoint collect_similar (item : SemanticKnowledge)
         (knowledge : list SemanticKnowledge) (processed : list string)
  : list SemanticKnowledge * list string :=
  match knowledge with
  | [] => ([], processed)
  | other :: rest =>
      if (processed_has processed (id other)
          || negb (String.eqb (domain other) (domain item)))%bool
      then collect_similar item rest processed
      else if JS.gtb (calculateConceptSimilarity item other) 0.8
           then let '(more, processed') :=
                  collect_similar item rest (id other :: processed) in
                (other :: more, processed')
           else collect_similar item rest processed
  end.

(** The outer loop over [items], every inner loop scanning all of
    [knowledge]. *)
Fixpoint candidates_from (knowledge items : list SemanticKnowledge)
         (processed : list string) : list (list SemanticKnowledge) :=
  match items with
  | [] => []
  | item :: rest =>
      if processed_has processed (id item)
      then candidates_from knowledge rest processed
      else
        let '(others, processed') :=
          collect_similar item knowledge (id item :: processed) in
        let similar := item :: others in
        if Nat.ltb 1 (List.length similar)
        then similar :: candidates_from knowledge rest processed'
        else candidates_from knowledge rest processed'
  end.

Definition findConsolidationCandidates (knowledge : list SemanticKnowledge)
  : list (list SemanticKnowledge) :=
  candidates_from knowledge knowledge [].

(** [entries.reduce((prev, current) => current.confidenceLevel >
    prev.confidenceLevel ? current : prev)]. *)
Definition primary_of (first : SemanticKnowledge)
           (rest : list SemanticKnowledge) : SemanticKnowledge :=
  fold_left (fun prev current =>
               if JS.gtb (confidenceLevel current) (confidenceLevel prev)
               then current else prev) rest first.

Definition mergedContent (primary : SemanticKnowledge)
           (others : list SemanticKnowledge) : string :=
  ("{" ++ JS.quote ++ "primary" ++ JS.quote ++ ":" ++ content primary
   ++ "," ++ JS.quote ++ "additional" ++ JS.quote ++ ":["
   ++ JS.join "," (map content others) ++ "]}")%string.

(** [mergeKnowledgeEntries]: none of its statements is awaited; the
    update of the primary is refused, without a word to the caller, when
    the new confidence fails the CHECK of the column, and the others are
    deleted all the same. *)
Definition mergeKnowledgeEntries (st : Store)
           (entries : list SemanticKnowledge) : JS.result Store :=
  match entries with
  | [] | [_] => JS.Ok st
  | first :: rest =>
      let primary := primary_of first rest in
      let others :=
        filter (fun e => negb (String.eqb (id e) (id primary))) entries in
      let allRelationships :=
        JS.set_of (relationships primary ++ flat_map relationships others) in
      let newConfidence :=
        Rmin 1 (confidenceLevel primary + INR (List.length others) * 0.05) in
      let updated :=
        if (existsb (fun r => String.eqb (row_id r) (id primary))
                    (semantic_knowledge st)
            && negb (JS.check01 newConfidence))%bool
        then semantic_knowledge st
        else
          map (fun r =>
                 if String.eqb (row_id r) (id primary)
                 then mkRow (row_id r) (persona_id r) (row_domain r)
                            (row_concept r) (mergedContent primary others)
                            newConfidence (row_source r) allRelationships
                 else r) (semantic_knowledge st) in
      JS.Ok (fold_left
               (fun s other =>
                  mkStore
                    (filter (fun r => negb (String.eqb (row_id r) (id other)))
                            (semantic_knowledge s))
                    (fst (VectorDatabase.delete (vector_embeddings s) (id other))))
               others (mkStore updated (vector_embeddings st)))
  end.

(** The loop of [consolidateKnowledge] over the groups. *)
Definition merge_groups (st : Store)
           (consolidationCandidates : list (list SemanticKnowledge))
  : JS.result Store :=
  fold_left (fun acc candidates =>
               JS.bind acc (fun s =>
                 if Nat.ltb 1 (List.length candidates)
                 then mergeKnowledgeEntries s candidates
                 else JS.Ok s))
            consolidationCandidates (JS.Ok st).

(** [consolidateKnowledge]: the store it leaves, and how the call ends;
    what [getAllKnowledge] throws is logged and thrown again. *)
Definition consolidateKnowledge (st : Store) (personaId : string)
  : Store * JS.result unit :=
  match getAllKnowledge st personaId with
  | JS.Throw error => (st, JS.Throw error)
  | JS.Ok allKnowledge =>
      let consolidationCandidates :=
        findConsolidationCandidates allKnowledge in
      match merge_groups st consolidationCandidates with
      | JS.Ok st' => (st', JS.Ok tt)
      | JS.Throw error => (st, JS.Throw error)
      end
  end.

(** *** The knowledge graph *)

Record KnowledgeNode : Type := mkNode {
  node_id : string;
  node_concept : string;
  node_domain : string;
  node_content : string;
  connections : list string;
  strength : R
}.

(** The two steps on [conceptMap] for one item: the key is created with an
    empty list when it is new, and the relationships are pushed onto its
    list. *)
Fixpoint conceptMap_push (m : list (string * list string)) (k : string)
         (rels : list string) : list (string * list string) :=
  match m with
  | [] => [(k, rels)]
  | (k', v) :: m' =>
      if String.eqb k' k then (k', v ++ rels) :: m'
      else (k', v) :: conceptMap_push m' k rels
  end.

Fixpoint conceptMap_get (m : list (string * list string)) (k : string)
  : option (list string) :=
  match m with
  | [] => None
  | (k', v) :: m' => if String.eqb k' k then Some v else conceptMap_get m' k
  end.

Definition calculateConnectionStrength (knowledge : SemanticKnowledge)
           (connectionCount : nat) : R :=
  let strength_ := confidenceLevel knowledge in
  let connectionBoost := Rmin (INR connectionCount * 0.1) 0.3 in
  Rmin 1 (strength_ + connectionBoost).

Definition constructKnowledgeGraph (knowledge : list SemanticKnowledge)
  : list KnowledgeNode :=
  let conceptMap :=
    fold_left (fun m item =>
                 conceptMap_push m (concept item) (relationships item))
              knowledge [] in
  map (fun item =>
         let connections_ :=
           JS.nullish (conceptMap_get conceptMap (concept item)) [] in
         mkNode (id item) (concept item) (domain item) (content item)
                connections_
                (calculateConnectionStrength item (List.length connections_)))
      knowledge.

End SemanticMemory.

(** ** Procedural memory *)

Module ProceduralMemory.

(** A row of [procedural_skills]; [usage_count] admits [NULL]. *)
Record SkillRow : Type := mkSkillRow {
  id : string;
  persona_id : string;
  skill_name : string;
  domain : string;
  pattern : string;
  success_rate : R;
  context_conditions : list string;
  usage_count : option Z;
  last_used : Z
}.

Record ProceduralSkill : Type := mkSkill {
  skillId : string;
  name : string;
  skillDomain : string;
  skillPattern : string;
  successRate : R;
  contextConditions : list string;
  usageCount : option Z;
  lastUsed : Z
}.

Definition mapRowToSkill (row : SkillRow) : ProceduralSkill :=
  {| skillId := id row;
     name := skill_name row;
     skillDomain := domain row;
     skillPattern := pattern row;
     successRate := success_rate row;
     contextConditions := context_conditions row;
     usageCount := usage_count row;
     lastUsed := last_used row |}.

Definition contextMatches (currentContext requiredConditions : list string)
  : bool :=
  if Nat.eqb (List.length requiredConditions) 0 then true
  else
    existsb (fun condition =>
      existsb (fun ctx =>
        let ctxLower := JS.toLowerCase ctx in
        let condLower := JS.toLowerCase condition in
        (JS.includes ctxLower condLower || JS.includes condLower ctxLower)%bool)
        currentContext)
      requiredConditions.

(** [WHERE persona_id = ? [AND domain = ?]]; the domain clause is added
    only for a truthy [domain]. *)
Definition selected (personaId : string) (domain_ : option string)
           (row : SkillRow) : bool :=
  (String.eqb (persona_id row) personaId &&
   match domain_ with
   | Some d => if JS.truthy d then String.eqb (domain row) d else true
   | None => true
   end)%bool.

(** [usage_count DESC]: [NULL] sorts after every count. *)
Definition count_geb (a b : option Z) : bool :=
  match a, b with
  | Some x, Some y => Z.geb x y
  | Some _, None => true
  | None, Some _ => false
  | None, None => true
  end.

(** [ORDER BY success_rate DESC, usage_count DESC]. *)
Definition before (a b : SkillRow) : bool :=
  (JS.gtb (success_rate a) (success_rate b) ||
   (JS.geb (success_rate a) (success_rate b) &&
    count_geb (usage_count a) (usage_count b)))%bool.

(** The rows the query of [getApplicableSkills] selects. *)
Definition skill_rows (db : list SkillRow) (personaId : string)
           (domain_ : option string) : list SkillRow :=
  JS.order_by before (filter (selected personaId domain_) db).

(** [getApplicableSkills]: [skills] is the promise that [stmt.all]
    returned, and [skills.filter] is called on it; the error is logged
    and thrown again. *)
Definition getApplicableSkills (db : list SkillRow) (personaId : string)
           (context : list string) (domain_ : option string)
  : JS.result (list ProceduralSkill) :=
  let skills := JS.Promise (JS.Ok (skill_rows db personaId domain_)) in
  JS.bind
    (JS.array_method skills "skills.filter"
       (filter (fun skill =>
                  contextMatches context (context_conditions skill))))
    (fun applicable => JS.Ok (map mapRowToSkill applicable)).

(** [UPDATE procedural_skills SET success_rate = ?, usage_count = ?,
    last_used = ? WHERE id = ?]: a rate that is [NaN] is bound as [NULL],
    which [NOT NULL] refuses; any other rate outside [[0,1]] fails the
    CHECK of the column; a count that is [NaN] is stored as [NULL]. *)
Definition run_update (rate : JS.number) (count : JS.integer) (last : Z)
           (skillId_ : string) (db : list SkillRow)
  : JS.result (list SkillRow) :=
  if existsb (fun r => String.eqb (id r) skillId_) db then
    match rate with
    | JS.NaN =>
        JS.Throw "SQLITE_CONSTRAINT: NOT NULL constraint failed: procedural_skills.success_rate"
    | JS.Num r =>
        if JS.check01 r
        then JS.Ok (map (fun row =>
                           if String.eqb (id row) skillId_
                           then mkSkillRow (id row) (persona_id row)
                                  (skill_name row) (domain row) (pattern row)
                                  r (context_conditions row) count last
                           else row) db)
        else JS.Throw "SQLITE_CONSTRAINT: CHECK constraint failed: procedural_skills"
    | _ =>
        JS.Throw "SQLITE_CONSTRAINT: CHECK constraint failed: procedural_skills"
    end
  else JS.Ok db.

(** [updateSkillPerformance]: [skill] is the promise that [stmt.get]
    returned, so that the test for a missing skill never fires and the
    two fields read off it are [undefined]; the update is not awaited.
    The table it leaves, and how the call ends. *)
Definition updateSkillPerformance (db : list SkillRow) (now : Z)
           (skillId_ : string) (wasSuccessful : bool) (context : list string)
  : list SkillRow * JS.result unit :=
  let skill :=
    JS.Promise (JS.Ok (find (fun r => String.eqb (id r) skillId_) db)) in
  if JS.falsy skill then
    (* logger.warn(`Skill ${skillId} not found for performance update`) *)
    (db, JS.Ok tt)
  else
    let totalAttempts :=
      JS.int_add
        (JS.field skill (fun row => match row with
                                    | Some r => usage_count r
                                    | None => None
                                    end))
        (Some 1%Z) in
    let alpha := JS.Num 0.1 in
    let currentSuccessRate :=
      JS.numeric
        (JS.field skill
           (option_map (fun r => JS.Num (success_rate r)))) in
    let newSuccessRate :=
      if wasSuccessful
      then JS.add currentSuccessRate
             (JS.mul alpha (JS.sub (JS.Num 1) currentSuccessRate))
      else JS.add currentSuccessRate
             (JS.mul alpha (JS.sub (JS.Num 0) currentSuccessRate)) in
    (JS.fire (run_update (JS.max_num 0 (JS.min_num 1 newSuccessRate))
                         totalAttempts now skillId_) db,
     JS.Ok tt).

(** The Jaccard similarity of two lists of tags, case set aside. *)
Definition calculateContextSimilarity (context1 context2 : list string) : R :=
  if (Nat.eqb (List.length context1) 0
      || Nat.eqb (List.length context2) 0)%bool then 0
  else
    let set1 := JS.set_of (map JS.toLowerCase context1) in
    let set2 := JS.set_of (map JS.toLowerCase context2) in
    let intersection :=
      JS.set_of (filter (fun x => existsb (String.eqb x) set2) set1) in
    let union := JS.set_of (set1 ++ set2) in
    INR (List.length intersection) / INR (List.length union).

End ProceduralMemory.

(** ** Memory consolidation engine: time patterns *)

Module CreativeIntegration.
Import EpisodicMemory.

(** [hour < 12 ? 'morning' : hour < 18 ? 'afternoon' : 'evening']. *)
Definition timeSlot (hour : Z) : string :=
  if (hour <? 12)%Z then "morning"
  else if (hour <? 18)%Z then "afternoon" else "evening".

(** [acc[k] = (acc[k] || 0) + 1]; a new key comes last. *)
Fixpoint tally (acc : list (string * nat)) (k : string)
  : list (string * nat) :=
  match acc with
  | [] => [(k, 1%nat)]
  | (k', n) :: acc' =>
      if String.eqb k' k then (k', S n) :: acc'
      else (k', n) :: tally acc' k
  end.

(** [Math.max(...values)] is [-Infinity] for no value, which no count
    equals; with no value there is no key to compare it with either. *)
Definition identifyTimePatterns (episodes : list EpisodicMemoryEntry)
  : list string :=
  let timeGroups :=
    fold_left (fun acc episode =>
                 tally acc (timeSlot (getHours (timestamp episode))))
              episodes [] in
  let maxCount := fold_right Nat.max 0%nat (map snd timeGroups) in
  let dominantTimes :=
    map fst (filter (fun kv => Nat.eqb (snd kv) maxCount) timeGroups) in
  map (fun time => ("dominant_" ++ time ++ "_activity")%string)
      dominantTimes.

End CreativeIntegration.

(** ** Sample stores used by the examples *)

Module Samples.

(** A task episode of high importance and neutral valence, stored at
    instant [0]. *)
Definition high_importance_episode : EpisodicMemory.EpisodeRow :=
  EpisodicMemory.mkRow "ep_1" "persona_1" 0 "task_completion" "{}" "{}"
                       0 0.9 [] None false.

(** Two entries on addition whose texts share the word "adding". *)
Definition addition_a : SemanticMemory.KnowledgeRow :=
  SemanticMemory.mkRow "know_1" "persona_1" "math" "addition"
    (JS.quote ++ "adding numbers" ++ JS.quote) 0.9 "experience"
    ["arithmetic"%string].

Definition addition_b : SemanticMemory.KnowledgeRow :=
  SemanticMemory.mkRow "know_2" "persona_1" "math" "Addition"
    (JS.quote ++ "adding integers" ++ JS.quote) 0.6 "experience"
    ["sums"; "arithmetic"]%string.

(** Two entries on addition whose texts share no word. *)
Definition addition_c : SemanticMemory.KnowledgeRow :=
  SemanticMemory.mkRow "know_3" "persona_1" "math" "addition"
    (JS.quote ++ "sum" ++ JS.quote) 0.9 "experience" [].

Definition addition_d : SemanticMemory.KnowledgeRow :=
  SemanticMemory.mkRow "know_4" "persona_1" "math" "addition"
    (JS.quote ++ "plus" ++ JS.quote) 0.6 "experience" [].

(** A store with one persona who fell asleep at instant [0]. *)
Definition sleeping_persona : Schema.Database :=
  Schema.mkDatabase
    [Schema.mkPersona "persona_1" "ZV5 Persona" "" 0.5 0 0 0]
    []
    [Schema.mkState "persona_1" (Schema.stored 0.5) (Schema.stored 0.8)
                    (Schema.stored 0.6) (Schema.stored 0.7)
                    (Some Schema.sleeping) [] 0 0]
    [] [].

(** The same persona with one trait on record. *)
Definition outgoing_persona : Schema.Database :=
  Schema.mkDatabase
    [Schema.mkPersona "persona_1" "ZV5 Persona" "" 0.5 0 0 0]
    [Schema.mkTrait "persona_1" "extraversion" 0.5 "" 0]
    [Schema.mkState "persona_1" (Schema.stored 0.5) (Schema.stored 0.8)
                    (Schema.stored 0.6) (Schema.stored 0.7)
                    (Some Schema.awake) [] 0 0]
    [] [].

Definition fresh_instance : PersonaCore.Instance :=
  PersonaCore.mkInstance None false.

Definition ready_instance : PersonaCore.Instance :=
  PersonaCore.mkInstance (Some "persona_1"%string) true.

(** A skill that names no context condition. *)
Definition unconditional_skill : ProceduralMemory.SkillRow :=
  ProceduralMemory.mkSkillRow "skill_1" "persona_1" "greeting" "social" "{}"
                              0.5 [] (Some 10%Z) 0.

Definition sample_store : SemanticMemory.Store :=
  SemanticMemory.mkStore [addition_a; addition_b]
    [VectorDatabase.mkVector "know_1" [1; 0] [];
     VectorDatabase.mkVector "know_2" [0; 1] []].

Definition sample_group : list SemanticMemory.SemanticKnowledge :=
  [SemanticMemory.mapRowToKnowledge addition_a;
   SemanticMemory.mapRowToKnowledge addition_b].

End Samples.

(** ** Vocabulary of the statements *)

Module Vocabulary.

(** A score of the unit interval. *)
Definition in01 (v : R) : Prop := 0 <= v <= 1.

(** The importance adjustments a run of the recent pass hands to its
    caller: those of its result, none when it ends with an error. *)
Definition recorded
           (outcome : JS.result MemoryConsolidation.MemoryConsolidationResult)
  : list MemoryConsolidation.Adjustment :=
  match outcome with
  | JS.Ok result => MemoryConsolidation.importanceAdjustments result
  | JS.Throw _ => []
  end.

(** The store after the deletions of a merge. *)
Definition without (others : list SemanticMemory.SemanticKnowledge)
           (s : SemanticMemory.Store) : SemanticMemory.Store :=
  SemanticMemory.mkStore
    (filter (fun r =>
               negb (existsb (fun o => String.eqb (SemanticMemory.row_id r)
                                                  (SemanticMemory.id o)) others))
            (SemanticMemory.semantic_knowledge s))
    (filter (fun v =>
               negb (existsb (fun o => String.eqb (VectorDatabase.vector_id v)
                                                  (SemanticMemory.id o)) others))
            (SemanticMemory.vector_embeddings s)).

(** The share of common long words in two serialized contents. *)
Definition word_overlap (c1 c2 : string) : R :=
  INR (List.length (SemanticMemory.findCommonWords (JS.toLowerCase c1)
                                                   (JS.toLowerCase c2)))
  / Rmax (INR (List.length (JS.split_char " " (JS.toLowerCase c1))))
         (INR (List.length (JS.split_char " " (JS.toLowerCase c2)))).

(** The value of a score that is a finite number. *)
Definition finite (v : JS.number) : R :=
  match v with JS.Num r => r | _ => 0 end.

(** A list whose keys never increase from an element to a later one. *)
Definition descending {A : Type} (key : A -> R) (l : list A) : Prop :=
  StronglySorted (fun a b => key b <= key a) l.

(** The relationships of all the entries that share a concept, in order. *)
Definition gathered (knowledge : list SemanticMemory.SemanticKnowledge)
           (k : string) : list string :=
  flat_map SemanticMemory.relationships
    (filter (fun other => String.eqb (SemanticMemory.concept other) k)
            knowledge).

(** The number of episodes that fall into a slot of the day. *)
Definition slot_count (slot : string)
           (episodes : list EpisodicMemory.EpisodicMemoryEntry) : nat :=
  List.length
    (filter (fun e =>
               String.eqb
                 (CreativeIntegration.timeSlot
                    (EpisodicMemory.getHours (EpisodicMemory.timestamp e)))
                 slot)
            episodes).

(** The count a tally holds for a key, [0] when the key is absent. *)
Definition tallied (acc : list (string * nat)) (k : string) : nat :=
  match find (fun kv => String.eqb (fst kv) k) acc with
  | Some kv => snd kv
  | None => 0%nat
  end.

(** A candidate whose similarity to the query is a number at or above
    the threshold. *)
Definition qualifies {Meta : Type} (query : list R) (threshold : R)
           (candidate : EmbeddingGenerator.Candidate Meta) : bool :=
  match EmbeddingGenerator.calculateSimilarity
          query (EmbeddingGenerator.cand_embedding candidate) with
  | JS.Ok v => JS.geb_num v threshold
  | JS.Throw _ => false
  end.

(** The message of the error [calculateSimilarity] throws. *)
Definition dimension_error : string :=
  "Embeddings must have the same dimension".

(** The rows [createDefaultPersonalityTraits] writes for a persona. *)
Definition default_trait_rows (personaId : string) (now : Z)
  : list Schema.TraitRow :=
  map (fun t => let '(name_, value_, description_) := t in
                Schema.mkTrait personaId name_ value_ description_ now)
      PersonaCore.defaultTraits.

(** The persona row [createDefaultPersona] writes. *)
Definition default_persona (personaId : string) (now : Z)
  : Schema.PersonaRow :=
  Schema.mkPersona personaId "ZV5 Persona"
    "Zero Vector 5 Dedicated Persona - A conscious AI entity with evolving personality and persistent memory"
    0.5 now now now.

End Vocabulary.

(** * Properties *)

Import Vocabulary.

Ltac js_cmp :=
  unfold JS.gtb, JS.geb, JS.ltb, JS.leb in *;
  repeat match goal with
         | |- context [Rlt_dec ?a ?b] => destruct (Rlt_dec a b)
         | |- context [Rle_dec ?a ?b] => destruct (Rle_dec a b)
         | H : context [Rlt_dec ?a ?b] |- _ => destruct (Rlt_dec a b)
         | H : context [Rle_dec ?a ?b] |- _ => destruct (Rle_dec a b)
         end.


(** ** Evaluating comparisons and [Math.min]/[Math.max] *)

Lemma ltb_true (x y : R) : x < y -> JS.ltb x y = true.
Proof. intros H; unfold JS.ltb; destruct (Rlt_dec x y); [reflexivity | contradiction]. Qed.

Lemma ltb_false (x y : R) : y <= x -> JS.ltb x y = false.
Proof. intros H; unfold JS.ltb; destruct (Rlt_dec x y); [lra | reflexivity]. Qed.

Lemma leb_true (x y : R) : x <= y -> JS.leb x y = true.
Proof. intros H; unfold JS.leb; destruct (Rle_dec x y); [reflexivity | contradiction]. Qed.

Lemma gtb_true (x y : R) : y < x -> JS.gtb x y = true.
Proof. apply ltb_true. Qed.

Lemma gtb_false (x y : R) : x <= y -> JS.gtb x y = false.
Proof. apply ltb_false. Qed.

Lemma geb_true (x y : R) : y <= x -> JS.geb x y = true.
Proof. apply leb_true. Qed.

Lemma ltb_spec (x y : R) : JS.ltb x y = true <-> x < y.
Proof. unfold JS.ltb; destruct (Rlt_dec x y); intuition discriminate. Qed.

Lemma leb_spec (x y : R) : JS.leb x y = true <-> x <= y.
Proof. unfold JS.leb; destruct (Rle_dec x y); intuition discriminate. Qed.

Lemma gtb_spec (x y : R) : JS.gtb x y = true <-> y < x.
Proof. apply ltb_spec. Qed.

Lemma clamp_bounds (lo hi v : R) : lo <= hi -> lo <= JS.clamp lo hi v <= hi.
Proof.
  intros H. unfold JS.clamp, Rmax, Rmin.
  destruct (Rle_dec hi v); destruct (Rle_dec lo _); lra.
Qed.

Lemma check01_spec (v : R) : JS.check01 v = true <-> 0 <= v <= 1.
Proof.
  unfold JS.check01. rewrite andb_true_iff, !leb_spec. tauto.
Qed.


Section SleepClassification.
Import SleepCycleManager.

Lemma determineSleepType_brackets (d : R) :
  let h := d / (1000 * 60 * 60) in
  (h < 2 /\ determineSleepType d = light_processing) \/
  (2 <= h < 6 /\ determineSleepType d = deep_consolidation) \/
  (6 <= h < 12 /\ determineSleepType d = rem_integration) \/
  (12 <= h /\ determineSleepType d = extended_reorganization).
Proof.
  unfold determineSleepType; cbv zeta; js_cmp.
  - left; split; [lra | reflexivity].
  - right; left; split; [lra | reflexivity].
  - right; right; left; split; [lra | reflexivity].
  - right; right; right; split; [lra | reflexivity].
Qed.

Lemma hours_monotone (d1 d2 : R) :
  d1 <= d2 -> d1 / (1000 * 60 * 60) <= d2 / (1000 * 60 * 60).
Proof. intros H; lra. Qed.

(** C2: [determineSleepType] is total, lands in exactly the bracket of the
    elapsed hours ([<2], [<6], [<12], otherwise) and is monotone in the
    duration. *)
Theorem determineSleepType_total_monotone (d1 d2 : R) :
  d1 <= d2 ->
  (let h := d1 / (1000 * 60 * 60) in
   (h < 2 /\ determineSleepType d1 = light_processing) \/
   (2 <= h < 6 /\ determineSleepType d1 = deep_consolidation) \/
   (6 <= h < 12 /\ determineSleepType d1 = rem_integration) \/
   (12 <= h /\ determineSleepType d1 = extended_reorganization)) /\
  (bracket (determineSleepType d1) <= bracket (determineSleepType d2))%nat.
Proof.
  intros Hle; split; [apply determineSleepType_brackets|].
  pose proof (hours_monotone _ _ Hle) as Hh.
  destruct (determineSleepType_brackets d1) as [[? ->]|[[? ->]|[[? ->]|[? ->]]]];
    destruct (determineSleepType_brackets d2) as [[? ->]|[[? ->]|[[? ->]|[? ->]]]];
    cbv zeta in *; simpl; try lia; exfalso; lra.
Qed.

Lemma determineSleepType_total_monotone_witness :
  3600000 <= 25200000 /\
  ((let h := 3600000 / (1000 * 60 * 60) in
    (h < 2 /\ determineSleepType 3600000 = light_processing) \/
    (2 <= h < 6 /\ determineSleepType 3600000 = deep_consolidation) \/
    (6 <= h < 12 /\ determineSleepType 3600000 = rem_integration) \/
    (12 <= h /\ determineSleepType 3600000 = extended_reorganization)) /\
   (bracket (determineSleepType 3600000) <=
    bracket (determineSleepType 25200000))%nat).
Proof.
  assert (H : 3600000 <= 25200000) by lra.
  split; [exact H | exact (determineSleepType_total_monotone _ _ H)].
Defined.

End SleepClassification.

Section CosineSimilarity.
Import EmbeddingGenerator.

Lemma accumulate_dot (e1 e2 : list R) :
  List.length e1 = List.length e2 ->
  forall d n1 n2,
    accumulate e1 e2 d n1 n2 = (d + dot e1 e2, n1 + dot e1 e1, n2 + dot e2 e2).
Proof.
  revert e2; induction e1 as [|a e1 IH]; intros [|b e2] Hlen d n1 n2;
    simpl in *; try discriminate.
  - now rewrite !Rplus_0_r.
  - injection Hlen as Hlen. rewrite (IH e2 Hlen).
    now rewrite !Rplus_assoc.
Qed.

Lemma dot_self_nonneg (u : list R) : 0 <= dot u u.
Proof. induction u as [|a u IH]; simpl; [lra | nra]. Qed.

Lemma calculateSimilarity_eq (e1 e2 : list R) :
  List.length e1 = List.length e2 ->
  calculateSimilarity e1 e2 =
  JS.Ok (JS.max_num (-1) (JS.min_num 1 (JS.div (dot e1 e2) (norm e1 * norm e2)))).
Proof.
  intros Hlen. unfold calculateSimilarity.
  rewrite Hlen, Nat.eqb_refl; simpl negb; cbv iota.
  rewrite (accumulate_dot _ _ Hlen). unfold norm.
  now rewrite !Rplus_0_l.
Qed.

(** On vectors of non-zero norm the code returns the clamped cosine. *)
Lemma calculateSimilarity_nonzero (e1 e2 : list R) :
  List.length e1 = List.length e2 -> norm e1 <> 0 -> norm e2 <> 0 ->
  calculateSimilarity e1 e2 = JS.Ok (JS.Num (JS.clamp (-1) 1 (cosine e1 e2))).
Proof.
  intros Hlen H1 H2. rewrite (calculateSimilarity_eq _ _ Hlen).
  unfold JS.div. destruct (Req_dec_T (norm e1 * norm e2) 0) as [E|_].
  - apply Rmult_integral in E. tauto.
  - reflexivity.
Qed.

Lemma dot_zero_left (u v : list R) : dot u u = 0 -> dot u v = 0.
Proof.
  revert v; induction u as [|a u IH]; intros [|b v] H; simpl in *; try reflexivity.
  pose proof (dot_self_nonneg u) as Hu.
  assert (Ha : a = 0) by nra.
  assert (Hd : dot u u = 0) by nra.
  rewrite (IH v Hd), Ha. lra.
Qed.

Lemma dot_comm (u v : list R) : dot u v = dot v u.
Proof.
  revert v; induction u as [|a u IH]; intros [|b v]; simpl; try reflexivity.
  rewrite (IH v). lra.
Qed.

(** With a vector of zero norm the quotient is [0/0]: the code has no guard
    and [NaN] passes through both [Math.min] and [Math.max]. *)
Lemma calculateSimilarity_zero_norm (e1 e2 : list R) :
  List.length e1 = List.length e2 -> norm e1 = 0 \/ norm e2 = 0 ->
  calculateSimilarity e1 e2 = JS.Ok JS.NaN.
Proof.
  intros Hlen Hz. rewrite (calculateSimilarity_eq _ _ Hlen).
  assert (Hden : norm e1 * norm e2 = 0) by (destruct Hz as [-> | ->]; lra).
  assert (Hnum : dot e1 e2 = 0).
  { destruct Hz as [Hz|Hz]; apply sqrt_eq_0 in Hz; try apply dot_self_nonneg.
    - now apply dot_zero_left.
    - rewrite dot_comm. now apply dot_zero_left. }
  unfold JS.div. rewrite Hden, Hnum.
  destruct (Req_dec_T 0 0) as [_|N]; [reflexivity | now elim N].
Qed.

(** C3 (the code departs from the claim): for the equal-length vectors
    [[0]] and [[1]] the first has zero norm, and [calculateSimilarity]
    returns [NaN], the value of [0/0], where the claim requires the score
    [0]. *)
Theorem calculateSimilarity_zero_vector_is_NaN :
  calculateSimilarity [0] [1] = JS.Ok JS.NaN /\
  calculateSimilarity [0] [1] <> JS.Ok (JS.Num 0).
Proof.
  assert (E : calculateSimilarity [0] [1] = JS.Ok JS.NaN).
  { apply calculateSimilarity_zero_norm; [reflexivity|].
    left. unfold norm; simpl. replace (0 * 0 + 0) with 0 by lra. apply sqrt_0. }
  split; [exact E | rewrite E; discriminate].
Qed.

End CosineSimilarity.


(** ** Lists: ordering keeps the elements *)

Section Ordering.
Context {A : Type} (le : A -> A -> bool).

Lemma in_insert_by (x y : A) (l : list A) :
  In y (JS.insert_by le x l) <-> y = x \/ In y l.
Proof.
  induction l as [|z l IH]; simpl.
  - intuition congruence.
  - destruct (le x z); simpl; [intuition congruence|].
    rewrite IH. intuition congruence.
Qed.

Lemma in_order_by (y : A) (l : list A) :
  In y (JS.order_by le l) <-> In y l.
Proof.
  induction l as [|x l IH]; simpl; [tauto|].
  rewrite in_insert_by, IH. intuition congruence.
Qed.

Lemma length_insert_by (x : A) (l : list A) :
  List.length (JS.insert_by le x l) = S (List.length l).
Proof.
  induction l as [|z l IH]; simpl; [reflexivity|].
  destruct (le x z); simpl; congruence.
Qed.

Lemma length_order_by (l : list A) :
  List.length (JS.order_by le l) = List.length l.
Proof.
  induction l as [|x l IH]; simpl; [reflexivity|].
  now rewrite length_insert_by, IH.
Qed.
End Ordering.

Lemma in_firstn {A : Type} (n : nat) (l : list A) (x : A) :
  In x (firstn n l) -> In x l.
Proof.
  intros H. rewrite <- (firstn_skipn n l). apply in_or_app. now left.
Qed.

Lemma forall2_map {A B : Type} (P : A -> B -> Prop) (f : A -> B)
      (l : list A) :
  (forall a, In a l -> P a (f a)) -> Forall2 P l (map f l).
Proof.
  induction l as [|a l IH]; simpl; intros H; constructor.
  - apply H. now left.
  - apply IH. intros b Hb. apply H. now right.
Qed.

(** ** Procedural skills *)

Section Skills.
Import ProceduralMemory.

(** A skill without condition matches every context. *)
Lemma contextMatches_empty (context : list string) :
  contextMatches context [] = true.
Proof. reflexivity. Qed.

(** The update of a skill that is not in the table changes nothing. *)
Lemma run_update_absent (rate : JS.number) (count : JS.integer) (last : Z)
      (skillId_ : string) (db : list SkillRow) :
  (forall r, In r db -> id r <> skillId_) ->
  run_update rate count last skillId_ db = JS.Ok db.
Proof.
  intros Habsent. unfold run_update.
  replace (existsb (fun r => String.eqb (id r) skillId_) db) with false;
    [reflexivity|].
  symmetry. apply not_true_is_false. intros H.
  apply existsb_exists in H as (r & Hr & E).
  apply String.eqb_eq in E. exact (Habsent r Hr E).
Qed.

(** The rate and the count of the update are computed from fields of the
    promise: both are [NaN], and the column [success_rate] refuses it. *)
Lemma updateSkillPerformance_unfold (db : list SkillRow) (now : Z)
      (skillId_ : string) (wasSuccessful : bool) (context : list string) :
  updateSkillPerformance db now skillId_ wasSuccessful context =
  (JS.fire (run_update JS.NaN None now skillId_) db, JS.Ok tt).
Proof.
  unfold updateSkillPerformance. cbn [JS.falsy JS.field JS.numeric JS.int_add].
  destruct wasSuccessful; reflexivity.
Qed.

Lemma run_update_NaN (count : JS.integer) (last : Z) (skillId_ : string)
      (db : list SkillRow) :
  JS.fire (run_update JS.NaN count last skillId_) db = db.
Proof.
  unfold JS.fire, run_update.
  destruct (existsb _ db); reflexivity.
Qed.

(** C8 (as the code has it): for every skill id absent from the store,
    [updateSkillPerformance] returns normally and leaves the store as it
    was; no error is surfaced to the caller. *)
Theorem updateSkillPerformance_absent_returns
        (db : list SkillRow) (now : Z) (skillId_ : string)
        (wasSuccessful : bool) (context : list string) :
  (forall r, In r db -> id r <> skillId_) ->
  updateSkillPerformance db now skillId_ wasSuccessful context
  = (db, JS.Ok tt).
Proof.
  intros Habsent. rewrite updateSkillPerformance_unfold.
  unfold JS.fire. now rewrite run_update_absent.
Qed.

Lemma updateSkillPerformance_absent_returns_witness :
  (forall r, In r [Samples.unconditional_skill] -> id r <> "skill_9"%string) /\
  updateSkillPerformance [Samples.unconditional_skill] 0 "skill_9" true []
  = ([Samples.unconditional_skill], JS.Ok tt).
Proof.
  assert (H : forall r, In r [Samples.unconditional_skill] ->
                        id r <> "skill_9"%string).
  { intros r [<-|[]]. discriminate. }
  split; [exact H|].
  exact (updateSkillPerformance_absent_returns
           [Samples.unconditional_skill] 0 "skill_9" true [] H).
Defined.

(** C8 as claimed fails: the store holds [skill_1] only, and the update
    of [skill_9] ends normally instead of surfacing an error. *)
Lemma updateSkillPerformance_absent_no_error :
  (forall r, In r [Samples.unconditional_skill] -> id r <> "skill_9"%string) /\
  snd (updateSkillPerformance [Samples.unconditional_skill] 0 "skill_9"
                              true [])
  = JS.Ok tt /\
  ~ (exists error,
        snd (updateSkillPerformance [Samples.unconditional_skill] 0 "skill_9"
                                    true [])
        = JS.Throw error).
Proof.
  split; [intros r [<-|[]]; discriminate|].
  rewrite updateSkillPerformance_unfold. cbn [snd].
  split; [reflexivity|]. intros [error H]. discriminate H.
Qed.

(** C10 (the code departs from the claim): [contextMatches] does treat a
    skill without condition as applicable to every context, but
    [getApplicableSkills] calls [filter] on the promise of the rows and
    rejects, on every store and for every argument; the stored skill
    without condition is not returned for the empty context. *)
Theorem getApplicableSkills_rejects :
  In Samples.unconditional_skill
     (skill_rows [Samples.unconditional_skill] "persona_1" None) /\
  (forall context,
      contextMatches context (context_conditions Samples.unconditional_skill)
      = true) /\
  getApplicableSkills [Samples.unconditional_skill] "persona_1" [] None
  = JS.Throw "TypeError: skills.filter is not a function" /\
  (forall (db : list SkillRow) (personaId : string) (context : list string)
          (domain_ : option string),
      getApplicableSkills db personaId context domain_
      = JS.Throw "TypeError: skills.filter is not a function").
Proof.
  split; [left; reflexivity|]. split; [exact contextMatches_empty|].
  split; [reflexivity|]. intros; reflexivity.
Qed.

End Skills.

(** ** Episodic consolidation *)

Section EpisodicConsolidation.
Import EpisodicMemory.

Lemma has_app (a b : list string) (p : string) :
  has (a ++ b) p = (has a p || has b p)%bool.
Proof. apply existsb_app. Qed.

(** C5 (as the code has it): the importance that episodic consolidation
    computes for an episode is
    [clamp01((importance + bonuses) * exp(-ageDays/30))], the bonuses
    being [+0.1] for a valence above [0.5], [+0.15] for a valence below
    [-0.5] and [+0.05] for a conversation of more than two participants;
    an importance that is already high earns nothing. *)
Theorem recalculateImportance_formula (now : Z) (e : EpisodicMemoryEntry) :
  recalculateImportance now e (identifyPatterns e) =
  JS.clamp 0 1
    ((importanceScore e
      + ((if JS.gtb (emotionalValence e) 0.5 then 0.1 else 0)
         + (if JS.ltb (emotionalValence e) (-0.5) then 0.15 else 0)
         + (if (String.eqb (eventType e) "conversation"
                && Nat.ltb 2 (List.length (participants e)))%bool
            then 0.05 else 0)))
     * exp (- (IZR (now - timestamp e) / (1000 * 60 * 60 * 24)) / 30)).
Proof.
  unfold recalculateImportance, identifyPatterns, JS.clamp.
  rewrite !has_app.
  set (hour := getHours (timestamp e)).
  assert (Ht : forall p, In p ["positive_experience"; "negative_experience";
                               "group_conversation"]%string ->
               has [if (hour <? 6)%Z then "late_night"
                    else if (hour <? 12)%Z then "morning"
                    else if (hour <? 18)%Z then "afternoon"
                    else "evening"]%string p = false).
  { intros p Hp.
    destruct (hour <? 6)%Z; [|destruct (hour <? 12)%Z; [|destruct (hour <? 18)%Z]];
      simpl in Hp; decompose [or] Hp; subst; try reflexivity; contradiction. }
  rewrite !Ht by (simpl; tauto). clear Ht. simpl orb.
  destruct (String.eqb (eventType e) "conversation");
    [destruct (Nat.ltb 2 (List.length (participants e)))|];
    simpl andb;
    destruct (JS.gtb (emotionalValence e) 0.5) eqn:Hp;
    destruct (JS.ltb (emotionalValence e) (-0.5)) eqn:Hn;
    try (apply gtb_spec in Hp; apply ltb_spec in Hn; exfalso; lra).
    all: simpl; do 2 f_equal; apply Rmult_eq_compat_r; lra.
Qed.

Lemma sample_age_zero :
  exp (- ageDays 0 (mapRowToEpisode Samples.high_importance_episode) / 30) = 1.
Proof.
  unfold ageDays; simpl.
  replace (- (0 / (1000 * 60 * 60 * 24)) / 30) with 0 by lra.
  apply exp_0.
Qed.

(** Every run of [consolidateMemories] ends with the error of [rows.map]
    and leaves the table as it was. *)
Lemma consolidateMemories_rejects (db : list EpisodeRow) (now : Z)
      (personaId : string) :
  consolidateMemories db now personaId
  = (db, JS.Throw "TypeError: rows.map is not a function").
Proof. reflexivity. Qed.

(** C5 as claimed fails on the sample episode (importance [0.9], neutral
    valence, no age), the one row of the table and not yet consolidated:
    the claim has it persisted at [0.92] with the flag set; the code
    computes [0.9], having no bonus for a high importance, and its run
    ends with the error of [rows.map], the row staying as it was. *)
Lemma consolidateMemories_no_high_importance_bonus :
  In Samples.high_importance_episode
     (unconsolidated_rows [Samples.high_importance_episode] "persona_1") /\
  spec_importance 0 (mapRowToEpisode Samples.high_importance_episode) = 0.92 /\
  recalculateImportance 0 (mapRowToEpisode Samples.high_importance_episode)
    (identifyPatterns (mapRowToEpisode Samples.high_importance_episode))
  = 0.9 /\
  consolidateMemories [Samples.high_importance_episode] 0 "persona_1"
  = ([Samples.high_importance_episode],
     JS.Throw "TypeError: rows.map is not a function") /\
  ~ (exists r',
        In r' (fst (consolidateMemories [Samples.high_importance_episode] 0
                                        "persona_1")) /\
        row_id r' = row_id Samples.high_importance_episode /\
        importance_score r'
        = spec_importance 0 (mapRowToEpisode Samples.high_importance_episode) /\
        is_consolidated r' = true).
Proof.
  assert (Hspec : spec_importance 0
                    (mapRowToEpisode Samples.high_importance_episode) = 0.92).
  { unfold spec_importance. rewrite sample_age_zero.
    unfold spec_bucketBonuses, JS.clamp. simpl.
    rewrite (gtb_false 0 0.5), (ltb_false 0 (-0.5)), (gtb_true 0.9 0.7) by lra.
    rewrite (Rmin_right 1) by lra. rewrite (Rmax_right 0) by lra. lra. }
  split; [left; reflexivity|]. split; [exact Hspec|]. split; [|split].
  - pose proof sample_age_zero as Hage. unfold ageDays in Hage.
    unfold recalculateImportance, identifyPatterns. rewrite Hage. simpl.
    rewrite (gtb_false 0 0.5), (ltb_false 0 (-0.5)) by lra. simpl.
    rewrite (Rmin_right 1) by lra. rewrite (Rmax_right 0) by lra. lra.
  - reflexivity.
  - rewrite consolidateMemories_rejects. cbn [fst].
    intros (r' & [<-|[]] & _ & _ & Hflag). discriminate Hflag.
Qed.

End EpisodicConsolidation.

(** ** The recent pass *)

Section RecentConsolidation.
Import EpisodicMemory MemoryConsolidation.


End RecentConsolidation.


(** ** Merging knowledge entries *)

Section KnowledgeMerge.
Import SemanticMemory.

Lemma primary_of_in (first : SemanticKnowledge) (rest : list SemanticKnowledge) :
  In (primary_of first rest) (first :: rest).
Proof.
  unfold primary_of. revert first.
  induction rest as [|x rest IH]; intros first; simpl; [auto|].
  destruct (JS.gtb (confidenceLevel x) (confidenceLevel first)).
  - destruct (IH x) as [<-|H]; auto.
  - destruct (IH first) as [<-|H]; auto.
Qed.

Lemma primary_of_max (first : SemanticKnowledge) (rest : list SemanticKnowledge) :
  forall e, In e (first :: rest) ->
            confidenceLevel e <= confidenceLevel (primary_of first rest).
Proof.
  unfold primary_of.
  assert (Hmono : forall l a,
             confidenceLevel a <=
             confidenceLevel
               (fold_left (fun prev current =>
                  if JS.gtb (confidenceLevel current) (confidenceLevel prev)
                  then current else prev) l a)).
  { induction l as [|x l IH]; intros a; simpl; [lra|].
    destruct (JS.gtb (confidenceLevel x) (confidenceLevel a)) eqn:E.
    - apply gtb_spec in E. specialize (IH x). lra.
    - apply IH. }
  revert first. induction rest as [|x rest IH]; intros first e He; simpl.
  - destruct He as [<-|[]]. lra.
  - destruct (JS.gtb (confidenceLevel x) (confidenceLevel first)) eqn:E.
    + destruct He as [<-|He].
      * apply gtb_spec in E. specialize (Hmono rest x). lra.
      * apply IH. exact He.
    + destruct He as [<-|[<-|He]].
      * apply Hmono.
      * unfold JS.gtb, JS.ltb in E.
        destruct (Rlt_dec _ _); [discriminate|].
        specialize (Hmono rest first). lra.
      * apply IH. now right.
Qed.

(** Removing the one entry that carries a given key from a group of
    distinct keys. *)
Lemma others_length (entries : list SemanticKnowledge) (p : SemanticKnowledge) :
  NoDup (map id entries) -> In p entries ->
  S (List.length (filter (fun e => negb (String.eqb (id e) (id p))) entries))
  = List.length entries.
Proof.
  induction entries as [|x l IH]; intros Hnd Hin; [contradiction|].
  simpl in Hnd. inversion_clear Hnd as [|? ? Hx Hl]. simpl.
  destruct Hin as [->|Hin].
  - rewrite String.eqb_refl. simpl. f_equal.
    clear IH Hl. induction l as [|y l IH]; simpl; [reflexivity|].
    destruct (String.eqb (id y) (id p)) eqn:E.
    + apply String.eqb_eq in E. exfalso. apply Hx. left. exact E.
    + simpl. f_equal. apply IH. intros H. apply Hx. now right.
  - destruct (String.eqb (id x) (id p)) eqn:E.
    + apply String.eqb_eq in E. exfalso. apply Hx. rewrite E. now apply in_map.
    + simpl. f_equal. now apply IH.
Qed.

Lemma same_key_same_entry (entries : list SemanticKnowledge)
      (a b : SemanticKnowledge) :
  NoDup (map id entries) -> In a entries -> In b entries -> id a = id b -> a = b.
Proof.
  induction entries as [|x l IH]; intros Hnd Ha Hb Hid; [contradiction|].
  simpl in Hnd. inversion_clear Hnd as [|? ? Hx Hl].
  destruct Ha as [->|Ha], Hb as [->|Hb]; auto.
  - exfalso. apply Hx. rewrite Hid. now apply in_map.
  - exfalso. apply Hx. rewrite <- Hid. now apply in_map.
Qed.

(** [new Set(xs)] keeps exactly the elements of [xs], once each. *)
Lemma dedupe_spec (xs seen : list string) (x : string) :
  In x (JS.dedupe seen xs) <-> In x xs /\ ~ In x seen.
Proof.
  revert seen; induction xs as [|y xs IH]; intros seen; simpl; [tauto|].
  destruct (existsb (String.eqb y) seen) eqn:E.
  - apply existsb_exists in E as (z & Hz & Hyz). apply String.eqb_eq in Hyz.
    subst z. rewrite IH. intuition congruence.
  - assert (Hy : ~ In y seen).
    { intros H. assert (existsb (String.eqb y) seen = true).
      { apply existsb_exists. exists y. split; [exact H | apply String.eqb_refl]. }
      congruence. }
    simpl. rewrite IH. simpl.
    destruct (String.eqb_spec y x) as [->|Hne]; intuition congruence.
Qed.

Lemma dedupe_NoDup (xs seen : list string) : NoDup (JS.dedupe seen xs).
Proof.
  revert seen; induction xs as [|y xs IH]; intros seen; simpl; [constructor|].
  destruct (existsb (String.eqb y) seen); [apply IH|].
  constructor; [|apply IH]. rewrite dedupe_spec. simpl. tauto.
Qed.

Lemma set_of_spec (xs : list string) (x : string) :
  In x (JS.set_of xs) <-> In x xs.
Proof. unfold JS.set_of. rewrite dedupe_spec. simpl. tauto. Qed.

Lemma filter_all {Row : Type} (rows : list Row) :
  filter (fun _ => true) rows = rows.
Proof. induction rows as [|r rows IH]; simpl; congruence. Qed.

Lemma filter_twice {A : Type} (p q : A -> bool) (l : list A) :
  filter q (filter p l) = filter (fun x => (p x && q x)%bool) l.
Proof.
  induction l as [|x l IH]; simpl; [reflexivity|].
  destruct (p x); simpl; [destruct (q x)|]; congruence.
Qed.

Lemma delete_fold (others : list SemanticKnowledge) :
  forall s,
    fold_left
      (fun s other =>
         mkStore
           (filter (fun r => negb (String.eqb (row_id r) (id other)))
                   (semantic_knowledge s))
           (fst (VectorDatabase.delete (vector_embeddings s) (id other))))
      others s
    = without others s.
Proof.
  induction others as [|o others IH]; intros [rows vecs]; simpl.
  - unfold without; simpl. now rewrite !filter_all.
  - rewrite IH. unfold without, VectorDatabase.delete; simpl.
    rewrite !filter_twice.
    f_equal; apply filter_ext; intros x; now rewrite negb_orb.
Qed.

Lemma existsb_false_iff {A : Type} (f : A -> bool) (l : list A) :
  existsb f l = false <-> forall x, In x l -> f x = false.
Proof.
  induction l as [|y l IH]; simpl; [intuition|].
  rewrite orb_false_iff, IH. intuition (subst; auto).
Qed.

Lemma merge_unfold (st : Store) (entries : list SemanticKnowledge)
      (first : SemanticKnowledge) (rest : list SemanticKnowledge) :
  entries = first :: rest -> rest <> [] ->
  let primary := primary_of first rest in
  let others :=
    filter (fun e => negb (String.eqb (id e) (id primary))) entries in
  let newConfidence :=
    Rmin 1 (confidenceLevel primary + INR (List.length others) * 0.05) in
  JS.check01 newConfidence = true ->
  mergeKnowledgeEntries st entries =
  JS.Ok (without others
           (mkStore
              (map (fun r =>
                      if String.eqb (row_id r) (id primary)
                      then mkRow (row_id r) (persona_id r) (row_domain r)
                             (row_concept r) (mergedContent primary others)
                             newConfidence (row_source r)
                             (JS.set_of (relationships primary
                                         ++ flat_map relationships others))
                      else r) (semantic_knowledge st))
              (vector_embeddings st))).
Proof.
  intros -> Hrest primary others newConfidence Hcheck.
  destruct rest as [|second rest]; [now elim Hrest|].
  unfold mergeKnowledgeEntries.
  fold primary. fold others. fold newConfidence.
  rewrite Hcheck. rewrite andb_false_r.
  now rewrite delete_fold.
Qed.

(** C7: a merge of a group of [N > 1] entries of the store with distinct
    ids never increases the number of rows; the primary (an entry of
    highest confidence) survives with the union of the group's
    relationships and confidence [min(1, c + 0.05 * (N - 1))], which is not
    below its original confidence [c]; every other entry of the group is
    gone from the relational store and from the vector index. *)
Theorem mergeKnowledgeEntries_postconditions
        (st : Store) (entries : list SemanticKnowledge) :
  (1 < List.length entries)%nat ->
  NoDup (map id entries) ->
  (forall e, In e entries ->
             exists r, In r (semantic_knowledge st) /\ mapRowToKnowledge r = e) ->
  (forall e, In e entries -> 0 <= confidenceLevel e <= 1) ->
  exists primary st',
    In primary entries /\
    (forall e, In e entries -> confidenceLevel e <= confidenceLevel primary) /\
    mergeKnowledgeEntries st entries = JS.Ok st' /\
    (List.length (semantic_knowledge st') <= List.length (semantic_knowledge st))%nat /\
    (exists r', In r' (semantic_knowledge st') /\ row_id r' = id primary /\
                NoDup (row_relationships r') /\
                (forall x, In x (row_relationships r') <->
                           exists e, In e entries /\ In x (relationships e)) /\
                confidence_level r' =
                  Rmin 1 (confidenceLevel primary
                          + 0.05 * INR (List.length entries - 1)) /\
                confidenceLevel primary <= confidence_level r') /\
    (forall e, In e entries -> e <> primary ->
               (forall r, In r (semantic_knowledge st') -> row_id r <> id e) /\
               (forall v, In v (vector_embeddings st') -> vector_id v <> id e)).
Proof.
  intros Hlen Hnd Hrows Hconf.
  destruct entries as [|first rest]; [simpl in Hlen; lia|].
  assert (Hrest : rest <> []) by (destruct rest; [simpl in Hlen; lia | discriminate]).
  set (entries := first :: rest) in *.
  set (primary := primary_of first rest).
  assert (Hin : In primary entries) by apply primary_of_in.
  assert (Hmax : forall e, In e entries ->
                           confidenceLevel e <= confidenceLevel primary)
    by apply primary_of_max.
  set (others := filter (fun e => negb (String.eqb (id e) (id primary))) entries).
  assert (Hothers : S (List.length others) = List.length entries)
    by (apply others_length; assumption).
  assert (Hcount : (List.length entries - 1)%nat = List.length others) by lia.
  assert (Hk : 0 <= INR (List.length others)) by apply pos_INR.
  destruct (Hconf primary Hin) as [Hp0 Hp1].
  set (newConfidence :=
         Rmin 1 (confidenceLevel primary + INR (List.length others) * 0.05)).
  assert (Hnew : confidenceLevel primary <= newConfidence <= 1).
  { unfold newConfidence, Rmin. destruct (Rle_dec _ _); nra. }
  assert (Hcheck : JS.check01 newConfidence = true)
    by (apply check01_spec; lra).
  assert (Hother_id : forall e, In e entries -> e <> primary ->
                                In e others).
  { intros e He Hne. apply filter_In. split; [exact He|].
    apply negb_true_iff. destruct (String.eqb_spec (id e) (id primary)) as [E|E];
      [|reflexivity].
    elim Hne. eapply same_key_same_entry; eassumption. }
  exists primary. eexists. rewrite Hcount.
  split; [exact Hin|]. split; [exact Hmax|].
  split; [apply (merge_unfold st entries first rest eq_refl Hrest Hcheck)|].
  fold primary. fold others. fold newConfidence.
  unfold without; simpl. split; [|split].
  - etransitivity; [apply filter_length_le|]. now rewrite length_map.
  - destruct (Hrows primary Hin) as (r & Hr & Hmap).
    assert (Hrid : row_id r = id primary) by (rewrite <- Hmap; reflexivity).
    exists (mkRow (row_id r) (persona_id r) (row_domain r) (row_concept r)
                  (mergedContent primary others) newConfidence (row_source r)
                  (JS.set_of (relationships primary
                              ++ flat_map relationships others))).
    split; [|split; [|split; [|split; [|split]]]].
    + apply filter_In. split.
      * apply in_map_iff. exists r. split; [|exact Hr].
        now rewrite Hrid, String.eqb_refl.
      * simpl. rewrite Hrid.
        apply negb_true_iff, existsb_false_iff. intros o Ho.
        apply filter_In in Ho as [_ Ho]. apply negb_true_iff in Ho.
        now rewrite String.eqb_sym.
    + simpl. exact Hrid.
    + simpl. apply dedupe_NoDup.
    + simpl. intros x. rewrite set_of_spec, in_app_iff, in_flat_map. split.
      * intros [Hx | (o & Ho & Hx)].
        -- exists primary. auto.
        -- exists o. split; [|exact Hx]. apply filter_In in Ho. tauto.
      * intros (e & He & Hx).
        destruct (String.eqb_spec (id e) (id primary)) as [E|E].
        -- left. now rewrite <- (same_key_same_entry entries e primary Hnd He Hin E).
        -- right. exists e. split; [|exact Hx]. apply Hother_id; [exact He|].
           congruence.
    + cbn [confidence_level]. unfold newConfidence.
      apply (f_equal (Rmin 1)). lra.
    + simpl. lra.
  - intros e He Hne. split.
    + intros r Hr Hid. apply filter_In in Hr as [_ Hr].
      apply negb_true_iff in Hr.
      assert (E : String.eqb (row_id r) (id e) = true) by (now apply String.eqb_eq).
      rewrite (proj1 (existsb_false_iff _ _) Hr e (Hother_id e He Hne)) in E.
      discriminate.
    + intros v Hv Hid. apply filter_In in Hv as [_ Hv].
      apply negb_true_iff in Hv.
      assert (E : String.eqb (vector_id v) (id e) = true) by (now apply String.eqb_eq).
      rewrite (proj1 (existsb_false_iff _ _) Hv e (Hother_id e He Hne)) in E.
      discriminate.
Qed.

Lemma sample_group_ok :
  (1 < List.length Samples.sample_group)%nat /\
  NoDup (map id Samples.sample_group) /\
  (forall e, In e Samples.sample_group ->
             exists r, In r (semantic_knowledge Samples.sample_store)
                       /\ mapRowToKnowledge r = e) /\
  (forall e, In e Samples.sample_group -> 0 <= confidenceLevel e <= 1).
Proof.
  split; [simpl; lia|]. split.
  - simpl. constructor; [|constructor; [intros []|constructor]].
    intros [H|[]]. discriminate H.
  - split; intros e [<-|[<-|[]]].
    + exists Samples.addition_a. simpl. auto.
    + exists Samples.addition_b. simpl. auto.
    + simpl. lra.
    + simpl. lra.
Qed.

Lemma mergeKnowledgeEntries_postconditions_witness :
  ((1 < List.length Samples.sample_group)%nat /\
   NoDup (map id Samples.sample_group) /\
   (forall e, In e Samples.sample_group ->
              exists r, In r (semantic_knowledge Samples.sample_store)
                        /\ mapRowToKnowledge r = e) /\
   (forall e, In e Samples.sample_group -> 0 <= confidenceLevel e <= 1)) /\
  exists primary st',
    In primary Samples.sample_group /\
    (forall e, In e Samples.sample_group -> confidenceLevel e <= confidenceLevel primary) /\
    mergeKnowledgeEntries Samples.sample_store Samples.sample_group = JS.Ok st' /\
    (List.length (semantic_knowledge st')
     <= List.length (semantic_knowledge Samples.sample_store))%nat /\
    (exists r', In r' (semantic_knowledge st') /\ row_id r' = id primary /\
                NoDup (row_relationships r') /\
                (forall x, In x (row_relationships r') <->
                           exists e, In e Samples.sample_group /\ In x (relationships e)) /\
                confidence_level r' =
                  Rmin 1 (confidenceLevel primary
                          + 0.05 * INR (List.length Samples.sample_group - 1)) /\
                confidenceLevel primary <= confidence_level r') /\
    (forall e, In e Samples.sample_group -> e <> primary ->
               (forall r, In r (semantic_knowledge st') -> row_id r <> id e) /\
               (forall v, In v (vector_embeddings st') -> vector_id v <> id e)).
Proof.
  split; [exact sample_group_ok|].
  destruct sample_group_ok as (H1 & H2 & H3 & H4).
  exact (mergeKnowledgeEntries_postconditions Samples.sample_store Samples.sample_group
           H1 H2 H3 H4).
Defined.

(** *** The groups handed to the merge *)

Lemma processed_has_spec (processed : list string) (k : string) :
  processed_has processed k = true <-> In k processed.
Proof.
  unfold processed_has. rewrite existsb_exists. split.
  - intros (x & Hx & E). apply String.eqb_eq in E. now subst.
  - intros H. exists k. split; [exact H | apply String.eqb_refl].
Qed.

(** The inner loop picks unprocessed entries of [knowledge], each id once. *)
Lemma collect_similar_spec (item : SemanticKnowledge)
      (knowledge : list SemanticKnowledge) :
  forall processed others processed',
    collect_similar item knowledge processed = (others, processed') ->
    (forall o, In o others -> In o knowledge /\ ~ In (id o) processed) /\
    NoDup (map id others) /\
    (forall k, In k processed' <-> In k processed \/ In k (map id others)).
Proof.
  induction knowledge as [|other rest IH]; intros processed others processed';
    simpl.
  - intros H; injection H as <- <-. split; [intros o []|].
    split; [constructor|]. intros k. simpl. tauto.
  - destruct (processed_has processed (id other)
              || negb (String.eqb (domain other) (domain item)))%bool eqn:Hskip.
    + intros H. destruct (IH _ _ _ H) as (H1 & H2 & H3).
      split; [|split; assumption].
      intros o Ho; destruct (H1 o Ho); auto.
    + destruct (JS.gtb _ 0.8).
      * destruct (collect_similar item rest (id other :: processed))
          as [more processed''] eqn:Hrec.
        intros H; injection H as <- <-.
        destruct (IH _ _ _ Hrec) as (H1 & H2 & H3).
        apply orb_false_iff in Hskip as [Hnp _].
        assert (Hnot : ~ In (id other) processed).
        { intros Hin. apply processed_has_spec in Hin. congruence. }
        split; [|split].
        -- intros o [<-|Ho]; [split; [now left | exact Hnot]|].
           destruct (H1 o Ho) as [Hin Hn]. split; [now right|].
           intros Hp. apply Hn. now right.
        -- simpl. constructor; [|exact H2].
           intros Hin. apply in_map_iff in Hin as (o & Hid & Ho).
           destruct (H1 o Ho) as [_ Hn]. apply Hn. left. now symmetry.
        -- intros k. rewrite H3. simpl. tauto.
      * intros H. destruct (IH _ _ _ H) as (H1 & H2 & H3).
        split; [|split; assumption].
        intros o Ho; destruct (H1 o Ho); auto.
Qed.

(** Every candidate group has at least two entries, all taken from the
    knowledge at hand, with distinct ids. *)
Lemma candidates_from_spec (knowledge : list SemanticKnowledge) :
  forall items processed g,
    incl items knowledge ->
    In g (candidates_from knowledge items processed) ->
    (1 < List.length g)%nat /\ NoDup (map id g) /\ incl g knowledge.
Proof.
  induction items as [|item rest IH]; intros processed g Hincl Hg;
    cbn [candidates_from] in Hg; [contradiction|].
  assert (Hrest : incl rest knowledge) by (intros x Hx; apply Hincl; now right).
  destruct (processed_has processed (id item)); [now apply (IH processed)|].
  destruct (collect_similar item knowledge (id item :: processed))
    as [others processed'] eqn:Hc.
  destruct (collect_similar_spec _ _ _ _ _ Hc) as (H1 & H2 & _).
  destruct (Nat.ltb 1 (List.length (item :: others))) eqn:Hlen;
    [|now apply (IH processed')].
  destruct Hg as [<-|Hg]; [|now apply (IH processed')].
  split; [now apply Nat.ltb_lt in Hlen|]. split.
  - simpl. constructor; [|exact H2].
    intros Hin. apply in_map_iff in Hin as (o & Hid & Ho).
    destruct (H1 o Ho) as [_ Hn]. apply Hn. left. now symmetry.
  - intros x [<-|Hx]; [apply Hincl; now left | now apply H1].
Qed.

(** The requirements of the merge are met by every group that
    [findConsolidationCandidates] makes of the knowledge rows of a persona,
    in a store whose confidences are in [[0,1]]. *)
Lemma candidate_groups_wellformed (st : Store) (personaId : string)
      (g : list SemanticKnowledge) :
  (forall r, In r (semantic_knowledge st) -> in01 (confidence_level r)) ->
  In g (findConsolidationCandidates
          (map mapRowToKnowledge (knowledge_rows st personaId))) ->
  (1 < List.length g)%nat /\
  NoDup (map id g) /\
  (forall e, In e g ->
             exists r, In r (semantic_knowledge st) /\ mapRowToKnowledge r = e) /\
  (forall e, In e g -> 0 <= confidenceLevel e <= 1).
Proof.
  intros Hconf Hg.
  destruct (candidates_from_spec _ _ _ _ (incl_refl _) Hg) as (H1 & H2 & H3).
  assert (Hrow : forall e, In e g ->
            exists r, In r (semantic_knowledge st) /\ mapRowToKnowledge r = e).
  { intros e He. apply H3 in He. unfold knowledge_rows in He.
    apply in_map_iff in He as (r & <- & Hr). apply filter_In in Hr as [Hr _].
    eauto. }
  split; [exact H1|]. split; [exact H2|]. split; [exact Hrow|].
  intros e He. destruct (Hrow e He) as (r & Hr & <-). apply (Hconf r Hr).
Qed.

End KnowledgeMerge.

(** ** Consolidating two entries of one concept *)

Section KnowledgeConsolidation.
Import SemanticMemory.

(** Two entries of one persona and one domain, with distinct ids, form a
    single candidate group exactly when their similarity exceeds [0.8]. *)
Lemma candidates_pair (a b : SemanticKnowledge) :
  id a <> id b -> domain a = domain b ->
  findConsolidationCandidates [a; b] =
  if JS.gtb (calculateConceptSimilarity a b) 0.8 then [[a; b]] else [].
Proof.
  intros Hid Hdom.
  assert (Eab : String.eqb (id a) (id b) = false) by (now apply String.eqb_neq).
  assert (Eba : String.eqb (id b) (id a) = false)
    by (apply String.eqb_neq; congruence).
  unfold findConsolidationCandidates, candidates_from, collect_similar,
    processed_has.
  simpl existsb. rewrite !String.eqb_refl, Eba. simpl.
  rewrite Hdom, !String.eqb_refl. simpl.
  destruct (JS.gtb (calculateConceptSimilarity a b) 0.8) eqn:E; simpl.
  - now rewrite String.eqb_refl.
  - rewrite Eba, Eab, String.eqb_refl. reflexivity.
Qed.

(** The merge of two entries, the only rows of the store: the one of
    higher confidence [c] absorbs the other and ends at
    [min(1, c + 0.05)]. *)
Lemma merge_pair (a b : KnowledgeRow) (vecs : list VectorEntry)
      (hi lo : KnowledgeRow) :
  row_id a <> row_id b ->
  (hi = a /\ lo = b \/ hi = b /\ lo = a) ->
  confidence_level lo < confidence_level hi ->
  0 <= confidence_level hi <= 1 ->
  exists st' r,
    mergeKnowledgeEntries (mkStore [a; b] vecs)
      [mapRowToKnowledge a; mapRowToKnowledge b] = JS.Ok st' /\
    semantic_knowledge st' = [r] /\
    row_id r = row_id hi /\
    row_concept r = row_concept hi /\
    confidence_level r = Rmin 1 (confidence_level hi + 0.05).
Proof.
  intros Hid Hcase Hlt Hrange.
  assert (Eab : String.eqb (row_id a) (row_id b) = false)
    by (now apply String.eqb_neq).
  assert (Eba : String.eqb (row_id b) (row_id a) = false)
    by (apply String.eqb_neq; congruence).
  set (ka := mapRowToKnowledge a). set (kb := mapRowToKnowledge b).
  assert (Hnew : JS.check01 (Rmin 1 (confidence_level hi + 1 * 0.05)) = true).
  { apply check01_spec. unfold Rmin. destruct (Rle_dec _ _); lra. }
  destruct Hcase as [[-> ->] | [-> ->]].
  - (* the first row is the primary *)
    assert (Hp : primary_of ka [kb] = ka).
    { unfold primary_of; simpl. now rewrite gtb_false by (simpl; lra). }
    rewrite (merge_unfold _ [ka; kb] ka [kb] eq_refl); [|discriminate|];
      rewrite Hp; cbn [filter id ka kb mapRowToKnowledge];
      rewrite String.eqb_refl, Eba; cbn [negb List.length INR]; [|exact Hnew].
    do 2 eexists. split; [reflexivity|].
    unfold without.
    cbn [semantic_knowledge vector_embeddings map filter existsb row_id id kb
         mapRowToKnowledge].
    repeat (rewrite ?String.eqb_refl, ?Eba, ?Eab;
            cbn [row_id orb negb filter existsb confidence_level row_concept]).
    repeat split. apply (f_equal (Rmin 1)). subst ka. simpl. lra.
  - (* the second row is the primary *)
    assert (Hp : primary_of ka [kb] = kb).
    { unfold primary_of; simpl. now rewrite gtb_true by (simpl; lra). }
    rewrite (merge_unfold _ [ka; kb] ka [kb] eq_refl); [|discriminate|];
      rewrite Hp; cbn [filter id ka kb mapRowToKnowledge];
      rewrite String.eqb_refl, Eab; cbn [negb List.length INR]; [|exact Hnew].
    do 2 eexists. split; [reflexivity|].
    unfold without.
    cbn [semantic_knowledge vector_embeddings map filter existsb row_id id ka
         mapRowToKnowledge].
    repeat (rewrite ?String.eqb_refl, ?Eba, ?Eab;
            cbn [row_id orb negb filter existsb confidence_level row_concept]).
    repeat split. apply (f_equal (Rmin 1)). subst kb. simpl. lra.
Qed.

Lemma similarity_formula (k1 k2 : SemanticKnowledge) :
  calculateConceptSimilarity k1 k2 =
  (if String.eqb (JS.toLowerCase (concept k1)) (JS.toLowerCase (concept k2))
   then 1 else 0) * 0.7
  + word_overlap (content k1) (content k2) * 0.3.
Proof. reflexivity. Qed.


(** C4 (as the code has it): of two entries of domain "math" whose
    concept names both read "addition" up to case, with confidence [0.9]
    and [0.6], the rows of one persona, [findConsolidationCandidates]
    makes a group exactly when more than a third of the content words are
    shared (the similarity then exceeds [0.8]); the merge of that group
    leaves exactly one entry, with confidence [min(1, 0.9 + 0.05) = 0.95].
    With a smaller overlap there is no group and nothing is merged. *)
Theorem consolidation_of_addition
        (a b : KnowledgeRow) (vecs : list VectorEntry) (personaId : string) :
  persona_id a = personaId -> persona_id b = personaId ->
  row_id a <> row_id b ->
  row_domain a = "math"%string -> row_domain b = "math"%string ->
  JS.toLowerCase (row_concept a) = "addition"%string ->
  JS.toLowerCase (row_concept b) = "addition"%string ->
  (confidence_level a = 0.9 /\ confidence_level b = 0.6 \/
   confidence_level a = 0.6 /\ confidence_level b = 0.9) ->
  map mapRowToKnowledge (knowledge_rows (mkStore [a; b] vecs) personaId)
  = [mapRowToKnowledge a; mapRowToKnowledge b] /\
  (word_overlap (row_content a) (row_content b) > 1 / 3 ->
   findConsolidationCandidates [mapRowToKnowledge a; mapRowToKnowledge b]
   = [[mapRowToKnowledge a; mapRowToKnowledge b]] /\
   exists st' r,
     merge_groups (mkStore [a; b] vecs)
       (findConsolidationCandidates
          [mapRowToKnowledge a; mapRowToKnowledge b]) = JS.Ok st' /\
     semantic_knowledge st' = [r] /\
     JS.toLowerCase (row_concept r) = "addition"%string /\
     confidence_level r = Rmin 1 (0.9 + 0.05) /\
     confidence_level r = 0.95) /\
  (word_overlap (row_content a) (row_content b) <= 1 / 3 ->
   findConsolidationCandidates [mapRowToKnowledge a; mapRowToKnowledge b]
   = [] /\
   merge_groups (mkStore [a; b] vecs)
     (findConsolidationCandidates
        [mapRowToKnowledge a; mapRowToKnowledge b])
   = JS.Ok (mkStore [a; b] vecs)).
Proof.
  intros Ha Hb Hid Hda Hdb Hca Hcb Hconf.
  assert (Hsim : calculateConceptSimilarity (mapRowToKnowledge a)
                                            (mapRowToKnowledge b)
                 = 0.7 + word_overlap (row_content a) (row_content b) * 0.3).
  { rewrite similarity_formula. simpl concept. simpl content.
    rewrite Hca, Hcb. simpl String.eqb. lra. }
  assert (Hpair : findConsolidationCandidates
                    [mapRowToKnowledge a; mapRowToKnowledge b]
                  = if JS.gtb (calculateConceptSimilarity
                                 (mapRowToKnowledge a) (mapRowToKnowledge b))
                              0.8
                    then [[mapRowToKnowledge a; mapRowToKnowledge b]]
                    else []).
  { apply candidates_pair; [exact Hid|]. simpl. congruence. }
  assert (Hmin : Rmin 1 (0.9 + 0.05) = 0.95) by (rewrite Rmin_right; lra).
  split; [|split].
  - unfold knowledge_rows. cbn [semantic_knowledge filter].
    rewrite Ha, Hb, String.eqb_refl. reflexivity.
  - intros Hover. rewrite Hpair, gtb_true by lra.
    split; [reflexivity|].
    unfold merge_groups. cbn [fold_left JS.bind List.length Nat.ltb Nat.leb].
    destruct Hconf as [[Ea Eb] | [Ea Eb]].
    + destruct (merge_pair a b vecs a b Hid) as (st' & r & H1 & H2 & _ & H3 & H4);
        try lra; auto.
      exists st', r. rewrite H3, H4, Ea. auto.
    + destruct (merge_pair a b vecs b a Hid) as (st' & r & H1 & H2 & _ & H3 & H4);
        try lra; auto.
      exists st', r. rewrite H3, H4, Eb. auto.
  - intros Hunder. rewrite Hpair, gtb_false by lra.
    split; reflexivity.
Qed.

Lemma sample_overlap :
  word_overlap (row_content Samples.addition_a) (row_content Samples.addition_b)
  = 1 / 2.
Proof.
  unfold word_overlap.
  replace (List.length (findCommonWords
             (JS.toLowerCase (row_content Samples.addition_a))
             (JS.toLowerCase (row_content Samples.addition_b)))) with 1%nat
    by reflexivity.
  replace (List.length (JS.split_char " "
             (JS.toLowerCase (row_content Samples.addition_a)))) with 2%nat
    by reflexivity.
  replace (List.length (JS.split_char " "
             (JS.toLowerCase (row_content Samples.addition_b)))) with 2%nat
    by reflexivity.
  simpl INR. rewrite Rmax_left by lra. lra.
Qed.

Lemma consolidation_of_addition_witness :
  (persona_id Samples.addition_a = "persona_1"%string /\
   persona_id Samples.addition_b = "persona_1"%string /\
   row_id Samples.addition_a <> row_id Samples.addition_b /\
   row_domain Samples.addition_a = "math"%string /\
   row_domain Samples.addition_b = "math"%string /\
   JS.toLowerCase (row_concept Samples.addition_a) = "addition"%string /\
   JS.toLowerCase (row_concept Samples.addition_b) = "addition"%string /\
   (confidence_level Samples.addition_a = 0.9 /\
    confidence_level Samples.addition_b = 0.6 \/
    confidence_level Samples.addition_a = 0.6 /\
    confidence_level Samples.addition_b = 0.9)) /\
  word_overlap (row_content Samples.addition_a)
               (row_content Samples.addition_b) = 1 / 2 /\
  map mapRowToKnowledge (knowledge_rows Samples.sample_store "persona_1")
  = Samples.sample_group /\
  (word_overlap (row_content Samples.addition_a)
                (row_content Samples.addition_b) > 1 / 3 ->
   findConsolidationCandidates Samples.sample_group
   = [Samples.sample_group] /\
   exists st' r,
     merge_groups Samples.sample_store
       (findConsolidationCandidates Samples.sample_group) = JS.Ok st' /\
     semantic_knowledge st' = [r] /\
     JS.toLowerCase (row_concept r) = "addition"%string /\
     confidence_level r = Rmin 1 (0.9 + 0.05) /\
     confidence_level r = 0.95) /\
  (word_overlap (row_content Samples.addition_a)
                (row_content Samples.addition_b) <= 1 / 3 ->
   findConsolidationCandidates Samples.sample_group = [] /\
   merge_groups Samples.sample_store
     (findConsolidationCandidates Samples.sample_group)
   = JS.Ok Samples.sample_store).
Proof.
  assert (H3 : row_id Samples.addition_a <> row_id Samples.addition_b)
    by discriminate.
  assert (H8 : confidence_level Samples.addition_a = 0.9 /\
               confidence_level Samples.addition_b = 0.6 \/
               confidence_level Samples.addition_a = 0.6 /\
               confidence_level Samples.addition_b = 0.9)
    by (left; split; reflexivity).
  split; [|split].
  - repeat split; try reflexivity; assumption.
  - exact sample_overlap.
  - exact (consolidation_of_addition Samples.addition_a Samples.addition_b
             (vector_embeddings Samples.sample_store) "persona_1"
             eq_refl eq_refl H3 eq_refl eq_refl eq_refl eq_refl H8).
Defined.

Lemma sample_dissimilar :
  calculateConceptSimilarity (mapRowToKnowledge Samples.addition_c)
                             (mapRowToKnowledge Samples.addition_d) = 0.7.
Proof.
  rewrite similarity_formula. unfold word_overlap.
  replace (List.length (findCommonWords
             (JS.toLowerCase (content (mapRowToKnowledge Samples.addition_c)))
             (JS.toLowerCase (content (mapRowToKnowledge Samples.addition_d)))))
    with 0%nat by reflexivity.
  replace (String.eqb
             (JS.toLowerCase (concept (mapRowToKnowledge Samples.addition_c)))
             (JS.toLowerCase (concept (mapRowToKnowledge Samples.addition_d))))
    with true by reflexivity.
  simpl INR. lra.
Qed.

(** C4 as claimed fails: the entries "sum" and "plus" on addition, the
    two rows of the store, share no word; their similarity is [0.7],
    below the threshold, so that they form no group; and the run of
    [consolidateKnowledge] ends with the error of [rows.map] in
    [getAllKnowledge]. Both entries are left in the store. *)
Lemma consolidateKnowledge_same_name_not_enough :
  (row_domain Samples.addition_c = "math"%string /\
   row_domain Samples.addition_d = "math"%string /\
   row_concept Samples.addition_c = "addition"%string /\
   row_concept Samples.addition_d = "addition"%string /\
   row_content Samples.addition_c <> row_content Samples.addition_d /\
   confidence_level Samples.addition_c = 0.9 /\
   confidence_level Samples.addition_d = 0.6) /\
  findConsolidationCandidates
    (map mapRowToKnowledge
         (knowledge_rows
            (mkStore [Samples.addition_c; Samples.addition_d] [])
            "persona_1")) = [] /\
  consolidateKnowledge
    (mkStore [Samples.addition_c; Samples.addition_d] []) "persona_1"
  = (mkStore [Samples.addition_c; Samples.addition_d] [],
     JS.Throw "TypeError: rows.map is not a function") /\
  ~ (exists r,
        semantic_knowledge
          (fst (consolidateKnowledge
                  (mkStore [Samples.addition_c; Samples.addition_d] [])
                  "persona_1")) = [r] /\
        confidence_level r = 0.95).
Proof.
  split; [repeat split; try reflexivity; discriminate|].
  split; [|split].
  - change (map mapRowToKnowledge (knowledge_rows _ "persona_1"))
      with [mapRowToKnowledge Samples.addition_c;
            mapRowToKnowledge Samples.addition_d].
    rewrite candidates_pair; [|discriminate|reflexivity].
    rewrite sample_dissimilar. now rewrite gtb_false by lra.
  - reflexivity.
  - intros (r & Hone & _). discriminate Hone.
Qed.

End KnowledgeConsolidation.

(** ** Awakening an existing persona *)

Section Awakening.
Import Schema PersonaCore.
Context {Mem : Type} (engine : SleepCycleManager.MemoryConsolidation Mem).

(** With a persona row in the store and [isInitialized] still unset,
    [initialize] calls [awakePersona], which calls [getPersonaProfile],
    which calls [initialize] again, in the same state: no bound on the
    depth of calls lets it return. *)
Lemma initialize_existing_diverges (fuel : nat) (now : Z) :
  forall (st : State (Mem := Mem)) (existing : PersonaRow),
    hd_error (personas (db st)) = Some existing ->
    JS.truthy (persona_key existing) = true ->
    isInitialized (self st) = false ->
    initialize engine fuel now st = Diverges.
Proof.
  induction fuel as [|fuel IH]; intros st existing Hhd Hkey Hinit;
    [reflexivity|].
  cbn [initialize]. unfold bind at 1. unfold get at 1.
  destruct st as [[pid init] d m]. cbn [self db mem isInitialized] in *.
  subst init. cbn [andb].
  unfold bind at 1. unfold getExistingPersona, bind at 1, get at 1, ret at 1.
  cbn [db]. rewrite Hhd.
  unfold bind at 1, put_self at 1. cbn [self db mem isInitialized].
  unfold bind at 1, awakePersona, bind at 1, get at 1.
  cbn [self this_personaId]. rewrite Hkey. cbn [negb].
  unfold bind at 1, getPersonaProfile, bind at 1, get at 1.
  cbn [self isInitialized negb orb]. unfold bind at 1, when, bind at 1.
  rewrite (IH _ existing); auto.
Qed.

(** Once the instance is initialized, [awakePersona] runs through; the
    sleep duration it computes from the promise of the persona row is
    [NaN], which is not above thirty minutes: no consolidation pass is
    logged, whatever the time since [last_sleep]. *)
Lemma awakePersona_initialized
      (init : M (Mem := Mem) (option string)) (now : Z)
      (st : State (Mem := Mem)) (p : string) :
  this_personaId (self st) = Some p -> JS.truthy p = true ->
  isInitialized (self st) = true ->
  exists st',
    awakePersona engine init now st = Returns tt st' /\
    sleep_cycles (db st') = sleep_cycles (db st).
Proof.
  destruct st as [[pid ini] d m]. cbn [self db mem this_personaId isInitialized].
  intros -> Hp ->.
  assert (Hhas : has_personaId (mkInstance (Some p) true) = true) by exact Hp.
  unfold awakePersona, bind at 1, get at 1. cbn [self this_personaId].
  rewrite Hp. cbn [negb].
  unfold bind at 1, getPersonaProfile, bind at 1, get at 1.
  cbn [self isInitialized]. rewrite Hhas. cbn [negb orb].
  unfold bind at 1, when, ret at 1, bind at 1, get at 1.
  cbn [self db this_personaId JS.falsy].
  unfold bind at 1, lift, ConsciousnessEngine.getCurrentState.
  cbn [JS.falsy].
  unfold bind at 1, getPersonalityTraits, bind at 1, get at 1.
  cbn [self this_personaId]. rewrite Hp.
  cbn [JS.array_method]. unfold ret at 1, ret at 1.
  cbn [lastSleep JS.field JS.new_date JS.getTime JS.int_sub].
  unfold bind at 1, call_db. cbn [db self mem].
  unfold ConsciousnessEngine.handleAwakening,
    ConsciousnessEngine.getCurrentState. cbn [JS.falsy].
  unfold ConsciousnessEngine.updateState,
    ConsciousnessEngine.getCurrentState.
  cbn [JS.falsy ConsciousnessEngine.u_lastAwakening].
  unfold bind at 1. cbn [JS.int_gtb]. unfold ret at 1.
  unfold updateActivity, bind at 1, get at 1. cbn [self]. rewrite Hhas.
  cbn [negb]. unfold bind at 1, when, ret at 1, bind at 1, get at 1, put_db.
  cbn [db mem self]. eexists. split; [reflexivity|]. reflexivity.
Qed.

(** C9 (the code departs from the claim): on a store that holds a persona
    who fell asleep exactly thirty minutes ago, [initialize] on a fresh
    instance does not return for any bound on the depth of its calls, so
    the persona is neither awakened nor consolidated; and
    [awakePersona] on an instance that is already initialized returns
    without logging a consolidation pass. *)
Theorem initialize_existing_persona_at_thirty_minutes (mem_ : Mem) :
  (forall fuel,
      initialize engine fuel (30 * 60 * 1000)
        (mkSt Samples.fresh_instance Samples.sleeping_persona mem_)
      = Diverges) /\
  (forall fuel, exists st',
      awakePersona engine (initialize engine fuel (30 * 60 * 1000))
        (30 * 60 * 1000)
        (mkSt Samples.ready_instance Samples.sleeping_persona mem_)
      = Returns tt st' /\
      sleep_cycles (db st') = []).
Proof.
  split; intros fuel.
  - eapply initialize_existing_diverges; reflexivity.
  - destruct (awakePersona_initialized
                (initialize engine fuel (30 * 60 * 1000)) (30 * 60 * 1000)
                (mkSt Samples.ready_instance Samples.sleeping_persona mem_)
                "persona_1" eq_refl eq_refl eq_refl)
      as (st' & Hrun & Hlog).
    exists st'. split; [exact Hrun | exact Hlog].
Qed.

(** Nor is a pass logged after a day of sleep. *)
Example awakePersona_after_a_day (mem_ : Mem) (fuel : nat) :
  exists st',
    awakePersona engine (initialize engine fuel (24 * 60 * 60 * 1000))
      (24 * 60 * 60 * 1000)
      (mkSt Samples.ready_instance Samples.sleeping_persona mem_)
    = Returns tt st' /\
    sleep_cycles (db st') = [].
Proof.
  destruct (awakePersona_initialized
              (initialize engine fuel (24 * 60 * 60 * 1000))
              (24 * 60 * 60 * 1000)
              (mkSt Samples.ready_instance Samples.sleeping_persona mem_)
              "persona_1" eq_refl eq_refl eq_refl)
    as (st' & Hrun & Hlog).
  exists st'. split; [exact Hrun | exact Hlog].
Qed.

End Awakening.

(** ** Scores written to the store stay in the unit interval *)

Section UnitInterval.
Import Schema.
Context {Mem : Type}.

(** No difference from a field of the promise exceeds the dead band. *)
Lemma moved_undefined (value : JS.number) :
  ConsciousnessEngine.moved value None = false.
Proof. destruct value; reflexivity. Qed.

Lemma updateConsciousnessLevel_writes_nothing
      (db : Database) (now : Z) (personaId_ : string)
      (adjustments : ConsciousnessEngine.Adjustments) :
  ConsciousnessEngine.updateConsciousnessLevel db now personaId_ adjustments
  = (db, JS.Ok tt).
Proof.
  unfold ConsciousnessEngine.updateConsciousnessLevel,
    ConsciousnessEngine.getCurrentState.
  cbn [JS.falsy JS.field ConsciousnessEngine.view_selfAwareness
       ConsciousnessEngine.view_temporalContinuity
       ConsciousnessEngine.view_socialCognition
       ConsciousnessEngine.view_metacognition].
  now rewrite !moved_undefined.
Qed.

(** The loop over the adjustments finds no current trait to adjust. *)
Lemma for_each_skip {A : Type} (l : list A)
      (body : A -> PersonaCore.M (Mem := Mem) unit) :
  (forall x, In x l -> body x = PersonaCore.ret tt) ->
  PersonaCore.for_each l body = PersonaCore.ret tt.
Proof.
  induction l as [|x l IH]; intros Hbody; [reflexivity|].
  cbn [PersonaCore.for_each]. rewrite (Hbody x) by now left.
  rewrite IH by (intros y Hy; apply Hbody; now right).
  reflexivity.
Qed.

Lemma getPersonalityTraits_empty (st : PersonaCore.State (Mem := Mem)) :
  PersonaCore.getPersonalityTraits st = PersonaCore.Returns [] st.
Proof.
  unfold PersonaCore.getPersonalityTraits, PersonaCore.bind, PersonaCore.get.
  destruct (PersonaCore.this_personaId (PersonaCore.self st)) as [p|];
    [|reflexivity].
  destruct (JS.truthy p); reflexivity.
Qed.

Lemma evolvePersonalityFromExperience_writes_nothing
      (init : PersonaCore.M (Mem := Mem) (option string)) (now : Z)
      (experienceData : PersonaCore.ExperienceData)
      (st : PersonaCore.State (Mem := Mem)) :
  PersonaCore.evolvePersonalityFromExperience init now experienceData st
  = PersonaCore.when
      (negb (PersonaCore.has_personaId (PersonaCore.self st)))
      (PersonaCore.bind init (fun _ => PersonaCore.ret tt)) st.
Proof.
  unfold PersonaCore.evolvePersonalityFromExperience.
  unfold PersonaCore.bind at 1, PersonaCore.get at 1.
  unfold PersonaCore.bind at 1.
  destruct (PersonaCore.when _ _ st) as [|[] st'|msg st']; try reflexivity.
  unfold PersonaCore.bind at 1. rewrite getPersonalityTraits_empty.
  rewrite for_each_skip; [reflexivity|].
  intros [traitName adjustment] _. reflexivity.
Qed.

Lemma updateKnowledgeConfidence_rows
      (st : SemanticMemory.Store) (knowledgeId : string) (newConfidence : R)
      (reinforcingExperience : option string) :
  forall r',
    In r' (SemanticMemory.semantic_knowledge
             (fst (SemanticMemory.updateKnowledgeConfidence
                     st knowledgeId newConfidence reinforcingExperience))) ->
    In r' (SemanticMemory.semantic_knowledge st) \/
    (SemanticMemory.row_id r' = knowledgeId /\
     SemanticMemory.confidence_level r' = newConfidence /\
     in01 newConfidence).
Proof.
  intros r'. unfold SemanticMemory.updateKnowledgeConfidence, JS.fire,
    SemanticMemory.update_confidence. cbn [fst].
  destruct (existsb _ _) eqn:Ehit; cbn [andb].
  - destruct (JS.check01 newConfidence) eqn:Echeck; cbn [negb]; [|now left].
    cbn [SemanticMemory.semantic_knowledge]. intros Hin.
    apply in_map_iff in Hin as (r & <- & Hr).
    destruct (String.eqb_spec (SemanticMemory.row_id r) knowledgeId) as [E|E];
      [|now left].
    right. cbn. split; [exact E|]. split; [reflexivity|].
    now apply check01_spec.
  - cbn [SemanticMemory.semantic_knowledge]. intros Hin.
    apply in_map_iff in Hin as (r & <- & Hr).
    destruct (String.eqb_spec (SemanticMemory.row_id r) knowledgeId) as [E|E];
      [|now left].
    exfalso. apply not_true_iff_false in Ehit. apply Ehit.
    apply existsb_exists. exists r. split; [exact Hr|].
    now apply String.eqb_eq.
Qed.

(** A confidence outside the unit interval is refused by the store. *)
Lemma updateKnowledgeConfidence_refused
      (st : SemanticMemory.Store) (knowledgeId : string) (newConfidence : R)
      (reinforcingExperience : option string) :
  ~ in01 newConfidence ->
  fst (SemanticMemory.updateKnowledgeConfidence
         st knowledgeId newConfidence reinforcingExperience) = st.
Proof.
  intros Hout. unfold SemanticMemory.updateKnowledgeConfidence, JS.fire,
    SemanticMemory.update_confidence. cbn [fst].
  assert (Echeck : JS.check01 newConfidence = false).
  { apply not_true_is_false. intros H. apply Hout. now apply check01_spec. }
  rewrite Echeck. cbn [negb]. rewrite andb_true_r.
  destruct (existsb _ _) eqn:Ehit; [reflexivity|].
  destruct st as [rows vecs]. cbn [SemanticMemory.semantic_knowledge
                                    SemanticMemory.vector_embeddings] in *.
  f_equal. rewrite <- (map_id rows) at 2. apply map_ext_in. intros r Hr.
  destruct (String.eqb_spec (SemanticMemory.row_id r) knowledgeId) as [E|E];
    [|reflexivity].
  exfalso. apply not_true_iff_false in Ehit. apply Ehit.
  apply existsb_exists. exists r. split; [exact Hr|].
  now apply String.eqb_eq.
Qed.

(** A confidence of the unit interval is taken by every row of that id. *)
Lemma updateKnowledgeConfidence_taken
      (st : SemanticMemory.Store) (knowledgeId : string) (newConfidence : R)
      (reinforcingExperience : option string) :
  in01 newConfidence ->
  SemanticMemory.semantic_knowledge
    (fst (SemanticMemory.updateKnowledgeConfidence
            st knowledgeId newConfidence reinforcingExperience))
  = map (fun r =>
           if String.eqb (SemanticMemory.row_id r) knowledgeId
           then SemanticMemory.mkRow
                  (SemanticMemory.row_id r) (SemanticMemory.persona_id r)
                  (SemanticMemory.row_domain r) (SemanticMemory.row_concept r)
                  (SemanticMemory.row_content r) newConfidence
                  (SemanticMemory.row_source r)
                  (SemanticMemory.row_relationships r)
           else r)
        (SemanticMemory.semantic_knowledge st).
Proof.
  intros Hin. unfold SemanticMemory.updateKnowledgeConfidence, JS.fire,
    SemanticMemory.update_confidence. cbn [fst].
  rewrite (proj2 (check01_spec newConfidence) Hin). cbn [negb].
  rewrite andb_false_r. reflexivity.
Qed.


(** A confidence of [1.5] for the first sample entry is refused and the
    caller is not told; [0.7] is taken. *)
Example updateKnowledgeConfidence_at_work :
  SemanticMemory.updateKnowledgeConfidence Samples.sample_store "know_1" 1.5
                                           None
  = (Samples.sample_store, JS.Ok tt) /\
  map SemanticMemory.confidence_level
      (SemanticMemory.semantic_knowledge
         (fst (SemanticMemory.updateKnowledgeConfidence
                 Samples.sample_store "know_1" 0.7 None)))
  = [0.7; 0.6].
Proof.
  split.
  - unfold SemanticMemory.updateKnowledgeConfidence. f_equal.
    apply (updateKnowledgeConfidence_refused Samples.sample_store "know_1"
             1.5 None).
    unfold in01. lra.
  - rewrite updateKnowledgeConfidence_taken by (unfold in01; lra).
    reflexivity.
Qed.

(** The sample skill after a success and after a failure: as before. *)
Example updateSkillPerformance_at_work :
  ProceduralMemory.updateSkillPerformance [Samples.unconditional_skill] 0
                                          "skill_1" true []
  = ([Samples.unconditional_skill], JS.Ok tt) /\
  ProceduralMemory.updateSkillPerformance [Samples.unconditional_skill] 0
                                          "skill_1" false []
  = ([Samples.unconditional_skill], JS.Ok tt).
Proof.
  split; rewrite updateSkillPerformance_unfold; now rewrite run_update_NaN.
Qed.

End UnitInterval.

(** ** Sorting *)

Section Sorting.
Context {A : Type}.

Lemma insert_by_sorted (le : A -> A -> bool) (x : A) (l : list A) :
  (forall y, In y l -> le x y = false -> le y x = true) ->
  Sorted (fun a b => le a b = true) l ->
  Sorted (fun a b => le a b = true) (JS.insert_by le x l).
Proof.
  intros Htot Hs. induction l as [|y l IH]; simpl.
  - repeat constructor.
  - destruct (le x y) eqn:E.
    + constructor; [exact Hs | now constructor].
    + inversion_clear Hs as [|? ? Hl Hhd].
      constructor.
      * apply IH; [intros z Hz; apply Htot; now right | exact Hl].
      * destruct l as [|z l]; simpl.
        -- constructor. apply Htot; [now left | exact E].
        -- destruct (le x z); constructor.
           ++ apply Htot; [now left | exact E].
           ++ now inversion_clear Hhd.
Qed.

Lemma order_by_sorted (le : A -> A -> bool) (l : list A) :
  (forall x y, In x l -> In y l -> le x y = false -> le y x = true) ->
  Sorted (fun a b => le a b = true) (JS.order_by le l).
Proof.
  induction l as [|x l IH]; intros Htot; simpl; [constructor|].
  apply insert_by_sorted.
  - intros y Hy. apply in_order_by in Hy. apply Htot; [now left | now right].
  - apply IH. intros a b Ha Hb. apply Htot; now right.
Qed.

Lemma sorted_within (P Q : A -> A -> Prop) (l : list A) :
  (forall a b, In a l -> In b l -> P a b -> Q a b) ->
  Sorted P l -> Sorted Q l.
Proof.
  induction l as [|x l IH]; intros Himp Hs; [constructor|].
  inversion_clear Hs as [|? ? Hl Hhd]. constructor.
  - apply IH; [|exact Hl]. intros a b Ha Hb. apply Himp; now right.
  - destruct Hhd as [|y l' Hxy]; constructor.
    apply Himp; [now left | right; now left | exact Hxy].
Qed.

Lemma descending_of_sorted (key : A -> R) (l : list A) :
  Sorted (fun a b => key b <= key a) l -> descending key l.
Proof.
  apply Sorted_StronglySorted. intros a b c Hab Hbc. lra.
Qed.

Lemma strongly_sorted_firstn (P : A -> A -> Prop) (n : nat)
      (l : list A) :
  StronglySorted P l -> StronglySorted P (firstn n l).
Proof.
  revert l; induction n as [|n IH]; intros [|x l] H; simpl; try constructor.
  - inversion_clear H. now apply IH.
  - inversion_clear H as [|? ? _ Hall].
    rewrite Forall_forall in *. intros y Hy. apply Hall.
    now apply in_firstn in Hy.
Qed.

Lemma descending_firstn (key : A -> R) (n : nat) (l : list A) :
  descending key l -> descending key (firstn n l).
Proof. apply strongly_sorted_firstn. Qed.

(** Sorting by a finite score with [(a, b) => key(b) - key(a)]. *)
Lemma sort_descending (key : A -> JS.number) (l : list A) :
  (forall r, In r l -> exists s, key r = JS.Num s) ->
  descending (fun r => finite (key r))
             (JS.sort (fun a b => JS.sub (key b) (key a)) l).
Proof.
  intros Hnum. apply descending_of_sorted. unfold JS.sort.
  set (le := fun a b : A => negb (JS.positive (JS.sub (key b) (key a)))).
  assert (Hle : forall a b, In a l -> In b l ->
                            (le a b = true <-> finite (key b) <= finite (key a))).
  { intros a b Ha Hb. destruct (Hnum a Ha) as (sa & Ea).
    destruct (Hnum b Hb) as (sb & Eb).
    unfold le. rewrite Ea, Eb. simpl.
    rewrite negb_true_iff. split.
    - intros H. destruct (Rlt_dec 0 (sb - sa)) as [Hlt|Hge].
      + now rewrite (ltb_true _ _ Hlt) in H.
      + lra.
    - intros H. apply ltb_false. lra. }
  apply (sorted_within (fun a b => le a b = true)).
  - intros a b Ha Hb. apply in_order_by in Ha, Hb. now apply Hle.
  - apply order_by_sorted. intros a b Ha Hb Hf.
    apply (Hle b a Hb Ha).
    destruct (Rle_dec (finite (key b)) (finite (key a))) as [H|H].
    + apply (Hle a b Ha Hb) in H. congruence.
    + lra.
Qed.

End Sorting.


(** ** The ranked search *)

Section RankedSearch.
Import EmbeddingGenerator.
Context {Meta : Type}.

Lemma calculateSimilarity_result (a b : list R) :
  match calculateSimilarity a b with
  | JS.Ok v =>
      List.length a = List.length b /\
      (v = JS.NaN \/ exists s, v = JS.Num s /\ -1 <= s <= 1)
  | JS.Throw msg =>
      List.length a <> List.length b /\ msg = dimension_error
  end.
Proof.
  destruct (Nat.eq_dec (List.length a) (List.length b)) as [E|N].
  - rewrite (calculateSimilarity_eq a b E). split; [exact E|].
    destruct (JS.div (dot a b) (norm a * norm b)) as [| | |r]; simpl.
    + now left.
    + right. exists (Rmax (-1) 1). split; [reflexivity|].
      rewrite Rmax_right; lra.
    + right. exists (-1). split; [reflexivity | lra].
    + right. exists (Rmax (-1) (Rmin 1 r)). split; [reflexivity|].
      apply (clamp_bounds (-1) 1 r). lra.
  - unfold calculateSimilarity. rewrite (proj2 (Nat.eqb_neq _ _) N).
    simpl. now split.
Qed.

(** What [similarities] yields, candidate by candidate. *)
Lemma similarities_spec (q : list R) (cs : list (Candidate Meta)) :
  match similarities q cs with
  | JS.Ok rs =>
      Forall2 (fun c r =>
                 scored_id r = cand_id c /\
                 scored_metadata r = cand_metadata c /\
                 calculateSimilarity q (cand_embedding c) = JS.Ok (score r))
              cs rs
  | JS.Throw msg =>
      msg = dimension_error /\
      exists c, In c cs /\ List.length (cand_embedding c) <> List.length q
  end.
Proof.
  induction cs as [|c cs IH]; simpl; [constructor|].
  pose proof (calculateSimilarity_result q (cand_embedding c)) as Hc.
  destruct (calculateSimilarity q (cand_embedding c)) as [v|msg] eqn:E; simpl.
  - destruct (similarities q cs) as [rs|msg]; simpl.
    + constructor; [simpl; now repeat split | exact IH].
    + destruct IH as (-> & c' & Hin & Hlen). split; [reflexivity|].
      exists c'. split; [now right | exact Hlen].
  - destruct Hc as (Hlen & ->). split; [reflexivity|].
    exists c. split; [now left | congruence].
Qed.

Lemma forall2_in_right {X Y : Type} (P : X -> Y -> Prop) (xs : list X)
      (ys : list Y) (y : Y) :
  Forall2 P xs ys -> In y ys -> exists x, In x xs /\ P x y.
Proof.
  induction 1 as [|x0 y0 xs ys Hp _ IH]; simpl; [tauto|].
  intros [<- | Hin].
  - exists x0. split; [now left | exact Hp].
  - destruct (IH Hin) as (x & Hx & Hpx). exists x. split; [now right | exact Hpx].
Qed.

Lemma forall2_in_left {X Y : Type} (P : X -> Y -> Prop) (xs : list X)
      (ys : list Y) (x : X) :
  Forall2 P xs ys -> In x xs -> exists y, In y ys /\ P x y.
Proof.
  induction 1 as [|x0 y0 xs ys Hp _ IH]; simpl; [tauto|].
  intros [<- | Hin].
  - exists y0. split; [now left | exact Hp].
  - destruct (IH Hin) as (y & Hy & Hpy). exists y. split; [now right | exact Hpy].
Qed.

Lemma geb_num_spec (v : JS.number) (th : R) :
  (v = JS.NaN \/ exists s, v = JS.Num s /\ -1 <= s <= 1) ->
  JS.geb_num v th = true <-> exists s, v = JS.Num s /\ th <= s.
Proof.
  intros [-> | (s & -> & _)]; simpl.
  - split; [discriminate | intros (s & H & _); discriminate].
  - unfold JS.geb. rewrite leb_spec. split.
    + intros H. now exists s.
    + intros (s' & [= <-] & H). exact H.
Qed.

(** The ranked list: sorted and cut off. *)
Lemma ranked_descending (limit : nat) (l : list (Scored Meta)) :
  (forall r, In r l -> exists s, score r = JS.Num s) ->
  descending (fun r => finite (score r))
             (firstn limit (JS.sort by_score l)).
Proof.
  intros Hnum. apply descending_firstn. now apply (sort_descending score).
Qed.

(** The results that pass the threshold, traced back to their candidates. *)
Lemma similarities_kept (q : list R) (cs : list (Candidate Meta))
      (threshold : R) (all : list (Scored Meta)) :
  similarities q cs = JS.Ok all ->
  forall r,
    In r (filter (fun item => JS.geb_num (score item) threshold) all) ->
    exists c s,
      In c cs /\ scored_id r = cand_id c /\
      scored_metadata r = cand_metadata c /\
      calculateSimilarity q (cand_embedding c) = JS.Ok (JS.Num s) /\
      score r = JS.Num s /\ threshold <= s <= 1.
Proof.
  intros Eall r Hr. pose proof (similarities_spec q cs) as Hall.
  rewrite Eall in Hall. apply filter_In in Hr as (Hr & Hk).
  destruct (forall2_in_right _ _ _ _ Hall Hr) as (c & Hc & Hid & Hmeta & Hsim).
  pose proof (calculateSimilarity_result q (cand_embedding c)) as Hres.
  rewrite Hsim in Hres. destruct Hres as (_ & Hshape).
  apply (geb_num_spec _ _ Hshape) in Hk as (s & Es & Hth).
  destruct Hshape as [Hn | (s' & Es' & Hb)]; [congruence|].
  assert (s' = s) by congruence. subst s'.
  exists c, s. rewrite Es in Hsim. repeat split; try assumption; lra.
Qed.

Lemma similarities_dimensions (q : list R) (cs : list (Candidate Meta))
      (all : list (Scored Meta)) :
  similarities q cs = JS.Ok all ->
  forall c, In c cs -> List.length (cand_embedding c) = List.length q.
Proof.
  intros Eall c Hc. pose proof (similarities_spec q cs) as Hall.
  rewrite Eall in Hall.
  destruct (forall2_in_left _ _ _ _ Hall Hc) as (r & _ & _ & _ & Hsim).
  pose proof (calculateSimilarity_result q (cand_embedding c)) as Hres.
  rewrite Hsim in Hres. symmetry. exact (proj1 Hres).
Qed.

(** As many results pass the threshold as candidates qualify. *)
Lemma kept_count (q : list R) (threshold : R) (cs : list (Candidate Meta))
      (all : list (Scored Meta)) :
  Forall2 (fun c r =>
             scored_id r = cand_id c /\
             scored_metadata r = cand_metadata c /\
             calculateSimilarity q (cand_embedding c) = JS.Ok (score r))
          cs all ->
  List.length (filter (fun item => JS.geb_num (score item) threshold) all)
  = List.length (filter (qualifies q threshold) cs).
Proof.
  induction 1 as [|c r cs all (_ & _ & Hsim) _ IH]; [reflexivity|].
  cbn [filter]. unfold qualifies at 1. rewrite Hsim.
  destruct (JS.geb_num (score r) threshold); cbn [List.length]; congruence.
Qed.

(** X2: [findTopSimilar] throws, with the dimension error, exactly when
    some candidate has another dimension than the query, whatever its
    score would be.  Otherwise it returns at most [limit] results in
    order of descending score; each is a candidate with its similarity, a
    finite number between the threshold and [1] (a candidate whose
    similarity is [NaN] is dropped); and when no more than [limit]
    candidates are at or above the threshold, every one of them is
    returned. *)
Theorem findTopSimilar_ranks_candidates (q : list R)
        (cs : list (Candidate Meta)) (limit : nat) (threshold : R) :
  ((exists c, In c cs /\ List.length (cand_embedding c) <> List.length q) <->
   findTopSimilar q cs limit threshold = JS.Throw dimension_error) /\
  ((forall c, In c cs -> List.length (cand_embedding c) = List.length q) <->
   exists rs, findTopSimilar q cs limit threshold = JS.Ok rs) /\
  (forall rs,
      findTopSimilar q cs limit threshold = JS.Ok rs ->
      (List.length rs <= limit)%nat /\
      descending (fun r => finite (score r)) rs /\
      (forall r, In r rs ->
         exists c s,
           In c cs /\ scored_id r = cand_id c /\
           scored_metadata r = cand_metadata c /\
           calculateSimilarity q (cand_embedding c) = JS.Ok (JS.Num s) /\
           score r = JS.Num s /\ threshold <= s <= 1) /\
      ((List.length (filter (qualifies q threshold) cs) <= limit)%nat ->
       forall c s,
         In c cs ->
         calculateSimilarity q (cand_embedding c) = JS.Ok (JS.Num s) ->
         threshold <= s ->
         In (mkScored (cand_id c) (JS.Num s) (cand_metadata c)) rs)).
Proof.
  unfold findTopSimilar.
  pose proof (similarities_spec q cs) as Hall.
  pose proof (similarities_kept q cs threshold) as Hkept.
  pose proof (similarities_dimensions q cs) as Hdim.
  destruct (similarities q cs) as [all|msg]; cbn [JS.bind].
  - specialize (Hkept all eq_refl). specialize (Hdim all eq_refl).
    split; [|split].
    + split; [|discriminate].
      intros (c & Hc & Hne). elim Hne. now apply Hdim.
    + split; [intros _; eexists; reflexivity | intros _; exact Hdim].
    + intros rs [= <-].
      set (keep := fun item : Scored Meta => JS.geb_num (score item) threshold)
        in *.
      repeat split.
      * apply firstn_le_length.
      * apply ranked_descending. intros r Hr.
        destruct (Hkept r Hr) as (c & s & _ & _ & _ & _ & Es & _).
        now exists s.
      * intros r Hr. apply in_firstn in Hr. apply in_order_by in Hr.
        now apply Hkept.
      * intros Hsmall c s Hc Hsim Hth.
        destruct (forall2_in_left _ _ _ _ Hall Hc)
          as (r & Hr & Hid & Hmeta & Hsim').
        assert (Er : r = mkScored (cand_id c) (JS.Num s) (cand_metadata c)).
        { destruct r as [i v m]; simpl in *. congruence. }
        subst r. rewrite firstn_all2.
        -- apply in_order_by. apply filter_In. split; [exact Hr|].
           unfold keep; simpl. now apply geb_true.
        -- unfold JS.sort. rewrite length_order_by.
           unfold keep. rewrite (kept_count q threshold cs all Hall).
           exact Hsmall.
  - destruct Hall as (-> & c & Hc & Hne). split; [|split].
    + split; [reflexivity | intros _; now exists c].
    + split; [|intros (rs & H); discriminate H].
      intros Hsame. elim Hne. now apply Hsame.
    + intros rs H. discriminate H.
Qed.

End RankedSearch.

(** ** Semantic memory: the knowledge graph *)

Section KnowledgeGraph.
Import SemanticMemory.

Lemma filter_nothing {A : Type} (p : A -> bool) (l : list A) :
  existsb p l = false -> filter p l = [].
Proof.
  induction l as [|x l IH]; simpl; [reflexivity|].
  destruct (p x); simpl; [discriminate | exact IH].
Qed.

Lemma conceptMap_push_get (m : list (string * list string)) (k' k : string)
      (rels : list string) :
  conceptMap_get (conceptMap_push m k' rels) k
  = if String.eqb k' k
    then Some (JS.nullish (conceptMap_get m k) [] ++ rels)
    else conceptMap_get m k.
Proof.
  induction m as [|[k0 v] m IH]; simpl.
  - destruct (String.eqb k' k); reflexivity.
  - destruct (String.eqb k0 k') eqn:E0; simpl.
    + apply String.eqb_eq in E0. subst k0.
      destruct (String.eqb k' k); reflexivity.
    + destruct (String.eqb k0 k) eqn:E1; [|exact IH].
      apply String.eqb_eq in E1. subst k0.
      apply String.eqb_neq in E0.
      destruct (String.eqb k' k) eqn:E2; [|reflexivity].
      apply String.eqb_eq in E2. congruence.
Qed.

Lemma conceptMap_fold_get (knowledge : list SemanticKnowledge) (k : string) :
  forall m,
    conceptMap_get
      (fold_left (fun m item =>
                    conceptMap_push m (concept item) (relationships item))
                 knowledge m) k
    = if existsb (fun other => String.eqb (concept other) k) knowledge
      then Some (JS.nullish (conceptMap_get m k) [] ++ gathered knowledge k)
      else conceptMap_get m k.
Proof.
  unfold gathered.
  induction knowledge as [|item knowledge IH]; intros m; simpl; [reflexivity|].
  rewrite IH, conceptMap_push_get.
  destruct (String.eqb (concept item) k); simpl.
  - destruct (existsb _ knowledge) eqn:Ex; simpl.
    + now rewrite <- app_assoc.
    + rewrite (filter_nothing _ _ Ex). simpl. now rewrite app_nil_r.
  - reflexivity.
Qed.

(** X14: [constructKnowledgeGraph] yields one node per entry, in order,
    carrying the entry's id, concept, domain and content.  The connections
    of a node are the relationships of all the entries that share its
    concept, gathered in order, so that entries of one concept get the same
    connections; and its strength is the confidence raised by a tenth per
    connection, by [0.3] at most, and capped at [1]. *)
Theorem constructKnowledgeGraph_nodes (knowledge : list SemanticKnowledge) :
  Forall2 (fun item node =>
             node_id node = id item /\
             node_concept node = concept item /\
             node_domain node = domain item /\
             node_content node = content item /\
             connections node = gathered knowledge (concept item) /\
             strength node
             = Rmin 1 (confidenceLevel item
                       + Rmin (INR (List.length (connections node)) * 0.1) 0.3)
             /\
             Rmin 1 (confidenceLevel item) <= strength node <= 1 /\
             strength node <= confidenceLevel item + 0.3)
          knowledge (constructKnowledgeGraph knowledge).
Proof.
  unfold constructKnowledgeGraph. apply forall2_map. intros item Hitem.
  cbn [node_id node_concept node_domain node_content connections strength].
  rewrite conceptMap_fold_get.
  assert (Hex : existsb (fun other => String.eqb (concept other) (concept item))
                        knowledge = true).
  { apply existsb_exists. exists item. split; [exact Hitem|].
    apply String.eqb_refl. }
  rewrite Hex. simpl JS.nullish.
  repeat split; try reflexivity; unfold calculateConnectionStrength.
  - apply Rmin_glb; [apply Rmin_l|].
    eapply Rle_trans; [apply Rmin_r|].
    assert (0 <= Rmin (INR (List.length (gathered knowledge (concept item)))
                       * 0.1) 0.3).
    { apply Rmin_glb; [|lra].
      pose proof (pos_INR (List.length (gathered knowledge (concept item)))).
      nra. }
    lra.
  - apply Rmin_l.
  - eapply Rle_trans; [apply Rmin_r|].
    pose proof (Rmin_r (INR (List.length (gathered knowledge (concept item)))
                        * 0.1) 0.3). lra.
Qed.

End KnowledgeGraph.

(** ** Procedural memory: similarity of contexts *)

Section ContextSimilarity.
Import ProceduralMemory.

Lemma toLowerCase_char_idempotent (c : ascii) :
  JS.toLowerCase_char (JS.toLowerCase_char c) = JS.toLowerCase_char c.
Proof.
  destruct c as [b0 b1 b2 b3 b4 b5 b6 b7].
  destruct b0, b1, b2, b3, b4, b5, b6, b7; reflexivity.
Qed.

Lemma toLowerCase_idempotent (s : string) :
  JS.toLowerCase (JS.toLowerCase s) = JS.toLowerCase s.
Proof.
  induction s as [|c s IH]; simpl; [reflexivity|].
  now rewrite toLowerCase_char_idempotent, IH.
Qed.

Lemma set_of_NoDup (xs : list string) : NoDup (JS.set_of xs).
Proof. apply dedupe_NoDup. Qed.

Lemma same_members_same_size (xs ys : list string) :
  (forall x, In x xs <-> In x ys) ->
  List.length (JS.set_of xs) = List.length (JS.set_of ys).
Proof.
  intros H. apply Permutation_length.
  apply NoDup_Permutation; try apply set_of_NoDup.
  intros x. rewrite !set_of_spec. apply H.
Qed.

Lemma in_common (set1 set2 : list string) (x : string) :
  In x (filter (fun x => existsb (String.eqb x) set2) set1)
  <-> In x set1 /\ In x set2.
Proof.
  rewrite filter_In. split; intros (H1 & H2); (split; [exact H1|]).
  - apply existsb_exists in H2 as (y & Hy & E).
    apply String.eqb_eq in E. now subst y.
  - apply existsb_exists. exists x. split; [exact H2 | apply String.eqb_refl].
Qed.

Lemma nonempty_length {A : Type} (l : list A) :
  Nat.eqb (List.length l) 0 = false <-> l <> [].
Proof. destruct l; simpl; split; congruence. Qed.


End ContextSimilarity.

(** ** Memory consolidation engine: time patterns *)

Section TimePatterns.
Import EpisodicMemory CreativeIntegration.

Lemma tallied_tally (acc : list (string * nat)) (k' k : string) :
  tallied (tally acc k') k
  = if String.eqb k' k then S (tallied acc k) else tallied acc k.
Proof.
  unfold tallied. induction acc as [|[k0 n] acc IH]; simpl.
  - destruct (String.eqb k' k); reflexivity.
  - destruct (String.eqb k0 k') eqn:E0; simpl.
    + apply String.eqb_eq in E0. subst k0.
      destruct (String.eqb k' k); reflexivity.
    + destruct (String.eqb k0 k) eqn:E1; [|exact IH].
      apply String.eqb_eq in E1. subst k0.
      destruct (String.eqb k' k) eqn:E2; [|reflexivity].
      apply String.eqb_eq in E2. subst k'.
      rewrite String.eqb_refl in E0. discriminate.
Qed.

Lemma tally_keys (acc : list (string * nat)) (k' k : string) :
  In k (map fst (tally acc k')) <-> k = k' \/ In k (map fst acc).
Proof.
  induction acc as [|[k0 n] acc IH]; simpl; [intuition congruence|].
  destruct (String.eqb k0 k') eqn:E0; simpl.
  - apply String.eqb_eq in E0. subst k0. intuition congruence.
  - rewrite IH. intuition congruence.
Qed.

Lemma tally_NoDup (acc : list (string * nat)) (k' : string) :
  NoDup (map fst acc) -> NoDup (map fst (tally acc k')).
Proof.
  induction acc as [|[k0 n] acc IH]; simpl; intros Hnd.
  - repeat constructor. simpl. tauto.
  - inversion_clear Hnd as [|? ? Hk Hacc].
    destruct (String.eqb k0 k') eqn:E0; simpl.
    + now constructor.
    + constructor; [|now apply IH].
      rewrite tally_keys. intros [-> | H]; [|contradiction].
      rewrite String.eqb_refl in E0. discriminate.
Qed.

Lemma tally_positive (acc : list (string * nat)) (k' : string) :
  (forall kv, In kv acc -> (0 < snd kv)%nat) ->
  forall kv, In kv (tally acc k') -> (0 < snd kv)%nat.
Proof.
  induction acc as [|[k0 n] acc IH]; simpl; intros Hpos kv Hkv.
  - destruct Hkv as [<- | []]. simpl. lia.
  - destruct (String.eqb k0 k'); simpl in Hkv.
    + destruct Hkv as [<- | Hkv]; [simpl; lia | apply Hpos; now right].
    + destruct Hkv as [<- | Hkv]; [apply (Hpos (k0, n)); now left|].
      apply IH; [|exact Hkv]. intros kv' H'. apply Hpos. now right.
Qed.

Lemma tallied_in (acc : list (string * nat)) (k : string) (n : nat) :
  NoDup (map fst acc) -> In (k, n) acc -> tallied acc k = n.
Proof.
  unfold tallied. induction acc as [|[k0 n0] acc IH]; simpl; intros Hnd Hin;
    [contradiction|].
  inversion_clear Hnd as [|? ? Hk Hacc].
  destruct Hin as [[= -> ->] | Hin].
  - now rewrite String.eqb_refl.
  - destruct (String.eqb k0 k) eqn:E; [|now apply IH].
    apply String.eqb_eq in E. subst k0. exfalso. apply Hk.
    apply in_map_iff. now exists (k, n).
Qed.

Lemma in_tallied (acc : list (string * nat)) (k : string) :
  (0 < tallied acc k)%nat -> In (k, tallied acc k) acc.
Proof.
  unfold tallied. destruct (find _ acc) as [[k0 n]|] eqn:F; simpl; [|lia].
  intros _. apply find_some in F as (Hin & E). simpl in E.
  apply String.eqb_eq in E. now subst k0.
Qed.

(** The groups of the day [identifyTimePatterns] builds. *)
Lemma timeGroups_spec (episodes : list EpisodicMemoryEntry) :
  forall acc,
    NoDup (map fst acc) ->
    (forall kv, In kv acc -> (0 < snd kv)%nat) ->
    let groups :=
      fold_left (fun acc episode =>
                   tally acc (timeSlot (getHours (timestamp episode))))
                episodes acc in
    NoDup (map fst groups) /\
    (forall kv, In kv groups -> (0 < snd kv)%nat) /\
    (forall k, tallied groups k = (tallied acc k + slot_count k episodes)%nat).
Proof.
  unfold slot_count.
  induction episodes as [|e episodes IH]; intros acc Hnd Hpos; simpl.
  - repeat split; try assumption. intros k. lia.
  - destruct (IH (tally acc (timeSlot (getHours (timestamp e))))
                 (tally_NoDup _ _ Hnd) (tally_positive _ _ Hpos))
      as (H1 & H2 & H3).
    repeat split; try assumption. intros k. rewrite H3, tallied_tally.
    destruct (String.eqb _ k); simpl; lia.
Qed.

Lemma max_of_counts (l : list nat) :
  (forall n, In n l -> (n <= fold_right Nat.max 0 l)%nat) /\
  (l <> [] -> In (fold_right Nat.max 0%nat l) l).
Proof.
  induction l as [|x l (IH1 & IH2)]; simpl.
  - split; [tauto | congruence].
  - split.
    + intros n [<- | Hn]; [lia|]. specialize (IH1 n Hn). lia.
    + intros _. destruct l as [|y l].
      * left. simpl. lia.
      * destruct (Nat.max_spec x (fold_right Nat.max 0%nat (y :: l)))
          as [(_ & ->) | (_ & ->)]; [right; apply IH2; discriminate | now left].
Qed.

(** X22: [identifyTimePatterns] reports exactly the slots of the day
    (morning before noon, afternoon before six, evening after) into which
    the most episodes fall, each as [dominant_<slot>_activity], several on
    a tie; for no episode it reports nothing and for at least one episode
    at least one slot. *)
Theorem identifyTimePatterns_dominant (episodes : list EpisodicMemoryEntry) :
  (forall p, In p (identifyTimePatterns episodes) <->
     exists slot,
       p = ("dominant_" ++ slot ++ "_activity")%string /\
       (0 < slot_count slot episodes)%nat /\
       forall other, (slot_count other episodes
                      <= slot_count slot episodes)%nat) /\
  (identifyTimePatterns episodes = [] <-> episodes = []).
Proof.
  unfold identifyTimePatterns.
  destruct (timeGroups_spec episodes [] (NoDup_nil _)
              (fun kv (H : In kv []) => match H with end))
    as (Hnd & Hpos & Hcount).
  simpl in Hcount.
  set (groups := fold_left _ episodes []) in *.
  set (maxCount := fold_right Nat.max 0%nat (map snd groups)).
  destruct (max_of_counts (map snd groups)) as (Hmax & Hattained).
  fold maxCount in Hmax, Hattained.
  assert (Hgroup : forall k n, In (k, n) groups <->
                               n = slot_count k episodes /\ (0 < n)%nat).
  { intros k n. split.
    - intros Hin. split; [|exact (Hpos _ Hin)].
      now rewrite <- Hcount, (tallied_in _ _ _ Hnd Hin).
    - intros (-> & Hn). rewrite <- Hcount in *. now apply in_tallied. }
  assert (Hdom : forall slot,
            In slot (map fst (filter (fun kv => Nat.eqb (snd kv) maxCount)
                                     groups))
            <-> (0 < slot_count slot episodes)%nat /\
                forall other, (slot_count other episodes
                               <= slot_count slot episodes)%nat).
  { intros slot. rewrite in_map_iff. split.
    - intros ([k n] & Hk & Hin). simpl in Hk. subst k.
      apply filter_In in Hin as (Hin & E). simpl in E.
      apply Nat.eqb_eq in E. apply Hgroup in Hin as (-> & Hn).
      split; [exact Hn|]. intros other.
      destruct (Nat.eq_dec (slot_count other episodes) 0) as [->|Hne]; [lia|].
      rewrite E. apply Hmax. apply in_map_iff.
      exists (other, slot_count other episodes). split; [reflexivity|].
      apply Hgroup. split; [reflexivity | lia].
    - intros (Hn & Hbest).
      assert (Hin : In (slot, slot_count slot episodes) groups)
        by (apply Hgroup; now split).
      exists (slot, slot_count slot episodes). split; [reflexivity|].
      apply filter_In. split; [exact Hin|]. simpl. apply Nat.eqb_eq.
      assert (Hne : map snd groups <> [])
        by (destruct groups; [contradiction | discriminate]).
      apply Hattained in Hne. apply in_map_iff in Hne as ([k n] & E & Hk).
      simpl in E. subst n. apply Hgroup in Hk as (Ek & _).
      assert (Hle : (slot_count slot episodes <= maxCount)%nat).
      { apply Hmax. apply in_map_iff. now exists (slot, slot_count slot episodes). }
      specialize (Hbest k). lia. }
  split.
  - intros p. rewrite in_map_iff. split.
    + intros (slot & <- & Hslot). exists slot. split; [reflexivity|].
      now apply Hdom.
    + intros (slot & -> & Hslot). exists slot. split; [reflexivity|].
      now apply Hdom.
  - split.
    + intros Hnone. destruct episodes as [|e episodes]; [reflexivity|].
      exfalso.
      assert (Hne : map snd groups <> []).
      { assert (Hin : In (timeSlot (getHours (timestamp e)),
                          slot_count (timeSlot (getHours (timestamp e)))
                                     (e :: episodes)) groups).
        { apply Hgroup. split; [reflexivity|]. unfold slot_count. simpl.
          rewrite String.eqb_refl. simpl. lia. }
        destruct groups; [contradiction | discriminate]. }
      apply Hattained in Hne. apply in_map_iff in Hne as ([k n] & E & Hk).
      simpl in E. subst n.
      assert (Hin : In k (map fst (filter (fun kv => Nat.eqb (snd kv) maxCount)
                                          groups))).
      { apply in_map_iff. exists (k, maxCount). split; [reflexivity|].
        apply filter_In. split; [exact Hk|]. simpl. apply Nat.eqb_refl. }
      apply map_eq_nil in Hnone. rewrite Hnone in Hin. contradiction.
    + intros ->. reflexivity.
Qed.

End TimePatterns.

(** ** The birth of a persona *)

Section PersonaBirth.
Import Schema PersonaCore.
Context {Mem : Type} (engine : SleepCycleManager.MemoryConsolidation Mem).

Lemma insert_rows (p : string) (now : Z) (l : list (string * R * string)) :
  forall st : State (Mem := Mem),
    NoDup (map (fun t => fst (fst t)) l) ->
    (forall t, In t l -> in01 (snd (fst t))) ->
    (forall r, In r (personality_traits (db st)) ->
               trait_persona_id r = p ->
               ~ In (trait_name r) (map (fun t => fst (fst t)) l)) ->
    for_each l (fun t =>
      let '(name_, value_, description_) := t in
      run_db (fun d => insert_trait d
                (mkTrait p name_ value_ description_ now))) st
    = Returns tt
        (mkSt (self st)
           (with_traits (db st)
              (personality_traits (db st) ++
               map (fun t => let '(name_, value_, description_) := t in
                             mkTrait p name_ value_ description_ now) l))
           (mem st)).
Proof.
  induction l as [|[[name_ value_] description_] l IH];
    intros st Hnd Hval Hfree.
  - simpl. unfold ret. rewrite app_nil_r.
    destruct st as [i [a b c d e] m]. reflexivity.
  - cbn [for_each]. unfold bind at 1. unfold run_db at 1, JS.fire, insert_trait.
    cbn [value trait_persona_id trait_name].
    assert (Hv : JS.check01 value_ = true).
    { apply check01_spec. apply (Hval (name_, value_, description_)).
      now left. }
    rewrite Hv. cbn [negb].
    assert (Hex : existsb (fun r => (String.eqb (trait_persona_id r) p
                                     && String.eqb (trait_name r) name_)%bool)
                          (personality_traits (db st)) = false).
    { apply existsb_false_iff. intros r Hr.
      destruct (String.eqb (trait_persona_id r) p) eqn:E1; [|reflexivity].
      destruct (String.eqb (trait_name r) name_) eqn:E2; [|reflexivity].
      apply String.eqb_eq in E1, E2. exfalso.
      apply (Hfree r Hr E1). left. now rewrite E2. }
    rewrite Hex. rewrite IH.
    + cbn [self db mem personality_traits with_traits].
      rewrite <- app_assoc. reflexivity.
    + inversion Hnd; assumption.
    + intros t Ht. apply Hval. now right.
    + cbn [db personality_traits with_traits]. intros r Hr Hp Hin.
      apply in_app_or in Hr as [Hr | [<- | []]].
      * apply (Hfree r Hr Hp). now right.
      * cbn [trait_name] in Hin. inversion Hnd; contradiction.
Qed.

(** X23: on a store without persona, state or trait, [initialize] of an
    instance that is not initialized returns the id [persona_<now>] and
    leaves exactly one persona row, one state row with the scalars
    [0.5], [0.8], [0.6], [0.7] and the mode [awake], and the seven
    default traits, all in [[0,1]]; the instance is initialized, and a
    later call returns the same id and changes nothing. *)
Theorem initialize_creates_persona (fuel fuel' : nat) (now later : Z)
        (held : option string) (log : list EvolutionRow)
        (cycles : list SleepCycleRow) (m : Mem) :
  let p := ("persona_" ++ JS.string_of_Z now)%string in
  let born :=
    mkSt (mkInstance (Some p) true)
         (mkDatabase [default_persona p now]
                     (default_trait_rows p now)
                     [mkState p 0.5 0.8 0.6 0.7 awake
                              [("initialized"%string, JBoolean true)]
                              now now]
                     log cycles) m in
  initialize engine (S fuel) now
             (mkSt (mkInstance held false) (mkDatabase [] [] [] log cycles) m)
  = Returns (Some p) born /\
  initialize engine (S fuel') later born = Returns (Some p) born /\
  List.length (personality_traits (db born)) = 7%nat /\
  (forall t, In t (personality_traits (db born)) ->
             trait_persona_id t = p /\ in01 (value t)).
Proof.
  intros p born. split; [|split; [|split]].
  - cbn [initialize]. unfold bind at 1, get at 1.
    cbn [self isInitialized andb].
    unfold bind at 1, getExistingPersona, bind at 1, get at 1, ret at 1.
    cbn [db personas hd_error].
    unfold bind at 1, createDefaultPersona.
    unfold bind at 1, run_db at 1, JS.fire. cbn [db personas existsb].
    unfold bind at 1, modify_db at 1, ConsciousnessEngine.initialize,
      ConsciousnessEngine.insert_state, JS.fire.
    cbn [db consciousness_states with_personas existsb].
    unfold bind at 1, createDefaultPersonalityTraits.
    rewrite insert_rows.
    + reflexivity.
    + unfold defaultTraits. simpl.
      repeat constructor; simpl; intuition discriminate.
    + unfold defaultTraits, in01. simpl.
      intros t Ht. repeat destruct Ht as [<- | Ht]; simpl; try lra;
        try contradiction.
    + simpl. intros r [].
  - cbn [initialize]. unfold bind at 1, get at 1. reflexivity.
  - reflexivity.
  - unfold born, default_trait_rows, defaultTraits, in01. simpl.
    intros t Ht. repeat destruct Ht as [<- | Ht]; simpl;
      try (split; [reflexivity | lra]); try contradiction.
Qed.

End PersonaBirth.

(** ** Sleep cycles: intervals and efficiency *)

Section SleepIntervals.
Import Schema SleepCycleManager.

Lemma fold_add (l : list Z) (a : Z) :
  fold_left Z.add l a = (a + fold_left Z.add l 0)%Z.
Proof.
  revert a. induction l as [|x l IH]; intros a; simpl; [lia|].
  rewrite (IH (a + x)%Z), (IH x). lia.
Qed.

Lemma last_from {A : Type} (l : list A) (a d : A) :
  last (a :: l) d = last l a.
Proof.
  revert a d. induction l as [|x l IH]; intros a d; [reflexivity|].
  change (last (a :: x :: l) d) with (last (x :: l) d).
  now rewrite (IH x d), (IH x a).
Qed.

Lemma intervals_telescope (first : SleepCycleRow)
      (rest : list SleepCycleRow) :
  fold_left Z.add (intervals (first :: rest)) 0%Z
  = (cycle_timestamp first - cycle_timestamp (last rest first))%Z /\
  List.length (intervals (first :: rest)) = List.length rest.
Proof.
  revert first. induction rest as [|next rest IH]; intros first.
  - simpl. split; [lia | reflexivity].
  - destruct (IH next) as [IHs IHl].
    change (intervals (first :: next :: rest))
      with ((cycle_timestamp first - cycle_timestamp next)%Z
            :: intervals (next :: rest)).
    cbn [fold_left List.length]. rewrite fold_add, IHs, IHl.
    split; [|reflexivity].
    rewrite last_from. lia.
Qed.

(** The efficiency of any list of cycles is a fraction of [[0,1]]. *)
Lemma calculateSleepEfficiency_in01 (cycles : list SleepCycleRow) :
  in01 (calculateSleepEfficiency cycles).
Proof.
  unfold calculateSleepEfficiency, in01.
  destruct cycles as [|first rest]; [simpl; lra|].
  set (cycles := first :: rest).
  assert (Hpos : 0 < INR (List.length cycles))
    by (apply lt_0_INR; simpl; lia).
  assert (Hle : INR (List.length (filter consolidation_processed cycles))
                <= INR (List.length cycles))
    by (apply le_INR, filter_length_le).
  assert (H0 : 0 <= INR (List.length
                           (filter consolidation_processed cycles)))
    by apply pos_INR.
  change (Nat.eqb (List.length cycles) 0) with false. cbv iota.
  split.
  - apply Rmult_le_pos; [exact H0|]. left. now apply Rinv_0_lt_compat.
  - apply Rmult_le_reg_r with (INR (List.length cycles)); [exact Hpos|].
    unfold Rdiv. rewrite Rmult_assoc, Rinv_l by lra. lra.
Qed.

(** X29: the average interval of a list of sleep cycles is the time
    between its first and its last cycle divided by the number of gaps,
    whatever lies between; it is [0] for fewer than two cycles, and not
    negative when the first cycle is the latest, as in the descending
    order the cycles are read in.  The efficiency of every list of
    cycles, of one cycle or of none as well, is a fraction of [[0,1]]. *)
Theorem calculateAverageInterval_telescopes (first : SleepCycleRow)
        (middle : list SleepCycleRow) (final : SleepCycleRow)
        (cycles : list SleepCycleRow) :
  calculateAverageInterval [] = 0 /\
  calculateAverageInterval [first] = 0 /\
  calculateAverageInterval (first :: middle ++ [final])
  = IZR (cycle_timestamp first - cycle_timestamp final)
    / INR (S (List.length middle)) /\
  ((cycle_timestamp final <= cycle_timestamp first)%Z ->
   0 <= calculateAverageInterval (first :: middle ++ [final])) /\
  in01 (calculateSleepEfficiency cycles) /\
  calculateSleepEfficiency [] = 0.
Proof.
  assert (Havg : calculateAverageInterval (first :: middle ++ [final])
                 = IZR (cycle_timestamp first - cycle_timestamp final)
                   / INR (S (List.length middle))).
  { unfold calculateAverageInterval.
    destruct (intervals_telescope first (middle ++ [final])) as [Hs Hl].
    rewrite Hs, Hl, last_last. cbn [List.length].
    rewrite length_app. cbn [List.length]. rewrite Nat.add_1_r.
    reflexivity. }
  split; [reflexivity|]. split; [reflexivity|]. split; [exact Havg|].
  split.
  - intros Hle. rewrite Havg.
    assert (H0 : 0 <= IZR (cycle_timestamp first - cycle_timestamp final))
      by (apply IZR_le; lia).
    assert (Hn : 0 < INR (S (List.length middle))) by (apply lt_0_INR; lia).
    apply Rmult_le_pos; [exact H0|].
    left. now apply Rinv_0_lt_compat.
  - split; [apply calculateSleepEfficiency_in01 | reflexivity].
Qed.

End SleepIntervals.

(** ** Persona core: updating a trait *)

Section TraitUpdate.
Import Schema PersonaCore.
Context {Mem : Type}.

(** The run of [updatePersonalityTrait] for a value of the unit
    interval. *)
Lemma updatePersonalityTrait_run
      (init : M (Mem := Mem) (option string)) (now : Z) (p : string)
      (initialized : bool) (d : Database) (m : Mem)
      (traitName : string) (newValue : R) (reason : option string) :
  JS.truthy p = true -> in01 newValue ->
  updatePersonalityTrait init now traitName newValue reason
    (mkSt (mkInstance (Some p) initialized) d m)
  = Returns tt
      (mkSt (mkInstance (Some p) initialized)
            (update_last_active now (Some p)
               (with_traits d
                  (map (fun r =>
                          if trait_matches p traitName r
                          then mkTrait (trait_persona_id r) (trait_name r)
                                       newValue (trait_description r) now
                          else r)
                       (personality_traits d))))
            m).
Proof.
  intros Hp Hin.
  assert (Hhas : has_personaId (mkInstance (Some p) initialized) = true)
    by exact Hp.
  unfold updatePersonalityTrait, bind at 1, get at 1.
  cbn [self]. rewrite Hhas. cbn [negb]. unfold bind at 1, when, ret at 1.
  assert (Hgood : (JS.ltb newValue 0 || JS.gtb newValue 1)%bool = false).
  { unfold in01 in Hin. apply orb_false_iff.
    split; [apply ltb_false | apply gtb_false]; lra. }
  rewrite Hgood.
  unfold bind at 1, get at 1. cbn [self this_personaId db].
  unfold update_trait.
  rewrite (proj2 (check01_spec newValue) Hin). cbn [negb].
  rewrite andb_false_r.
  unfold bind at 1, put_db at 1. cbn [self db mem JS.field].
  unfold bind at 1, ret at 1.
  unfold updateActivity, bind at 1, get at 1. cbn [self]. rewrite Hhas.
  cbn [negb]. unfold bind at 1, ret at 1, bind at 1, get at 1, put_db.
  cbn [db mem self this_personaId]. reflexivity.
Qed.

(** X24: on an instance that holds its persona id, [updatePersonalityTrait]
    refuses a value outside [[0,1]] with its own message before it writes
    anything; otherwise it never fails: every trait row of that name and
    persona takes the new value and time, the other trait rows stay as
    they were, and the persona is marked active.  A trait that is missing
    is not created, the number of changed rows being read off the promise
    of the update: the table of traits is then as before. *)
Theorem updatePersonalityTrait_updates_never_creates
        (init : M (Mem := Mem) (option string)) (now : Z) (p : string)
        (initialized : bool) (d : Database) (m : Mem)
        (traitName : string) (newValue : R) (reason : option string) :
  JS.truthy p = true ->
  (~ in01 newValue ->
   updatePersonalityTrait init now traitName newValue reason
     (mkSt (mkInstance (Some p) initialized) d m)
   = Throws "Personality trait value must be between 0 and 1"
            (mkSt (mkInstance (Some p) initialized) d m)) /\
  (in01 newValue ->
   updatePersonalityTrait init now traitName newValue reason
     (mkSt (mkInstance (Some p) initialized) d m)
   = Returns tt
       (mkSt (mkInstance (Some p) initialized)
             (update_last_active now (Some p)
                (with_traits d
                   (map (fun r =>
                           if trait_matches p traitName r
                           then mkTrait (trait_persona_id r) (trait_name r)
                                        newValue (trait_description r) now
                           else r)
                        (personality_traits d))))
             m)) /\
  ((forall r, In r (personality_traits d) ->
              trait_matches p traitName r = false) ->
   map (fun r =>
          if trait_matches p traitName r
          then mkTrait (trait_persona_id r) (trait_name r)
                       newValue (trait_description r) now
          else r)
       (personality_traits d)
   = personality_traits d).
Proof.
  intros Hp.
  assert (Hhas : has_personaId (mkInstance (Some p) initialized) = true)
    by exact Hp.
  split; [|split].
  - intros Hout.
    unfold updatePersonalityTrait, bind at 1, get at 1.
    cbn [self]. rewrite Hhas. cbn [negb]. unfold bind at 1, when, ret at 1.
    assert (Hbad : (JS.ltb newValue 0 || JS.gtb newValue 1)%bool = true).
    { unfold in01 in Hout. apply orb_true_iff.
      destruct (Rlt_dec newValue 0) as [Hlt|Hge].
      - left. now apply ltb_true.
      - right. apply gtb_true. lra. }
    rewrite Hbad. reflexivity.
  - intros Hin. now apply updatePersonalityTrait_run.
  - intros Hmiss. rewrite <- (map_id (personality_traits d)) at 2.
    apply map_ext_in. intros r Hr. now rewrite (Hmiss r Hr).
Qed.

End TraitUpdate.

Lemma updatePersonalityTrait_updates_never_creates_witness :
  JS.truthy "persona_1" = true /\
  (~ in01 0.9 ->
   PersonaCore.updatePersonalityTrait (Mem := unit) (PersonaCore.ret None) 5
     "curiosity" 0.9 None
     (PersonaCore.mkSt Samples.ready_instance Samples.outgoing_persona tt)
   = PersonaCore.Throws "Personality trait value must be between 0 and 1"
       (PersonaCore.mkSt Samples.ready_instance Samples.outgoing_persona tt)) /\
  (in01 0.9 ->
   PersonaCore.updatePersonalityTrait (Mem := unit) (PersonaCore.ret None) 5
     "curiosity" 0.9 None
     (PersonaCore.mkSt Samples.ready_instance Samples.outgoing_persona tt)
   = PersonaCore.Returns tt
       (PersonaCore.mkSt Samples.ready_instance
          (PersonaCore.update_last_active 5 (Some "persona_1"%string)
             (Schema.with_traits Samples.outgoing_persona
                (map (fun r =>
                        if PersonaCore.trait_matches "persona_1" "curiosity" r
                        then Schema.mkTrait (Schema.trait_persona_id r)
                               (Schema.trait_name r) 0.9
                               (Schema.trait_description r) 5
                        else r)
                     (Schema.personality_traits Samples.outgoing_persona))))
          tt)) /\
  ((forall r, In r (Schema.personality_traits Samples.outgoing_persona) ->
              PersonaCore.trait_matches "persona_1" "curiosity" r = false) ->
   map (fun r =>
          if PersonaCore.trait_matches "persona_1" "curiosity" r
          then Schema.mkTrait (Schema.trait_persona_id r)
                 (Schema.trait_name r) 0.9 (Schema.trait_description r) 5
          else r)
       (Schema.personality_traits Samples.outgoing_persona)
   = Schema.personality_traits Samples.outgoing_persona).
Proof.
  split; [reflexivity|].
  exact (updatePersonalityTrait_updates_never_creates
           (Mem := unit) (PersonaCore.ret None) 5 "persona_1" true
           Samples.outgoing_persona tt "curiosity" 0.9 None eq_refl).
Defined.

(** The trait [curiosity], missing from the sample store, is still
    missing after its update to [0.9]; the update of [extraversion], which
    is on record, is taken. *)
Example updatePersonalityTrait_at_work :
  (exists st',
      PersonaCore.updatePersonalityTrait (Mem := unit) (PersonaCore.ret None)
        5 "curiosity" 0.9 None
        (PersonaCore.mkSt Samples.ready_instance Samples.outgoing_persona tt)
      = PersonaCore.Returns tt st' /\
      Schema.personality_traits (PersonaCore.db st')
      = [Schema.mkTrait "persona_1" "extraversion" 0.5 "" 0]) /\
  (exists st',
      PersonaCore.updatePersonalityTrait (Mem := unit) (PersonaCore.ret None)
        5 "extraversion" 0.9 None
        (PersonaCore.mkSt Samples.ready_instance Samples.outgoing_persona tt)
      = PersonaCore.Returns tt st' /\
      Schema.personality_traits (PersonaCore.db st')
      = [Schema.mkTrait "persona_1" "extraversion" 0.9 "" 5]).
Proof.
  assert (Hin : in01 0.9) by (unfold in01; lra).
  split.
  - eexists. split.
    + apply (updatePersonalityTrait_run (Mem := unit) (PersonaCore.ret None)
               5 "persona_1" true Samples.outgoing_persona tt "curiosity"
               0.9 None eq_refl Hin).
    + reflexivity.
  - eexists. split.
    + apply (updatePersonalityTrait_run (Mem := unit) (PersonaCore.ret None)
               5 "persona_1" true Samples.outgoing_persona tt "extraversion"
               0.9 None eq_refl Hin).
    + reflexivity.
Qed.

(** ** Consciousness engine: sleep, dream and awakening *)

Section SleepAndWake.
Import Schema ConsciousnessEngine.

Lemma calculateTemporalContinuity_range (sleepDuration : JS.integer) :
  0.6 <= calculateTemporalContinuity sleepDuration <= 0.95.
Proof.
  unfold calculateTemporalContinuity.
  destruct sleepDuration as [d|].
  - repeat match goal with
           | |- context [JS.ltb ?a ?b] => destruct (JS.ltb a b)
           end;
      unfold Rmin, Rmax;
      repeat match goal with
             | |- context [Rle_dec ?a ?b] => destruct (Rle_dec a b)
             end; lra.
  - unfold Rmax. destruct (Rle_dec _ _); lra.
Qed.

(** X27: [transitionToSleep] and [enterDreamState] end, on every store
    and for every persona, with the [RangeError] of [toISOString] on the
    invalid date that [getCurrentState] builds from the promise of the
    state row, and write nothing.  [handleAwakening], which supplies the
    date itself, never fails: in the state row of the persona it sets the
    mode to [awake] and the temporal continuity to a value of
    [[0.6,0.95]] that depends on the sleep duration alone, stores [NULL]
    for self-awareness, social cognition and metacognition, and a context
    of exactly the four keys of the awakening; other rows and tables stay
    as they were. *)
Theorem sleep_and_dream_reject_awakening_resets
        (db : Database) (now : Z) (personaId_ : string) (dreamType : string)
        (sleepDuration : JS.integer) :
  transitionToSleep db now personaId_
  = (db, JS.Throw "RangeError: Invalid time value") /\
  enterDreamState db now personaId_ dreamType
  = (db, JS.Throw "RangeError: Invalid time value") /\
  handleAwakening db now personaId_ sleepDuration
  = (with_states db
       (map (fun r =>
               if String.eqb (personaId r) personaId_
               then mkState (personaId r) None
                      (calculateTemporalContinuity sleepDuration) None None
                      awake
                      [("lastAwakening"%string, JDate now);
                       ("sleepDuration"%string,
                        match sleepDuration with
                        | Some d => JNumber d
                        | None => JNull
                        end);
                       ("timeAwareness"%string,
                        JString (formatTimeAwareness sleepDuration));
                       ("awakenedFromSleep"%string, JBoolean true)]
                      now now
               else r)
            (consciousness_states db)),
     JS.Ok tt) /\
  0.6 <= calculateTemporalContinuity sleepDuration <= 0.95.
Proof.
  split; [reflexivity|]. split; [reflexivity|].
  split; [reflexivity|]. apply calculateTemporalContinuity_range.
Qed.

End SleepAndWake.

(** ** Sleep cycle manager: maintenance *)

Section Maintenance.
Import Schema SleepCycleManager.

(** X28: [getLastMaintenanceDate] answers [null] whatever is on record,
    so that [scheduleMaintenance] performs the maintenance at every call,
    however short the time since the last one: each call adds one
    processed cycle of type [maintenance] and duration [0] for the
    persona, and two calls in a row add two. *)
Theorem scheduleMaintenance_every_call
        (db : Database) (now later : Z) (personaId_ : string) :
  getLastMaintenanceDate db personaId_ = None /\
  scheduleMaintenance db now personaId_ = performMaintenance db now personaId_ /\
  sleep_cycles (scheduleMaintenance db now personaId_)
  = sleep_cycles db ++ [mkSleepCycle personaId_ maintenance 0 now true] /\
  sleep_cycles (scheduleMaintenance (scheduleMaintenance db now personaId_)
                                    later personaId_)
  = sleep_cycles db ++ [mkSleepCycle personaId_ maintenance 0 now true;
                        mkSleepCycle personaId_ maintenance 0 later true].
Proof.
  assert (Hlast : forall d, getLastMaintenanceDate d personaId_ = None)
    by reflexivity.
  assert (Hrun : forall d t,
             scheduleMaintenance d t personaId_
             = performMaintenance d t personaId_).
  { intros d t. unfold scheduleMaintenance. rewrite Hlast.
    cbn [JS.geb_num]. now rewrite geb_true by lra. }
  split; [apply Hlast|]. split; [apply Hrun|].
  rewrite !Hrun. unfold performMaintenance, logSleepCycle.
  cbn [sleep_cycles with_personas with_sleep_cycles].
  split; [reflexivity|]. now rewrite <- app_assoc.
Qed.

End Maintenance.

